(** * metaframe-bluetooth: the Bluetooth component

    A shallow embedding of [src/components/Bluetooth.tsx]: the payload
    decoder and output-key resolution of the per-characteristic
    [listener], the alias mapping built from the hash-parameter options,
    and the connection state machine ([reset], [scan], the effect that
    resolves the service and subscribes to its characteristics).

    React state is one record, [Component]; every [setX] call of the
    source is a field update in a state-and-exception monad; each
    [await] splits an async function into the part that runs up to the
    suspension and a continuation, [Task], that is resumed with the
    settlement of the promise. *)

From Stdlib Require Import ZArith List Bool Ascii String Strings.Byte Sorting.Sorted
  Permutation Floats.SpecFloat Structures.OrderedTypeEx.
From stdpp Require Import base option gmap strings list fin_maps.

Local Open Scope string_scope.
Local Open Scope list_scope.
Local Open Scope Z_scope.

(** ** Buffers and typed arrays *)

Module Buffer.

(** An [ArrayBuffer]: its bytes, in order. *)
Definition ArrayBuffer : Type := list byte.

Definition byteLength (buf : ArrayBuffer) : Z := Z.of_nat (length buf).

Definition byte_val (b : byte) : Z := Z.of_N (Byte.to_N b).

(** [new Uint8Array(buf)[i]]; [None] stands for [undefined]. *)
Definition Uint8Array_get (buf : ArrayBuffer) (i : nat) : option Z :=
  byte_val <$> buf !! i.

(** The 32-bit word held by four consecutive bytes of a little-endian
    platform (the only byte order of the browsers that ship Web
    Bluetooth). *)
Definition le32 (b0 b1 b2 b3 : byte) : Z :=
  Z.lor (byte_val b0)
    (Z.lor (Z.shiftl (byte_val b1) 8)
       (Z.lor (Z.shiftl (byte_val b2) 16) (Z.shiftl (byte_val b3) 24))).

(** The number denoted by an IEEE 754 binary32 bit pattern: sign in bit
    31, biased exponent in bits 30..23, fraction in bits 22..0.  Every
    binary32 value is a JavaScript number, so this is also the element
    that [Array.from] copies out of a [Float32Array]. *)
Definition float32_of_bits (w : Z) : spec_float :=
  let s := Z.testbit w 31 in
  let e := Z.land (Z.shiftr w 23) 255 in
  let m := Z.land w (Z.ones 23) in
  if e =? 0 then
    if m =? 0 then S754_zero s else S754_finite s (Z.to_pos m) (-149)
  else if e =? 255 then
    if m =? 0 then S754_infinity s else S754_nan
  else S754_finite s (Z.to_pos (Z.lor m (Z.shiftl 1 23))) (e - 150).

(** The elements of a [Float32Array] view over whole groups of four
    bytes. *)
Fixpoint float32_elements (buf : ArrayBuffer) : list spec_float :=
  match buf with
  | b0 :: b1 :: b2 :: b3 :: rest =>
      float32_of_bits (le32 b0 b1 b2 b3) :: float32_elements rest
  | _ => []
  end.

End Buffer.

(** ** Values, errors and results *)

(** A thrown value as [`${error}`] renders it. *)
Definition Error : Type := string.

(** The outcome of an expression that may throw. *)
Inductive Result (A : Type) : Type :=
| Ok (a : A)
| Throw (e : Error).
Arguments Ok {A} a.
Arguments Throw {A} e.

(** The values the options object holds: the option menu writes strings
    and booleans ([type: "string"], [type: "boolean"]). *)
Inductive JSValue : Type :=
| JString (s : string)
| JBoolean (b : bool).

#[global] Instance JSValue_eq_dec : EqDecision JSValue.
Proof. solve_decision. Defined.

(** Truthiness of a value that may be [undefined]. *)
Definition truthy (v : option JSValue) : bool :=
  match v with
  | None => false
  | Some (JString s) => negb (String.eqb s "")
  | Some (JBoolean b) => b
  end.

(** [`${v}`], and the conversion of a computed property key. *)
Definition ToString (v : option JSValue) : string :=
  match v with
  | None => "undefined"
  | Some (JString s) => s
  | Some (JBoolean true) => "true"
  | Some (JBoolean false) => "false"
  end.

(** [type OutputType = boolean | number[] | undefined | string] *)
Inductive OutputType : Type :=
| VUndefined
| VBoolean (b : bool)
| VNumbers (l : list spec_float)
| VString (s : string).

(** [type Outputs = { [key in string]: OutputType }] *)
Abbreviation Outputs := (gmap string OutputType).

(** ** The [unibabel] package *)

Module Unibabel.
Import Buffer.

Definition alphabet : string :=
  "ABCDEFGHIJKLMNOPQRSTUVWXYZabcdefghijklmnopqrstuvwxyz0123456789+/".

Definition sextet_char (n : Z) : ascii :=
  match String.get (Z.to_nat n) alphabet with
  | Some c => c
  | None => "="%char
  end.

(** Modelled from the spec: the base64 encoding that the package
    [unibabel], whose code is not part of this repository, leaves to
    the [btoa] of the browser; the spec has it "base64-encode the raw
    bytes", which is taken here as the padded base64 of RFC 4648 over
    the bytes that are the characters of the binary string: three bytes
    give four characters, a final group of one or two bytes is padded
    with [=]. *)
Fixpoint btoa (buf : list byte) : string :=
  match buf with
  | [] => ""
  | [b0] =>
      let w := Z.shiftl (byte_val b0) 16 in
      String (sextet_char (Z.shiftr w 18))
        (String (sextet_char (Z.land (Z.shiftr w 12) 63)) "==")
  | [b0; b1] =>
      let w := Z.lor (Z.shiftl (byte_val b0) 16) (Z.shiftl (byte_val b1) 8) in
      String (sextet_char (Z.shiftr w 18))
        (String (sextet_char (Z.land (Z.shiftr w 12) 63))
           (String (sextet_char (Z.land (Z.shiftr w 6) 63)) "="))
  | b0 :: b1 :: b2 :: rest =>
      let w := Z.lor (Z.shiftl (byte_val b0) 16)
                 (Z.lor (Z.shiftl (byte_val b1) 8) (byte_val b2)) in
      String (sextet_char (Z.shiftr w 18))
        (String (sextet_char (Z.land (Z.shiftr w 12) 63))
           (String (sextet_char (Z.land (Z.shiftr w 6) 63))
              (String (sextet_char (Z.land w 63)) (btoa rest))))
  end.

(** What [bufferToBase64] may be handed: a typed array over the bytes,
    or the [ArrayBuffer] itself. *)
Inductive Argument : Type :=
| TypedArray (elements : list byte)
| ArrayBufferObject (buf : ArrayBuffer).

(** [bufferToBinaryString]: the package goes through its argument as
    through an array, from index 0 below its [length], and makes a
    character of every element.  The elements of a typed array are its
    bytes.  An [ArrayBuffer] has no [length] (it has a [byteLength])
    and no indexed element: nothing of it is visited. *)
Definition bufferToBinaryString (buf : Argument) : list byte :=
  match buf with
  | TypedArray elements => elements
  | ArrayBufferObject _ => []
  end.

(** [Unibabel.bufferToBase64(arr)]: [btoa] of that binary string. *)
Definition bufferToBase64 (arr : Argument) : string :=
  btoa (bufferToBinaryString arr).

(** The inverse of the table: the sextet a character stands for. *)
Fixpoint index_of (c : ascii) (s : string) : option Z :=
  match s with
  | EmptyString => None
  | String c' s' => if Ascii.eqb c c' then Some 0 else Z.succ <$> index_of c s'
  end.

Definition char_sextet (c : ascii) : option Z := index_of c alphabet.

Definition to_byte (z : Z) : byte := default x00 (Byte.of_N (Z.to_N z)).

(** Modelled from the spec: [Unibabel.base64ToBuffer], the decoding the
    spec's round trip speaks of ("base64-decoding the decode-failure
    branch's output reproduces the original bytes exactly"): four
    characters give three bytes, a group that ends in [=] or [==] gives
    two or one; [None] for a text that is no padded base64. *)
Fixpoint base64ToBuffer (s : string) : option ArrayBuffer :=
  match s with
  | EmptyString => Some []
  | String c0 (String c1 (String c2 (String c3 rest))) =>
      t0 ← char_sextet c0;
      t1 ← char_sextet c1;
      let v := Z.lor (Z.shiftl t0 18) (Z.shiftl t1 12) in
      if Ascii.eqb c2 "=" then
        if Ascii.eqb c3 "=" && String.eqb rest "" then
          Some [to_byte (Z.land (Z.shiftr v 16) 255)]
        else None
      else
        t2 ← char_sextet c2;
        let v := Z.lor v (Z.shiftl t2 6) in
        if Ascii.eqb c3 "=" then
          if String.eqb rest "" then
            Some [to_byte (Z.land (Z.shiftr v 16) 255);
                  to_byte (Z.land (Z.shiftr v 8) 255)]
          else None
        else
          t3 ← char_sextet c3;
          let v := Z.lor v t3 in
          bytes ← base64ToBuffer rest;
          Some (to_byte (Z.land (Z.shiftr v 16) 255)
                :: to_byte (Z.land (Z.shiftr v 8) 255)
                :: to_byte (Z.land v 255) :: bytes)
  | _ => None
  end.

End Unibabel.

(** ** The payload decoder (the [val] of [listener]) *)

Module Decoder.
Import Buffer.

(** [new Float32Array(buf)]: the constructor raises a [RangeError] when
    the byte length is not a multiple of the element size. *)
Definition Float32Array (buf : ArrayBuffer) : Result (list spec_float) :=
  if Z.rem (byteLength buf) 4 =? 0 then Ok (float32_elements buf)
  else Throw "RangeError: byte length of Float32Array should be a multiple of 4".

(** [x === 1] for an array element that may be [undefined]. *)
Definition is_one (x : option Z) : bool :=
  match x with
  | Some n => n =? 1
  | None => false
  end.

(** The value computed from [possibleArrayBuffer = c.value?.buffer]
    ([None] when the characteristic has no value yet):
<<
    let val: OutputType;
    if (possibleArrayBuffer) {
      if (possibleArrayBuffer.byteLength === 1) {
        val = new Uint8Array(possibleArrayBuffer)[0] === 1;
      } else if (possibleArrayBuffer.byteLength % 4 === 0) {
        val = Array.from(new Float32Array(possibleArrayBuffer));
      } else {
        val = Unibabel.bufferToBase64(possibleArrayBuffer);
      }
    }
>>
    An [ArrayBuffer] object is truthy whatever its length.  The first
    two branches make a typed array of the buffer; the last hands the
    buffer itself to [Unibabel.bufferToBase64]. *)
Definition decode (possibleArrayBuffer : option ArrayBuffer) : Result OutputType :=
  match possibleArrayBuffer with
  | None => Ok VUndefined
  | Some buf =>
      if byteLength buf =? 1 then
        Ok (VBoolean (is_one (Uint8Array_get buf 0)))
      else if Z.rem (byteLength buf) 4 =? 0 then
        match Float32Array buf with
        | Ok floats => Ok (VNumbers floats)
        | Throw e => Throw e
        end
      else Ok (VString (Unibabel.bufferToBase64
                          (Unibabel.ArrayBufferObject buf)))
  end.

End Decoder.

(** ** The data of the component *)

(** [status: "info" | "error" | "warning" | "success" | undefined] *)
Module Status.
Inductive t : Type := info | error | warning | success.

#[global] Instance eq_dec : EqDecision t.
Proof. solve_decision. Defined.
End Status.

Record InfoBlob : Type := mkInfoBlob {
  title : option string;
  message : option string;
  status : option Status.t;
}.

(** [{ status: s, message: m }] *)
Definition blob (s : Status.t) (m : string) : InfoBlob :=
  {| title := None; message := Some m; status := Some s |}.

Inductive State : Type :=
| Begin
| Scanning
| Connecting
| ChoosingService
| GettingService
| GettingCharacteristics
| FinishedSuccess
| FinishedError.

#[global] Instance State_eq_dec : EqDecision State.
Proof. solve_decision. Defined.

(** The hash parameter [options], as the object it parses to. *)
Abbreviation Options := (gmap string JSValue).

(** Platform handles.  A GATT server or service is known to the
    component only by its identity. *)
Definition BluetoothRemoteGATTServer : Type := nat.
Definition BluetoothRemoteGATTService : Type := nat.

(** A characteristic: its identifier and [value?.buffer], the buffer of
    the value it last notified. *)
Record BluetoothRemoteGATTCharacteristic : Type := mkCharacteristic {
  uuid : string;
  value_buffer : option Buffer.ArrayBuffer;
}.

Record BluetoothDevice : Type := mkDevice {
  gatt : option BluetoothRemoteGATTServer;
}.

Inductive RequestDeviceOptions : Type :=
| filters_services (services : list JSValue)
| acceptAllDevices.

(** The [useState] cells of [Bluetooth], [outputsRef.current], and the
    hash parameter the component reads. *)
Record Component : Type := mkComponent {
  optionsInHashParams : option Options;
  keyAliases : option Options;
  bluetoothState : State;
  characteristics : list BluetoothRemoteGATTCharacteristic;
  server : option BluetoothRemoteGATTServer;
  service : option BluetoothRemoteGATTService;
  info : list InfoBlob;
  outputsRef : Outputs;
  outputs : Outputs;
}.

(** [optionsInHashParams && optionsInHashParams.serviceUUID] *)
Definition serviceUUID (c : Component) : option JSValue :=
  o ← optionsInHashParams c; o !! "serviceUUID".

(** [optionsInHashParams && optionsInHashParams.displayoutputs] *)
Definition displayoutputs (c : Component) : option JSValue :=
  o ← optionsInHashParams c; o !! "displayoutputs".

(** Calls that leave the component, in the order they are made. *)
Inductive Call : Type :=
| requestDevice (options : RequestDeviceOptions)
| gatt_connect (g : BluetoothRemoteGATTServer)
| getPrimaryService (s : BluetoothRemoteGATTServer) (id : JSValue)
| getCharacteristics (s : BluetoothRemoteGATTService)
| startNotifications (c : BluetoothRemoteGATTCharacteristic)
| metaframe_setOutputs (o : Outputs)
| console_error (e : Error).

(** An async function suspended at an [await], with the local variables
    the rest of its body reads. *)
Inductive Task : Type :=
| AwaitRequestDevice (infoBlobs : list InfoBlob)
| AwaitConnect (infoBlobs : list InfoBlob)
| AwaitPrimaryService (infoBlobs : list InfoBlob)
| AwaitCharacteristics (infoBlobs : list InfoBlob)
| AwaitStartNotifications (infoBlobs : list InfoBlob).

(** The dependencies the effects saw at the last render. *)
Record Deps : Type := mkDeps {
  dep_options : option Options;
  dep_server : option BluetoothRemoteGATTServer;
}.

Record World : Type := mkWorld {
  component : Component;
  rendered : Deps;
  calls : list Call;
  (** the async functions in flight; a finished one leaves [None] *)
  fibers : list (option Task);
}.

(** What the page provides: whether [navigator.bluetooth] exists;
    [metaframe.setOutputs], a function of the host that may throw; and
    the text [`${m}`] that the engine gives for the member [m] of
    [Object.prototype] of a given name (for a built-in function a text
    such as [function toString() { [native code] }], whose layout is
    left to the implementation). *)
Record Env : Type := mkEnv {
  navigator_bluetooth : bool;
  metaframe_setOutputs_fn : option (Outputs → Result unit);
  inherited_text : string → string;
}.

(** ** State and exceptions *)

Definition M (A : Type) : Type := World → Result A * World.

#[global] Instance M_ret : MRet M := λ A a w, (Ok a, w).

#[global] Instance M_bind : MBind M := λ A B f m w,
  match m w with
  | (Ok a, w') => f a w'
  | (Throw e, w') => (Throw e, w')
  end.

Definition throw {A} (e : Error) : M A := λ w, (Throw e, w).

(** [try { body } catch (err) { handler(err) }] *)
Definition try_catch {A} (body : M A) (handler : Error → M A) : M A := λ w,
  match body w with
  | (Ok a, w') => (Ok a, w')
  | (Throw e, w') => handler e w'
  end.

Definition lift_result {A} (r : Result A) : M A := λ w, (r, w).

Definition get_component : M Component := λ w, (Ok (component w), w).

Definition modify_component (f : Component → Component) : M unit := λ w,
  (Ok tt, {| component := f (component w); rendered := rendered w;
             calls := calls w; fibers := fibers w |}).

Definition call (c : Call) : M unit := λ w,
  (Ok tt, {| component := component w; rendered := rendered w;
             calls := calls w ++ [c]; fibers := fibers w |}).

Definition exec {A} (m : M A) (w : World) : World := snd (m w).

Definition spawn (t : option Task) : M unit := λ w,
  (Ok tt, {| component := component w; rendered := rendered w;
             calls := calls w;
             fibers := match t with
                       | Some _ => fibers w ++ [t]
                       | None => fibers w
                       end |}).

(** ** The setters of the [useState] cells *)

Definition setKeyAliases (v : option Options) : M unit :=
  modify_component (λ c,
    {| optionsInHashParams := optionsInHashParams c; keyAliases := v;
       bluetoothState := bluetoothState c; characteristics := characteristics c;
       server := server c; service := service c; info := info c;
       outputsRef := outputsRef c; outputs := outputs c |}).

Definition setBluetoothState (v : State) : M unit :=
  modify_component (λ c,
    {| optionsInHashParams := optionsInHashParams c; keyAliases := keyAliases c;
       bluetoothState := v; characteristics := characteristics c;
       server := server c; service := service c; info := info c;
       outputsRef := outputsRef c; outputs := outputs c |}).

Definition setCharacteristics (v : list BluetoothRemoteGATTCharacteristic) : M unit :=
  modify_component (λ c,
    {| optionsInHashParams := optionsInHashParams c; keyAliases := keyAliases c;
       bluetoothState := bluetoothState c; characteristics := v;
       server := server c; service := service c; info := info c;
       outputsRef := outputsRef c; outputs := outputs c |}).

Definition setServer (v : option BluetoothRemoteGATTServer) : M unit :=
  modify_component (λ c,
    {| optionsInHashParams := optionsInHashParams c; keyAliases := keyAliases c;
       bluetoothState := bluetoothState c; characteristics := characteristics c;
       server := v; service := service c; info := info c;
       outputsRef := outputsRef c; outputs := outputs c |}).

Definition setService (v : option BluetoothRemoteGATTService) : M unit :=
  modify_component (λ c,
    {| optionsInHashParams := optionsInHashParams c; keyAliases := keyAliases c;
       bluetoothState := bluetoothState c; characteristics := characteristics c;
       server := server c; service := v; info := info c;
       outputsRef := outputsRef c; outputs := outputs c |}).

Definition setInfo (v : list InfoBlob) : M unit :=
  modify_component (λ c,
    {| optionsInHashParams := optionsInHashParams c; keyAliases := keyAliases c;
       bluetoothState := bluetoothState c; characteristics := characteristics c;
       server := server c; service := service c; info := v;
       outputsRef := outputsRef c; outputs := outputs c |}).

(** [outputsRef.current[key] = v], on the own properties of the object.
    The key [__proto__] reaches the accessor that the object inherits
    from [Object.prototype]: its setter makes [v] the prototype of the
    object when [v] is an object (an array), does nothing otherwise,
    and in no case creates an own property.  The prototype is not part
    of the model: what is rendered is read from the own properties
    ([Object.keys], and the value of an own key). *)
Definition outputsRef_set (key : string) (v : OutputType) : M unit :=
  modify_component (λ c,
    {| optionsInHashParams := optionsInHashParams c; keyAliases := keyAliases c;
       bluetoothState := bluetoothState c; characteristics := characteristics c;
       server := server c; service := service c; info := info c;
       outputsRef := if bool_decide (key = "__proto__") then outputsRef c
                     else <[key := v]> (outputsRef c);
       outputs := outputs c |}).

Definition setOutputs (v : Outputs) : M unit :=
  modify_component (λ c,
    {| optionsInHashParams := optionsInHashParams c; keyAliases := keyAliases c;
       bluetoothState := bluetoothState c; characteristics := characteristics c;
       server := server c; service := service c; info := info c;
       outputsRef := outputsRef c; outputs := v |}).

(** The hash parameter is set by the host, not by the component. *)
Definition host_sets_options (v : option Options) : M unit :=
  modify_component (λ c,
    {| optionsInHashParams := v; keyAliases := keyAliases c;
       bluetoothState := bluetoothState c; characteristics := characteristics c;
       server := server c; service := service c; info := info c;
       outputsRef := outputsRef c; outputs := outputs c |}).

(** ** The alias mapping and the listener *)

(** The value the [keyAliases] effect stores:
<<
      optionsInHashParams &&
      Object.fromEntries(
        Object.keys(optionsInHashParams)
          .filter((k) => k !== serviceUUID)
          .map((key: string) => [key, (optionsInHashParams as any)[key]]))
>>
    [k !== serviceUUID] compares a key with the {e value} of the service
    identifier; it is false only when that value is the string [k]. *)
Definition newKeyAliases (c : Component) : option Options :=
  o ← optionsInHashParams c;
  Some (filter (λ kv : string * JSValue, serviceUUID c ≠ Some (JString kv.1)) o).

(** The entry that the alias mapping holds for [id]: [None] for a
    missing mapping as for a missing entry. *)
Definition alias_of (aliases : option Options) (id : string) : option JSValue :=
  o ← aliases; o !! id.

(** The names of the members that every object inherits from
    [Object.prototype] (ECMA-262, with its annex for browsers). *)
Definition Object_prototype_names : list string :=
  ["constructor"; "hasOwnProperty"; "isPrototypeOf"; "propertyIsEnumerable";
   "toLocaleString"; "toString"; "valueOf"; "__defineGetter__";
   "__defineSetter__"; "__lookupGetter__"; "__lookupSetter__"; "__proto__"].

(** What a property read finds: an entry of the object itself, or the
    member of that name inherited from [Object.prototype]. *)
Inductive Property : Type :=
| own (v : JSValue)
| inherited (name : string).

(** [o[id]], for an object made by [Object.fromEntries]: an own entry
    comes before an inherited member; [None] is [undefined]. *)
Definition Get (o : Options) (id : string) : option Property :=
  match o !! id with
  | Some v => Some (own v)
  | None =>
      if bool_decide (id ∈ Object_prototype_names) then Some (inherited id)
      else None
  end.

(** [keyAliases && keyAliases[id]] *)
Definition alias_read (aliases : option Options) (id : string)
  : option Property :=
  o ← aliases; Get o id.

(** The inherited members are functions, and for [__proto__] the
    prototype object: all truthy. *)
Definition truthy_property (p : option Property) : bool :=
  match p with
  | Some (own v) => truthy (Some v)
  | Some (inherited _) => true
  | None => false
  end.

Section WithEnv.
Variable env : Env.

(** The property key that [{ [key]: val }] makes of what was read. *)
Definition property_key (p : option Property) : string :=
  match p with
  | Some (own v) => ToString (Some v)
  | Some (inherited name) => inherited_text env name
  | None => "undefined"
  end.

(** [keyAliases && keyAliases[c.uuid] ? keyAliases![c.uuid] : c.uuid],
    as a property key. *)
Definition output_key (aliases : option Options) (id : string) : string :=
  if truthy_property (alias_read aliases id)
  then property_key (alias_read aliases id)
  else id.

(** [setMetaframeOutputs]: an object is always truthy, so the guard is
    on [metaframe.setOutputs] alone. *)
Definition setMetaframeOutputs (currentOutputs : Outputs) : M unit :=
  match metaframe_setOutputs_fn env with
  | Some f => call (metaframe_setOutputs currentOutputs);;
              lift_result (f currentOutputs)
  | None => mret tt
  end.

(** The [try] block of [listener], for the characteristic [c] as it is
    when the event fires. *)
Definition listener_body (c : BluetoothRemoteGATTCharacteristic) : M unit :=
  comp ← get_component;
  let key := output_key (keyAliases comp) (uuid c) in
  val ← lift_result (Decoder.decode (value_buffer c));
  let newoutputs : Outputs := {[ key := val ]} in
  setMetaframeOutputs newoutputs;;
  if truthy (displayoutputs comp) then
    outputsRef_set key val;;
    setOutputs newoutputs
  else mret tt.

Definition listener (c : BluetoothRemoteGATTCharacteristic) : M unit :=
  try_catch (listener_body c) (λ err, call (console_error err)).

End WithEnv.

(** ** The connection state machine *)

(** [characteristics.sort((a, b) => a.uuid > b.uuid ? 1 : b.uuid > a.uuid ? -1 : 0)]:
    the comparator, on strings ordered by code unit. *)
Definition compare_uuid (a b : BluetoothRemoteGATTCharacteristic) : Z :=
  if String.ltb (uuid b) (uuid a) then 1
  else if String.ltb (uuid a) (uuid b) then -1
  else 0.

(** [Array.prototype.sort] is a stable sort; with a consistent comparator
    its result is the one of the stable insertion sort. *)
Section ArraySort.
Context {A : Type} (cmp : A → A → Z).

Fixpoint sort_insert (x : A) (l : list A) : list A :=
  match l with
  | [] => [x]
  | y :: l' => if cmp x y <=? 0 then x :: l else y :: sort_insert x l'
  end.

Fixpoint Array_sort (l : list A) : list A :=
  match l with
  | [] => []
  | x :: l' => sort_insert x (Array_sort l')
  end.
End ArraySort.

(** [reset]: five setters, nothing else. *)
Definition reset : M unit :=
  setService None;;
  setServer None;;
  setCharacteristics [];;
  setInfo [];;
  setBluetoothState Begin.

(** The [appendInfo] of [scan]: it extends the local [infoBlobs] and
    stores the new list. *)
Definition appendInfo (infoBlobs : list InfoBlob) (b : InfoBlob)
  : M (list InfoBlob) :=
  let infoBlobs := infoBlobs ++ [b] in
  setInfo infoBlobs;;
  mret infoBlobs.

(** The [catch] block of [scan]. *)
Definition scan_catch (infoBlobs : list InfoBlob) (error : Error)
  : M (option Task) :=
  setBluetoothState FinishedError;;
  _ ← appendInfo infoBlobs (blob Status.error error);
  mret None.

(** What settles an awaited promise. *)
Inductive Settlement : Type :=
| rejected (error : Error)
| device_chosen (device : option BluetoothDevice)
| connected (server : BluetoothRemoteGATTServer)
| service_found (service : BluetoothRemoteGATTService)
| characteristics_found (l : list BluetoothRemoteGATTCharacteristic)
| all_started.

(** [scan], up to [await navigator.bluetooth.requestDevice(options)];
    the result is the suspension, if the function did not return. *)
Definition scan (env : Env) : M (option Task) :=
  reset;;
  setBluetoothState Scanning;;
  infoBlobs ← appendInfo [] (blob Status.info "scanning...");
  if negb (navigator_bluetooth env) then
    setBluetoothState FinishedError;;
    _ ← appendInfo infoBlobs
          (blob Status.error
             "Browser does not support bluetooth https://caniuse.com/#feat=web-bluetooth");
    mret None
  else
    comp ← get_component;
    let options :=
      if truthy (serviceUUID comp)
      then filters_services (option_list (serviceUUID comp))
      else acceptAllDevices in
    infoBlobs ← appendInfo infoBlobs
                  (blob Status.info
                     (String.append "Requesting Bluetooth Device...serviceUUID="
                        (ToString (serviceUUID comp))));
    call (requestDevice options);;
    mret (Some (AwaitRequestDevice infoBlobs)).

(** The rest of [scan] after the device picker settles. *)
Definition scan_after_requestDevice (infoBlobs : list InfoBlob)
    (device : option BluetoothDevice) : M (option Task) :=
  setBluetoothState Connecting;;
  match device with
  | None =>
      setBluetoothState FinishedError;;
      _ ← appendInfo infoBlobs (blob Status.error "No device found");
      mret None
  | Some d =>
      infoBlobs ← appendInfo infoBlobs
                    (blob Status.info "Connecting to GATT Server...");
      match gatt d with
      | Some g => call (gatt_connect g);; mret (Some (AwaitConnect infoBlobs))
      | None =>
          scan_catch infoBlobs
            "TypeError: Cannot read properties of undefined (reading 'connect')"
      end
  end.

(** The rest of [scan] after [device.gatt.connect()] resolves. *)
Definition scan_after_connect (infoBlobs : list InfoBlob)
    (s : BluetoothRemoteGATTServer) : M (option Task) :=
  _ ← appendInfo infoBlobs (blob Status.info "Getting Service...");
  setBluetoothState ChoosingService;;
  setServer (Some s);;
  mret None.

(** The effect on [server] and [serviceUUID], up to
    [await server.getPrimaryService(serviceUUID)].  Its [appendInfo]
    only extends the local list. *)
Definition server_effect (comp : Component) : M (option Task) :=
  match server comp, serviceUUID comp with
  | Some s, Some id =>
      if truthy (Some id) then
        let infoBlobs := [] ++ [blob Status.info "getPrimaryService"] in
        call (getPrimaryService s id);;
        mret (Some (AwaitPrimaryService infoBlobs))
      else mret None
  | _, _ => mret None
  end.

(** The [catch] block of that effect: the local list is extended, the
    stored status log is not. *)
Definition server_effect_catch (infoBlobs : list InfoBlob) (error : Error)
  : M (option Task) :=
  setBluetoothState FinishedError;;
  let infoBlobs := infoBlobs ++ [blob Status.error error] in
  mret None.

Definition after_getPrimaryService (infoBlobs : list InfoBlob)
    (s : BluetoothRemoteGATTService) : M (option Task) :=
  setBluetoothState GettingCharacteristics;;
  setService (Some s);;
  call (getCharacteristics s);;
  mret (Some (AwaitCharacteristics infoBlobs)).

(** [Promise.all(characteristics.map((c) => c.startNotifications()))]:
    every subscription is started before any is awaited. *)
Definition after_getCharacteristics (infoBlobs : list InfoBlob)
    (l : list BluetoothRemoteGATTCharacteristic) : M (option Task) :=
  let characteristics := Array_sort compare_uuid l in
  setCharacteristics characteristics;;
  mapM (λ c, call (startNotifications c)) characteristics;;
  mret (Some (AwaitStartNotifications infoBlobs)).

Definition after_startNotifications (infoBlobs : list InfoBlob)
  : M (option Task) :=
  setBluetoothState FinishedSuccess;;
  setInfo [blob Status.success "Connected"];;
  mret None.

(** Resuming a suspended function with the settlement of the promise
    it awaits; [None] when the settlement is not one of that promise.
    [all_started] is the resolution of [Promise.all], [rejected] there
    the first rejection among the subscriptions. *)
Definition resume (t : Task) (r : Settlement) : option (M (option Task)) :=
  match t, r with
  | AwaitRequestDevice infoBlobs, device_chosen d =>
      Some (scan_after_requestDevice infoBlobs d)
  | AwaitConnect infoBlobs, connected s =>
      Some (scan_after_connect infoBlobs s)
  | AwaitRequestDevice infoBlobs, rejected e
  | AwaitConnect infoBlobs, rejected e =>
      Some (scan_catch infoBlobs e)
  | AwaitPrimaryService infoBlobs, service_found s =>
      Some (after_getPrimaryService infoBlobs s)
  | AwaitCharacteristics infoBlobs, characteristics_found l =>
      Some (after_getCharacteristics infoBlobs l)
  | AwaitStartNotifications infoBlobs, all_started =>
      Some (after_startNotifications infoBlobs)
  | AwaitPrimaryService infoBlobs, rejected e
  | AwaitCharacteristics infoBlobs, rejected e
  | AwaitStartNotifications infoBlobs, rejected e =>
      Some (server_effect_catch infoBlobs e)
  | _, _ => None
  end.

(** ** Rendering and events *)

Definition deps_of (c : Component) : Deps :=
  {| dep_options := optionsInHashParams c; dep_server := server c |}.

Definition dep_serviceUUID (d : Deps) : option JSValue :=
  o ← dep_options d; o !! "serviceUUID".

Definition get_rendered : M Deps := λ w, (Ok (rendered w), w).

Definition set_rendered (d : Deps) : M unit := λ w,
  (Ok tt, {| component := component w; rendered := d;
             calls := calls w; fibers := fibers w |}).

(** [fibers[i] = t] *)
Definition set_fiber (i : nat) (t : option Task) : M unit := λ w,
  (Ok tt, {| component := component w; rendered := rendered w;
             calls := calls w; fibers := <[i := t]> (fibers w) |}).

Definition when (b : bool) (m : M unit) : M unit := if b then m else mret tt.

(** What the user, the host and the platform do to the component. *)
Inductive Event : Type :=
| scan_invoked
| reset_invoked
| options_changed (o : option Options)
| settled (fiber : nat) (r : Settlement)
| characteristicvaluechanged (i : nat) (buffer : option Buffer.ArrayBuffer).

(** The effects of one render, in the order of the source, each run
    when one of its dependencies differs from the last render.  They
    all close over the state of that render, [comp]: the setters they
    call show only at the next render. *)
Definition run_effects : M unit :=
  comp ← get_component;
  last ← get_rendered;
  set_rendered (deps_of comp);;
  when (bool_decide (optionsInHashParams comp ≠ dep_options last))
    (setKeyAliases (newKeyAliases comp));;
  when (bool_decide (serviceUUID comp ≠ dep_serviceUUID last))
    reset;;
  when (bool_decide (server comp ≠ dep_server last)
        || bool_decide (serviceUUID comp ≠ dep_serviceUUID last))
    (t ← server_effect comp; spawn t).

(** A state change renders again; the effects of the second render set
    no state (see [commit_stable_id]). *)
Definition commit : M unit := run_effects;; run_effects.

(** The state an event leaves: the handler runs, then the component
    renders, whether or not the handler threw. *)
Definition after {A} (m : M A) (w : World) : World := exec commit (exec m w).

Section Events.
Variable env : Env.

(** One event, handled to completion; [None] when the event cannot
    happen in [w]: no such suspended function, a settlement of another
    promise, or no listener registered (the listeners are added only
    where [metaframe.setOutputs] exists, to the characteristics
    stored; [addEventListener] does not throw, so the [catch] around
    the registration is never entered).  An async function that throws
    is finished. *)
Definition handle (ev : Event) (w : World) : option World :=
  match ev with
  | scan_invoked => Some (after (t ← scan env; spawn t) w)
  | reset_invoked => Some (after reset w)
  | options_changed o => Some (after (host_sets_options o) w)
  | settled i r =>
      match fibers w !! i with
      | Some (Some t) =>
          match resume t r with
          | Some k =>
              Some (after (next ← try_catch k (λ _, mret None);
                           set_fiber i next) w)
          | None => None
          end
      | _ => None
      end
  | characteristicvaluechanged i buffer =>
      match metaframe_setOutputs_fn env, characteristics (component w) !! i with
      | Some _, Some c =>
          Some (after (listener env {| uuid := uuid c; value_buffer := buffer |}) w)
      | _, _ => None
      end
  end.

Fixpoint run (evs : list Event) (w : World) : option World :=
  match evs with
  | [] => Some w
  | ev :: evs' => w' ← handle ev w; run evs' w'
  end.

End Events.

(** The component between two events: the effects have seen its state. *)
Definition stable (w : World) : Prop :=
  rendered w = deps_of (component w)
  ∧ keyAliases (component w) = newKeyAliases (component w).

(** The component once mounted with the given options. *)
Definition mounted (o : option Options) : World :=
  let c := {| optionsInHashParams := o; keyAliases := None;
              bluetoothState := Begin; characteristics := [];
              server := None; service := None; info := [];
              outputsRef := ∅; outputs := ∅ |} in
  {| component :=
       {| optionsInHashParams := o; keyAliases := newKeyAliases c;
          bluetoothState := Begin; characteristics := [];
          server := None; service := None; info := [];
          outputsRef := ∅; outputs := ∅ |};
     rendered := deps_of c; calls := []; fibers := [] |}.

(** ** Observations and properties of handlers *)

(** [m] leaves the observation [f] of the world as it was, whether it
    returns or throws. *)
Definition preserves {X A} (f : World → X) (m : M A) : Prop :=
  ∀ w, f (m w).2 = f w.

(** [m] never throws. *)
Definition returns {A} (m : M A) : Prop := ∀ w, ∃ a w', m w = (Ok a, w').

(** What no handler but the change of options touches. *)
Definition config (w : World) : option Options * option Options * Deps :=
  (optionsInHashParams (component w), keyAliases (component w), rendered w).

(** What decides whether the effects run. *)
Definition deps (w : World) : Deps * Deps := (deps_of (component w), rendered w).

(** The connection: its state, its handles, the characteristic set and
    the status log. *)
Definition connection (w : World)
  : State * option BluetoothRemoteGATTServer * option BluetoothRemoteGATTService
    * list BluetoothRemoteGATTCharacteristic * list InfoBlob :=
  (bluetoothState (component w), server (component w), service (component w),
   characteristics (component w), info (component w)).

(** Ascending order of identifiers. *)
Definition uuid_le (a b : BluetoothRemoteGATTCharacteristic) : Prop :=
  String.leb (uuid a) (uuid b) = true.

(** What the listener adds to the calls: one publication, and the
    report of what the host threw, if it did. *)
Definition publication (f : Outputs → Result unit) (key : string)
    (val : OutputType) : list Call :=
  metaframe_setOutputs {[ key := val ]}
  :: match f {[ key := val ]} with
     | Ok _ => []
     | Throw e => [console_error e]
     end.

Definition no_bluetooth_message : string :=
  "Browser does not support bluetooth https://caniuse.com/#feat=web-bluetooth".

(** ** Example sessions *)

Definition heart_rate_options : Options :=
  {[ "serviceUUID" := JString "180d" ]}.


(** The service identifier, and the display option at its default. *)
Definition options_with_display_off : Options :=
  <[ "displayoutputs" := JBoolean false ]> heart_rate_options.

(** A page with Web Bluetooth, and a host that takes every output. *)
(** The text of the inherited members in one engine: [constructor] is
    the function [Object], [__proto__] gives the prototype object, the
    others are functions of their own name. *)
Definition text_in_V8 (name : string) : string :=
  if String.eqb name "__proto__" then "[object Object]"
  else String.append "function "
         (String.append (if String.eqb name "constructor" then "Object"
                         else name)
            "() { [native code] }").

Definition page : Env :=
  {| navigator_bluetooth := true;
     metaframe_setOutputs_fn := Some (λ _, Ok tt);
     inherited_text := text_in_V8 |}.

Definition page_without_bluetooth : Env :=
  {| navigator_bluetooth := false;
     metaframe_setOutputs_fn := Some (λ _, Ok tt);
     inherited_text := text_in_V8 |}.

Definition page_with_failing_host : Env :=
  {| navigator_bluetooth := true;
     metaframe_setOutputs_fn := Some (λ _, Throw "Error: host is gone");
     inherited_text := text_in_V8 |}.

Definition char_a : BluetoothRemoteGATTCharacteristic :=
  {| uuid := "a"; value_buffer := None |}.

Definition char_b : BluetoothRemoteGATTCharacteristic :=
  {| uuid := "b"; value_buffer := None |}.

Definition char_displayoutputs : BluetoothRemoteGATTCharacteristic :=
  {| uuid := "displayoutputs"; value_buffer := None |}.

(** The user scans, picks a device, and the GATT server connects. *)
Definition connect_trace : list Event :=
  [scan_invoked;
   settled 0 (device_chosen (Some {| gatt := Some 1%nat |}));
   settled 0 (connected 1%nat)].

(** Then the service resolves and its characteristics are enumerated. *)
Definition subscribe_trace (l : list BluetoothRemoteGATTCharacteristic)
  : list Event :=
  connect_trace
  ++ [settled 1 (service_found 2%nat); settled 1 (characteristics_found l)].

(** Then every subscription succeeds. *)
Definition session_trace (l : list BluetoothRemoteGATTCharacteristic)
  : list Event :=
  subscribe_trace l ++ [settled 1 all_started].

(** The world a trace leads to from the mounted component. *)
Definition world_after (env : Env) (evs : list Event) (o : Options) : World :=
  default (mounted (Some o)) (run env evs (mounted (Some o))).

(** The service resolution is in flight. *)
Definition resolving_world : World :=
  world_after page connect_trace heart_rate_options.

(** The subscriptions to [a] and [b] are in flight. *)
Definition subscribing_world : World :=
  world_after page (subscribe_trace [char_b; char_a]) heart_rate_options.

(** The session is established: [a] and [b] notify. *)
Definition streaming_world : World :=
  world_after page (session_trace [char_b; char_a]) heart_rate_options.

(** A session on the only characteristic [displayoutputs], the display
    option being off. *)
Definition display_world : World :=
  world_after page (session_trace [char_displayoutputs])
    options_with_display_off.

(** The little-endian bytes of the binary32 number 1. *)
Definition one_float : Buffer.ArrayBuffer := [x00; x00; x80; x3f]%byte.

(** ** What the component renders *)

(** The callbacks the button may hold. *)
Inductive Handler : Type :=
| onClick_scan
| onClick_reset.

Inductive IconType : Type :=
| RiBluetoothFill
| RiBluetoothConnectFill.

(** The variables [icon], [onClick], [disabled] and [text] after the
    [switch] on [bluetoothState]. *)
Record ButtonProps : Type := mkButton {
  icon : IconType;
  onClick : Handler;
  disabled : bool;
  text : string;
}.

(** [v.length] for a value of the options: only a string has one. *)
Definition js_length (v : option JSValue) : option nat :=
  match v with
  | Some (JString s) => Some (String.length s)
  | _ => None
  end.

(** [v.length > n] and [v.length === n]; both are false of [undefined]. *)
Definition length_gt (v : option JSValue) (n : nat) : bool :=
  match js_length v with
  | Some k => (n <? k)%nat
  | None => false
  end.

Definition length_is (v : option JSValue) (n : nat) : bool :=
  match js_length v with
  | Some k => (k =? n)%nat
  | None => false
  end.

(** The [switch]: every case sets what it changes of the initial
    [icon = RiBluetoothFill], [onClick = scan], [disabled = false],
    [text = "Scan"]. *)
Definition button (c : Component) : ButtonProps :=
  match bluetoothState c with
  | Begin =>
      {| icon := RiBluetoothFill; onClick := onClick_scan;
         disabled := negb (truthy (serviceUUID c))
                     || length_is (serviceUUID c) 0;
         text := if truthy (serviceUUID c) && length_gt (serviceUUID c) 4
                 then "Scan" else "<= Service UUID required " |}
  | Scanning =>
      {| icon := RiBluetoothFill; onClick := onClick_scan;
         disabled := true; text := "Scan" |}
  | Connecting =>
      {| icon := RiBluetoothFill; onClick := onClick_scan;
         disabled := false; text := "Scan" |}
  | ChoosingService | GettingService | GettingCharacteristics =>
      {| icon := RiBluetoothFill; onClick := onClick_reset;
         disabled := false; text := "Disconnect" |}
  | FinishedSuccess =>
      {| icon := RiBluetoothConnectFill; onClick := onClick_reset;
         disabled := false; text := "Disconnect" |}
  | FinishedError =>
      {| icon := RiBluetoothFill; onClick := onClick_reset;
         disabled := false; text := "Reset" |}
  end.

(** A click on the button: nothing happens on a disabled button, else
    the callback it holds runs. *)
Definition click (env : Env) (w : World) : option World :=
  let b := button (component w) in
  if disabled b then None
  else match onClick b with
       | onClick_scan => handle env scan_invoked w
       | onClick_reset => handle env reset_invoked w
       end.

(** An entry of the options menu. *)
Inductive OptionType : Type :=
| type_string
| type_boolean.

Record MenuOption : Type := mkMenuOption {
  name : string;
  displayName : string;
  type : OptionType;
  default_value : option JSValue;
}.

Definition appOptions : list MenuOption :=
  [ {| name := "serviceUUID"; displayName := "Service UUID";
       type := type_string; default_value := None |};
    {| name := "displayoutputs";
       displayName := "Display outputs (performance cost)";
       type := type_boolean; default_value := Some (JBoolean false) |} ].

(** [appOptions.concat(characteristics.map((c) => ...))] *)
Definition menu_options (c : Component) : list MenuOption :=
  appOptions
  ++ ((λ ch, {| name := uuid ch;
                displayName :=
                  String.append "Map characteristic "
                    (String.append (uuid ch) " to name");
                type := type_string; default_value := None |})
        <$> characteristics c).

(** [<Alert status={i.status || "error"}>] *)
Definition alert_status (i : InfoBlob) : Status.t :=
  match status i with
  | Some s => s
  | None => Status.error
  end.

(** Truthiness of a value of the outputs: an array is an object, and
    true even when empty. *)
Definition truthy_output (v : option OutputType) : bool :=
  match v with
  | None | Some VUndefined => false
  | Some (VBoolean b) => b
  | Some (VNumbers _) => true
  | Some (VString s) => negb (String.eqb s "")
  end.

(** [l.join(sep)] on strings. *)
Fixpoint join (sep : string) (l : list string) : string :=
  match l with
  | [] => ""
  | [x] => x
  | x :: l' => String.append x (String.append sep (join sep l'))
  end.

(** The default comparison of [Array.prototype.sort], on strings. *)
Definition compare_keys (a b : string) : Z :=
  match String.compare a b with
  | Lt => -1
  | Eq => 0
  | Gt => 1
  end.

(** [Object.keys(o)]: the own keys, in an order that the sort after it
    makes irrelevant. *)
Definition Object_keys (o : Outputs) : list string := (map_to_list o).*1.

Section Rendering.
(** How a number prints, [`${x}`], is left to the engine. *)
Variable Number_toString : spec_float → string.

(** [stringifyValue].  A value of [OutputType] is an array, a string, a
    boolean or [undefined]: the cases ["number"] and ["object"] of the
    [switch] are for no such value. *)
Definition stringifyValue (val : OutputType) : string :=
  match val with
  | VNumbers l =>
      String.append "["
        (String.append (join ", " (Number_toString <$> l)) "]")
  | VString s => s
  | VBoolean true => "true"
  | VBoolean false => "false"
  | VUndefined => "undefined"
  end.

(** [outputsRef.current[key] ? stringifyValue(outputsRef.current[key]) : ""] *)
Definition output_cell (o : Outputs) (key : string) : string :=
  if truthy_output (o !! key)
  then stringifyValue (default VUndefined (o !! key))
  else "".

(** The rows of the table:
    [Object.keys(outputsRef.current).sort().filter((key) => key!!).map(...)],
    where [key!!] is [key] under two non-null assertions, true of a
    non-empty string. *)
Definition output_rows (o : Outputs) : list (string * string) :=
  (λ key, (key, output_cell o key))
    <$> filter (λ key : string, key ≠ "")
          (Array_sort compare_keys (Object_keys o)).

(** [displayoutputs ? <Table> ... : null] *)
Definition output_table (c : Component) : option (list (string * string)) :=
  if truthy (displayoutputs c) then Some (output_rows (outputsRef c))
  else None.

End Rendering.

(** ** Further example sessions *)

(** The device picker is open. *)
Definition scanning_world : World :=
  world_after page [scan_invoked] heart_rate_options.

(** A device is chosen, its GATT server has not answered yet. *)
Definition connecting_world : World :=
  world_after page
    [scan_invoked; settled 0 (device_chosen (Some {| gatt := Some 1%nat |}))]
    heart_rate_options.

(** The enumeration of the characteristics is in flight. *)
Definition enumerating_world : World :=
  world_after page (connect_trace ++ [settled 1 (service_found 2%nat)])
    heart_rate_options.

(** The service identifier is removed from the options while the GATT
    server has not answered. *)
Definition forgotten_identifier_world : World :=
  world_after page
    [scan_invoked; settled 0 (device_chosen (Some {| gatt := Some 1%nat |}));
     options_changed (Some ∅)]
    heart_rate_options.

(** The display option is on. *)
Definition options_with_display_on : Options :=
  <[ "displayoutputs" := JBoolean true ]> heart_rate_options.

(** The session is established and its values are displayed. *)
Definition displaying_world : World :=
  world_after page (session_trace [char_b; char_a]) options_with_display_on.

(** The options of a session on the service [a], in which an alias is
    given to the characteristic [a]. *)
Definition options_with_alias_of_service : Options :=
  {[ "serviceUUID" := JString "a"; "a" := JString "pulse" ]}.

Definition aliased_service_world : World :=
  world_after page (session_trace [char_b; char_a])
    options_with_alias_of_service.

(** ** Orders and invariants *)

(** The order of the keys of the table, and its strict part. *)
Definition key_le (a b : string) : Prop := String.leb a b = true.
Definition key_lt (a b : string) : Prop := String.ltb a b = true.

(** The local [infoBlobs] of a suspended function. *)
Definition task_log (t : Task) : list InfoBlob :=
  match t with
  | AwaitRequestDevice b | AwaitConnect b | AwaitPrimaryService b
  | AwaitCharacteristics b | AwaitStartNotifications b => b
  end.

Definition has_status (i : InfoBlob) : Prop := is_Some (status i).

(** Every entry of the status log, stored or still local to a function
    in flight, has a status. *)
Definition labelled (w : World) : Prop :=
  Forall has_status (info (component w))
  ∧ Forall (λ t, Forall has_status (from_option task_log [] t)) (fibers w).

(** In [Begin] the log is empty and no handle is held. *)
Definition idle_clean (c : Component) : Prop :=
  bluetoothState c = Begin → info c = [] ∧ server c = None ∧ service c = None.

(** * Proofs *)

(** ** The payload decoder *)

Section DecoderFacts.
Import Buffer Decoder.

Example decode_one_float :
  decode (Some one_float) = Ok (VNumbers [S754_finite false 8388608 (-23)]).
Proof. reflexivity. Qed.

Example decode_minus_two_and_a_half :
  decode (Some [x00; x00; x20; xc0]%byte)
  = Ok (VNumbers [S754_finite true 10485760 (-22)]).
Proof. reflexivity. Qed.

(** The text of the bytes [Ma], when a typed array holds them. *)
Example text_of_two_bytes :
  Unibabel.bufferToBase64 (Unibabel.TypedArray [x4d; x61]%byte) = "TWE=".
Proof. reflexivity. Qed.

Example decode_two_bytes : decode (Some [x4d; x61]%byte) = Ok (VString "").
Proof. reflexivity. Qed.

Example decode_five_bytes :
  decode (Some [x4d; x61; x6e; x4d; x61]%byte) = Ok (VString "").
Proof. reflexivity. Qed.

Example decode_absent : decode None = Ok VUndefined.
Proof. reflexivity. Qed.

Lemma float32_elements_length (k : nat) : ∀ buf : ArrayBuffer,
  length buf = (4 * k)%nat → length (float32_elements buf) = k.
Proof.
  induction k as [|k IH]; intros buf Hlen.
  - destruct buf; [reflexivity | discriminate].
  - destruct buf as [|b0 [|b1 [|b2 [|b3 rest]]]]; simpl in Hlen; try lia.
    simpl. f_equal. apply IH. lia.
Qed.

Lemma float32_elements_lookup (i : nat) : ∀ (buf : ArrayBuffer) b0 b1 b2 b3,
  buf !! (4 * i)%nat = Some b0 → buf !! (4 * i + 1)%nat = Some b1 →
  buf !! (4 * i + 2)%nat = Some b2 → buf !! (4 * i + 3)%nat = Some b3 →
  float32_elements buf !! i = Some (float32_of_bits (le32 b0 b1 b2 b3)).
Proof.
  induction i as [|i IH]; intros buf b0 b1 b2 b3 H0 H1 H2 H3.
  - destruct buf as [|c0 [|c1 [|c2 [|c3 rest]]]]; simpl in *; try discriminate.
    by simplify_eq.
  - replace (4 * S i)%nat with (S (S (S (S (4 * i))))) in * by lia.
    destruct buf as [|c0 [|c1 [|c2 [|c3 rest]]]]; simpl in *; try discriminate.
    by apply IH.
Qed.

Lemma byteLength_rem4 (buf : ArrayBuffer) :
  (Z.rem (byteLength buf) 4 =? 0) = bool_decide (length buf `mod` 4 = 0)%nat.
Proof.
  unfold byteLength. rewrite Z.rem_mod_nonneg by lia.
  change 4 with (Z.of_nat 4). rewrite <- Nat2Z.inj_mod.
  case_bool_decide as H; [rewrite H; reflexivity|].
  apply Z.eqb_neq. lia.
Qed.

Lemma byteLength_is1 (buf : ArrayBuffer) :
  (byteLength buf =? 1) = bool_decide (length buf = 1%nat).
Proof.
  unfold byteLength. case_bool_decide as H; [rewrite H; reflexivity|].
  apply Z.eqb_neq. lia.
Qed.

(** The decoder is total: the guard of the float branch is the
    condition under which the constructor does not throw. *)
Lemma decode_returns (possibleArrayBuffer : option ArrayBuffer) :
  ∃ val, decode possibleArrayBuffer = Ok val.
Proof.
  destruct possibleArrayBuffer as [buf|]; [|by eexists].
  unfold decode, Float32Array.
  destruct (byteLength buf =? 1); [by eexists|].
  destruct (Z.rem (byteLength buf) 4 =? 0); by eexists.
Qed.

End DecoderFacts.

(** ** Base64 *)

Section Base64Facts.
Import Buffer Unibabel.

Lemma land_shiftl_small (q b k : Z) :
  0 ≤ k → 0 ≤ b < 2 ^ k → Z.land (Z.shiftl q k) b = 0.
Proof.
  intros Hk Hb. apply Z.bits_inj'. intros n Hn.
  rewrite Z.land_spec, Z.bits_0.
  destruct (Z.lt_ge_cases n k) as [Hlt|Hge].
  - by rewrite Z.shiftl_spec_low.
  - destruct (Z.eq_dec b 0) as [->|Hb0]; [by rewrite Z.bits_0, andb_false_r|].
    rewrite (Z.bits_above_log2 b n), andb_false_r; [done|lia|].
    assert (Z.log2 b < k) by (apply Z.log2_lt_pow2; lia). lia.
Qed.

Lemma lor_disjoint_add (a b k p : Z) :
  0 ≤ k → p = 2 ^ k → a `mod` p = 0 → 0 ≤ b < p → Z.lor a b = a + b.
Proof.
  intros Hk -> Ha Hb.
  assert (a = Z.shiftl (a / 2 ^ k) k) as ->.
  { rewrite Z.shiftl_mul_pow2 by done.
    pose proof (Z.div_mod a (2 ^ k)). lia. }
  symmetry. apply Z.add_nocarry_lor. by apply land_shiftl_small.
Qed.

(** Side conditions on quotients and remainders by constants. *)
Ltac divmod := first [reflexivity | Z.div_mod_to_equations; lia].

Lemma byte_val_range (b : byte) : 0 ≤ byte_val b < 256.
Proof. destruct b; vm_compute; split; congruence. Qed.

Lemma to_byte_val (b : byte) : to_byte (byte_val b) = b.
Proof.
  unfold to_byte, byte_val. rewrite N2Z.id. by rewrite Byte.of_to_N.
Qed.

Lemma sextet_char_index (s : Z) :
  0 ≤ s < 64 →
  char_sextet (sextet_char s) = Some s ∧ Ascii.eqb (sextet_char s) "=" = false.
Proof.
  intros Hs. rewrite <- (Z2Nat.id s) by lia.
  assert (Hn : (Z.to_nat s < 64)%nat) by lia.
  clear Hs. generalize dependent (Z.to_nat s). clear s. intros n Hn.
  do 64 (destruct n as [|n]; [by vm_compute|]). lia.
Qed.

Lemma sextets_of_triple (b0 b1 b2 : Z) :
  0 ≤ b0 < 256 → 0 ≤ b1 < 256 → 0 ≤ b2 < 256 →
  let w := Z.lor (Z.shiftl b0 16) (Z.lor (Z.shiftl b1 8) b2) in
  let s0 := Z.shiftr w 18 in
  let s1 := Z.land (Z.shiftr w 12) 63 in
  let s2 := Z.land (Z.shiftr w 6) 63 in
  let s3 := Z.land w 63 in
  (0 ≤ s0 < 64 ∧ 0 ≤ s1 < 64 ∧ 0 ≤ s2 < 64 ∧ 0 ≤ s3 < 64)
  ∧ let v := Z.lor (Z.lor (Z.lor (Z.shiftl s0 18) (Z.shiftl s1 12))
                      (Z.shiftl s2 6)) s3 in
    Z.land (Z.shiftr v 16) 255 = b0 ∧ Z.land (Z.shiftr v 8) 255 = b1
    ∧ Z.land v 255 = b2.
Proof.
  intros H0 H1 H2. cbv zeta.
  change 63 with (Z.ones 6). change 255 with (Z.ones 8).
  rewrite !Z.land_ones by lia. rewrite !Z.shiftr_div_pow2 by lia.
  rewrite !Z.shiftl_mul_pow2 by lia.
  change (2 ^ 18) with 262144. change (2 ^ 16) with 65536.
  change (2 ^ 12) with 4096. change (2 ^ 8) with 256. change (2 ^ 6) with 64.
  rewrite (lor_disjoint_add (b1 * 256) b2 8 256) by divmod.
  rewrite (lor_disjoint_add (b0 * 65536) _ 16 65536) by divmod.
  set (w := b0 * 65536 + (b1 * 256 + b2)).
  assert (Hw : 0 ≤ w < 16777216) by (subst w; lia).
  split; [Z.div_mod_to_equations; lia|].
  rewrite (lor_disjoint_add (w / 262144 * 262144) _ 18 262144) by divmod.
  rewrite (lor_disjoint_add (w / 262144 * 262144 + _) _ 12 4096) by divmod.
  rewrite (lor_disjoint_add (w / 262144 * 262144 + _ + _) _ 6 64) by divmod.
  subst w. Z.div_mod_to_equations. lia.
Qed.

Lemma sextets_of_pair (b0 b1 : Z) :
  0 ≤ b0 < 256 → 0 ≤ b1 < 256 →
  let w := Z.lor (Z.shiftl b0 16) (Z.shiftl b1 8) in
  let s0 := Z.shiftr w 18 in
  let s1 := Z.land (Z.shiftr w 12) 63 in
  let s2 := Z.land (Z.shiftr w 6) 63 in
  (0 ≤ s0 < 64 ∧ 0 ≤ s1 < 64 ∧ 0 ≤ s2 < 64)
  ∧ let v := Z.lor (Z.lor (Z.shiftl s0 18) (Z.shiftl s1 12)) (Z.shiftl s2 6) in
    Z.land (Z.shiftr v 16) 255 = b0 ∧ Z.land (Z.shiftr v 8) 255 = b1.
Proof.
  intros H0 H1. cbv zeta.
  change 63 with (Z.ones 6). change 255 with (Z.ones 8).
  rewrite !Z.land_ones by lia. rewrite !Z.shiftr_div_pow2 by lia.
  rewrite !Z.shiftl_mul_pow2 by lia.
  change (2 ^ 18) with 262144. change (2 ^ 16) with 65536.
  change (2 ^ 12) with 4096. change (2 ^ 8) with 256. change (2 ^ 6) with 64.
  rewrite (lor_disjoint_add (b0 * 65536) _ 16 65536) by divmod.
  set (w := b0 * 65536 + b1 * 256).
  assert (Hw : 0 ≤ w < 16777216) by (subst w; lia).
  split; [Z.div_mod_to_equations; lia|].
  rewrite (lor_disjoint_add (w / 262144 * 262144) _ 18 262144) by divmod.
  rewrite (lor_disjoint_add (w / 262144 * 262144 + _) _ 12 4096) by divmod.
  subst w. Z.div_mod_to_equations. lia.
Qed.

Lemma sextets_of_single (b0 : Z) :
  0 ≤ b0 < 256 →
  let w := Z.shiftl b0 16 in
  let s0 := Z.shiftr w 18 in
  let s1 := Z.land (Z.shiftr w 12) 63 in
  (0 ≤ s0 < 64 ∧ 0 ≤ s1 < 64)
  ∧ let v := Z.lor (Z.shiftl s0 18) (Z.shiftl s1 12) in
    Z.land (Z.shiftr v 16) 255 = b0.
Proof.
  intros H0. cbv zeta.
  change 63 with (Z.ones 6). change 255 with (Z.ones 8).
  rewrite !Z.land_ones by lia. rewrite !Z.shiftr_div_pow2 by lia.
  rewrite !Z.shiftl_mul_pow2 by lia.
  change (2 ^ 18) with 262144. change (2 ^ 16) with 65536.
  change (2 ^ 12) with 4096. change (2 ^ 8) with 256. change (2 ^ 6) with 64.
  set (w := b0 * 65536).
  assert (Hw : 0 ≤ w < 16777216) by (subst w; lia).
  split; [Z.div_mod_to_equations; lia|].
  rewrite (lor_disjoint_add (w / 262144 * 262144) _ 18 262144) by divmod.
  subst w. Z.div_mod_to_equations. lia.
Qed.

Lemma base64_roundtrip_fuel (n : nat) : ∀ buf : ArrayBuffer,
  (length buf ≤ n)%nat → base64ToBuffer (btoa buf) = Some buf.
Proof.
  induction n as [|n IH]; intros buf Hlen.
  { destruct buf; [done|simpl in Hlen; lia]. }
  destruct buf as [|b0 [|b1 [|b2 rest]]].
  - done.
  - destruct (sextets_of_single (byte_val b0) (byte_val_range b0))
      as ((Hs0 & Hs1) & Hb0).
    cbn [btoa base64ToBuffer].
    rewrite (proj1 (sextet_char_index _ Hs0)), (proj1 (sextet_char_index _ Hs1)).
    cbn. rewrite Hb0. by rewrite to_byte_val.
  - destruct (sextets_of_pair (byte_val b0) (byte_val b1)
                (byte_val_range b0) (byte_val_range b1))
      as ((Hs0 & Hs1 & Hs2) & Hb0 & Hb1).
    cbn [btoa base64ToBuffer].
    rewrite (proj1 (sextet_char_index _ Hs0)), (proj1 (sextet_char_index _ Hs1)).
    cbn [mbind option_bind].
    rewrite (proj2 (sextet_char_index _ Hs2)), (proj1 (sextet_char_index _ Hs2)).
    cbn. rewrite Hb0, Hb1. by rewrite !to_byte_val.
  - destruct (sextets_of_triple (byte_val b0) (byte_val b1) (byte_val b2)
                (byte_val_range b0) (byte_val_range b1) (byte_val_range b2))
      as ((Hs0 & Hs1 & Hs2 & Hs3) & Hb0 & Hb1 & Hb2).
    cbn [btoa base64ToBuffer].
    rewrite (proj1 (sextet_char_index _ Hs0)), (proj1 (sextet_char_index _ Hs1)).
    cbn [mbind option_bind].
    rewrite (proj2 (sextet_char_index _ Hs2)), (proj1 (sextet_char_index _ Hs2)).
    cbn [mbind option_bind].
    rewrite (proj2 (sextet_char_index _ Hs3)), (proj1 (sextet_char_index _ Hs3)).
    cbn [mbind option_bind].
    rewrite IH by (simpl in Hlen; lia).
    cbn [mbind option_bind]. rewrite Hb0, Hb1, Hb2. by rewrite !to_byte_val.
Qed.

(** Decoding the text of a typed array gives its bytes back. *)
Lemma base64_roundtrip (buf : ArrayBuffer) :
  base64ToBuffer (bufferToBase64 (TypedArray buf)) = Some buf.
Proof. by apply (base64_roundtrip_fuel (length buf)). Qed.

(** So the text of a typed array determines its bytes. *)
Lemma bufferToBase64_inj (buf buf' : ArrayBuffer) :
  bufferToBase64 (TypedArray buf) = bufferToBase64 (TypedArray buf') →
  buf = buf'.
Proof.
  intros H. apply (inj Some).
  by rewrite <- (base64_roundtrip buf), <- (base64_roundtrip buf'), H.
Qed.

(** The text of an [ArrayBuffer] is that of no byte at all. *)
Lemma bufferToBase64_ArrayBuffer (buf : ArrayBuffer) :
  bufferToBase64 (ArrayBufferObject buf) = "".
Proof. reflexivity. Qed.

End Base64Facts.

(** C5. A payload of exactly one byte decodes to a boolean, which is
    [true] if and only if the byte is 1. *)
Theorem decode_single_byte (b : byte) :
  ∃ v, Decoder.decode (Some [b]) = Ok (VBoolean v) ∧ (v = true ↔ b = x01%byte).
Proof.
  exists (Decoder.is_one (Buffer.Uint8Array_get [b] 0)). split; [reflexivity|].
  destruct b; vm_compute; split; congruence.
Qed.

(** C6. A payload of [4 * k] bytes, [k] positive, decodes to a sequence
    of exactly [k] numbers, the [i]-th being the binary32 value whose
    bits are the bytes [4i .. 4i+3] of the payload, least significant
    first. *)
Theorem decode_float32_sequence (buf : Buffer.ArrayBuffer) (k : nat) :
  (0 < k)%nat → length buf = (4 * k)%nat →
  ∃ l, Decoder.decode (Some buf) = Ok (VNumbers l) ∧ length l = k ∧
    ∀ i b0 b1 b2 b3,
      buf !! (4 * i)%nat = Some b0 → buf !! (4 * i + 1)%nat = Some b1 →
      buf !! (4 * i + 2)%nat = Some b2 → buf !! (4 * i + 3)%nat = Some b3 →
      l !! i = Some (Buffer.float32_of_bits (Buffer.le32 b0 b1 b2 b3)).
Proof.
  intros Hk Hlen. exists (Buffer.float32_elements buf). split; [|split].
  - unfold Decoder.decode, Decoder.Float32Array.
    rewrite byteLength_is1, !byteLength_rem4.
    rewrite bool_decide_eq_false_2 by lia.
    rewrite bool_decide_eq_true_2; [reflexivity|].
    rewrite Hlen. rewrite Nat.mul_comm. apply Nat.Div0.mod_mul.
  - by apply float32_elements_length.
  - intros. by apply float32_elements_lookup.
Qed.

Lemma decode_float32_sequence_witness :
  (0 < 1)%nat ∧ length one_float = (4 * 1)%nat
  ∧ ∃ l, Decoder.decode (Some one_float) = Ok (VNumbers l) ∧ length l = 1%nat ∧
      ∀ i b0 b1 b2 b3,
        one_float !! (4 * i)%nat = Some b0 → one_float !! (4 * i + 1)%nat = Some b1 →
        one_float !! (4 * i + 2)%nat = Some b2 → one_float !! (4 * i + 3)%nat = Some b3 →
        l !! i = Some (Buffer.float32_of_bits (Buffer.le32 b0 b1 b2 b3)).
Proof.
  split; [lia|]. split; [reflexivity|].
  apply (decode_float32_sequence one_float 1); [lia|reflexivity].
Defined.

(** C1, as the code has it.  A payload whose length is neither 1 nor a
    multiple of 4 takes the last branch: its decoded value is a text,
    the one that [Unibabel.bufferToBase64] returns for the buffer it is
    handed; the empty payload is not among them: 0 is a multiple of 4,
    and it decodes to the empty sequence of numbers. *)
Theorem decode_base64_otherwise (buf : Buffer.ArrayBuffer) :
  (length buf ≠ 1%nat → (length buf `mod` 4 ≠ 0)%nat →
   Decoder.decode (Some buf)
   = Ok (VString (Unibabel.bufferToBase64 (Unibabel.ArrayBufferObject buf))))
  ∧ (buf = [] → Decoder.decode (Some buf) = Ok (VNumbers [])).
Proof.
  split.
  - intros H1 H4. unfold Decoder.decode.
    rewrite byteLength_is1, byteLength_rem4.
    by rewrite !bool_decide_eq_false_2.
  - by intros ->.
Qed.

Lemma decode_base64_otherwise_witness :
  length [x4d; x61]%byte ≠ 1%nat
  ∧ (length [x4d; x61]%byte `mod` 4 ≠ 0)%nat
  ∧ Decoder.decode (Some [x4d; x61]%byte)
    = Ok (VString (Unibabel.bufferToBase64
                     (Unibabel.ArrayBufferObject [x4d; x61]%byte)))
  ∧ Decoder.decode (Some [x4d; x61]%byte) = Ok (VString "").
Proof.
  split; [discriminate|]. split; [discriminate|].
  split; [|reflexivity].
  apply (proj1 (decode_base64_otherwise [x4d; x61]%byte)); discriminate.
Defined.

(** The empty payload takes the float branch: its decoded value is a
    sequence of numbers, not a text. *)
Lemma decode_empty_payload_is_numbers :
  length ([] : Buffer.ArrayBuffer) = 0%nat
  ∧ Decoder.decode (Some []) = Ok (VNumbers [])
  ∧ ∀ s, Decoder.decode (Some []) ≠ Ok (VString s).
Proof. split; [reflexivity|]. split; [reflexivity|]. discriminate. Qed.

(** ** Reasoning about handlers *)

Lemma bind_run {A B} (m : M A) (f : A → M B) (w : World) :
  (m ≫= f) w = match m w with
               | (Ok a, w') => f a w'
               | (Throw e, w') => (Throw e, w')
               end.
Proof. reflexivity. Qed.

Section Frame.
Context {X : Type} (f : World → X).

Lemma preserves_ret {A} (a : A) : preserves f (mret a : M A).
Proof. by intros w. Qed.

Lemma preserves_throw {A} (e : Error) : preserves f (throw e : M A).
Proof. by intros w. Qed.

Lemma preserves_lift_result {A} (r : Result A) : preserves f (lift_result r).
Proof. by intros w. Qed.

Lemma preserves_get_component : preserves f get_component.
Proof. by intros w. Qed.

Lemma preserves_get_rendered : preserves f get_rendered.
Proof. by intros w. Qed.

Lemma preserves_bind {A B} (m : M A) (k : A → M B) :
  preserves f m → (∀ a, preserves f (k a)) → preserves f (m ≫= k).
Proof.
  intros Hm Hk w. rewrite bind_run. specialize (Hm w).
  destruct (m w) as [[a|e] w1]; simpl in *; [|done].
  by rewrite Hk.
Qed.

Lemma preserves_try_catch {A} (m : M A) (h : Error → M A) :
  preserves f m → (∀ e, preserves f (h e)) → preserves f (try_catch m h).
Proof.
  intros Hm Hh w. unfold try_catch. specialize (Hm w).
  destruct (m w) as [[a|e] w1]; simpl in *; [done|].
  by rewrite Hh.
Qed.

Lemma preserves_when (b : bool) (m : M unit) :
  preserves f m → preserves f (when b m).
Proof. destruct b; [done|]. intros _. apply preserves_ret. Qed.

Lemma preserves_mapM {A B} (k : A → M B) (l : list A) :
  (∀ a, preserves f (k a)) → preserves f (mapM k l).
Proof.
  intros Hk. induction l as [|a l IH]; simpl.
  - apply preserves_ret.
  - apply preserves_bind; [apply Hk|]. intros b.
    apply preserves_bind; [apply IH|]. intros bs. apply preserves_ret.
Qed.

End Frame.

(** Decompose a handler into its primitives; a primitive keeps an
    observation exactly when that holds by computation. *)
Ltac frame :=
  repeat first
    [ apply preserves_ret
    | apply preserves_throw
    | apply preserves_lift_result
    | apply preserves_get_component
    | apply preserves_get_rendered
    | apply preserves_bind; [|intros ?]
    | apply preserves_try_catch; [|intros ?]
    | apply preserves_when
    | apply preserves_mapM; intros ?
    | match goal with
      | |- preserves _ (match ?x with _ => _ end) => destruct x
      | |- preserves _ (let _ := _ in _) => cbv zeta
      end
    | (intros ?; reflexivity) ].

Lemma returns_ret {A} (a : A) : returns (mret a : M A).
Proof. intros w. by eexists _, _. Qed.

Lemma returns_bind {A B} (m : M A) (k : A → M B) :
  returns m → (∀ a, returns (k a)) → returns (m ≫= k).
Proof.
  intros Hm Hk w. rewrite bind_run.
  destruct (Hm w) as (a & w1 & ->). apply Hk.
Qed.

Lemma returns_try_catch {A} (m : M A) (h : Error → M A) :
  (∀ e, returns (h e)) → returns (try_catch m h).
Proof.
  intros Hh w. unfold try_catch.
  destruct (m w) as [[a|e] w1]; [by eexists _, _ | apply Hh].
Qed.

Lemma returns_when (b : bool) (m : M unit) : returns m → returns (when b m).
Proof. destruct b; [done|]. intros _. apply returns_ret. Qed.

Lemma returns_mapM {A B} (k : A → M B) (l : list A) :
  (∀ a, returns (k a)) → returns (mapM k l).
Proof.
  intros Hk. induction l as [|a l IH]; simpl.
  - apply returns_ret.
  - apply returns_bind; [apply Hk|]. intros b.
    apply returns_bind; [apply IH|]. intros bs. apply returns_ret.
Qed.

Ltac total :=
  repeat first
    [ apply returns_ret
    | apply returns_bind; [|intros ?]
    | apply returns_try_catch; intros ?
    | apply returns_when
    | apply returns_mapM; intros ?
    | match goal with
      | |- returns (match ?x with _ => _ end) => destruct x
      | |- returns (let _ := _ in _) => cbv zeta
      end
    | (intros ?; by eexists _, _) ].

(** Run a handler on a world given field by field.  The projections are
    unfolded with the setters, so that every intermediate world is a
    record of variables. *)
Ltac mrun :=
  cbv [mbind M_bind mret M_ret throw try_catch lift_result exec
       get_component modify_component call spawn get_rendered set_rendered
       set_fiber when
       setKeyAliases setBluetoothState setCharacteristics setServer
       setService setInfo outputsRef_set setOutputs host_sets_options
       reset appendInfo scan_catch scan scan_after_requestDevice
       scan_after_connect server_effect_catch after_getPrimaryService
       after_getCharacteristics after_startNotifications
       component rendered calls fibers
       optionsInHashParams keyAliases bluetoothState characteristics
       server service info outputsRef outputs fst snd negb].

Ltac destruct_world w :=
  destruct w as [[?op ?ka ?st ?chs ?sv ?sc ?inf ?oref ?outs] [?ro ?rs] ?cs ?fs].

Lemma reset_config : preserves config reset.
Proof. unfold reset. frame. Qed.

Lemma scan_config (env : Env) : preserves config (scan env).
Proof. unfold scan, reset, appendInfo. frame. Qed.

Lemma resume_config (t : Task) (r : Settlement) (k : M (option Task)) :
  resume t r = Some k → preserves config k.
Proof.
  destruct t, r; simpl; intros; simplify_eq;
    unfold scan_after_requestDevice, scan_after_connect, scan_catch,
      after_getPrimaryService, after_getCharacteristics,
      after_startNotifications, server_effect_catch, appendInfo; frame.
Qed.

(** The handlers of the source never throw: what can fail in them is
    inside a [try]. *)
Lemma reset_returns : returns reset.
Proof. unfold reset. total. Qed.

Lemma scan_returns (env : Env) : returns (scan env).
Proof. unfold scan, reset, appendInfo. total. Qed.

Lemma listener_returns (env : Env) (c : BluetoothRemoteGATTCharacteristic) :
  returns (listener env c).
Proof. unfold listener. total. Qed.

Lemma listener_config (env : Env) (c : BluetoothRemoteGATTCharacteristic) :
  preserves config (listener env c).
Proof. unfold listener, listener_body, setMetaframeOutputs. frame. Qed.

Lemma listener_deps (env : Env) (c : BluetoothRemoteGATTCharacteristic) :
  preserves deps (listener env c).
Proof. unfold listener, listener_body, setMetaframeOutputs. frame. Qed.

Lemma listener_fibers (env : Env) (c : BluetoothRemoteGATTCharacteristic) :
  preserves fibers (listener env c).
Proof. unfold listener, listener_body, setMetaframeOutputs. frame. Qed.

Lemma listener_connection (env : Env) (c : BluetoothRemoteGATTCharacteristic) :
  preserves connection (listener env c).
Proof. unfold listener, listener_body, setMetaframeOutputs. frame. Qed.

(** ** The effects of a render *)

Lemma newKeyAliases_ext (c c' : Component) :
  optionsInHashParams c = optionsInHashParams c' →
  newKeyAliases c = newKeyAliases c'.
Proof. unfold newKeyAliases, serviceUUID. by intros ->. Qed.

Ltac munfold :=
  cbv [run_effects mbind M_bind mret M_ret get_component get_rendered
       set_rendered when setKeyAliases modify_component spawn reset
       setService setServer setCharacteristics setInfo setBluetoothState
       call exec];
  cbn.

Lemma server_effect_run (c : Component) (w : World) :
  ∃ t cs', server_effect c w
           = (Ok t, {| component := component w; rendered := rendered w;
                       calls := cs'; fibers := fibers w |}).
Proof.
  destruct w as [c0 r cs fs]. unfold server_effect.
  destruct (server c) as [s|]; [|by eexists _, _].
  destruct (serviceUUID c) as [id|]; [|by eexists _, _].
  destruct (truthy (Some id)); by eexists _, _.
Qed.

Lemma server_effect_idle (c : Component) (w : World) :
  server c = None ∨ truthy (serviceUUID c) = false →
  server_effect c w = (Ok None, w).
Proof.
  unfold server_effect. intros [->| H]; [done|].
  destruct (server c) as [s|]; [|done].
  destruct (serviceUUID c) as [id|]; [|done]. by rewrite H.
Qed.

Lemma run_effects_returns : returns run_effects.
Proof. unfold run_effects, reset, server_effect. total. Qed.

(** A render whose options are those of the last one: only the effect
    on [server] may run, and it sets no state. *)
Lemma run_effects_same_options (w : World) :
  dep_options (rendered w) = optionsInHashParams (component w) →
  component (exec run_effects w) = component w
  ∧ rendered (exec run_effects w) = deps_of (component w)
  ∧ (dep_server (rendered w) = server (component w)
     ∨ server (component w) = None
     ∨ truthy (serviceUUID (component w)) = false →
     calls (exec run_effects w) = calls w
     ∧ fibers (exec run_effects w) = fibers w).
Proof.
  destruct w as [c [ro rs] cs fs]. simpl. intros ->.
  munfold. unfold dep_serviceUUID. cbn. fold (serviceUUID c).
  rewrite !(bool_decide_eq_false_2 (_ ≠ _)) by (intros H; by apply H).
  cbn. rewrite orb_false_r.
  case_bool_decide as Hs; cbn; [|by repeat split].
  match goal with
  | |- context [server_effect ?c ?w] =>
      destruct (server_effect_run c w) as (t & cs' & E);
      pose proof (server_effect_idle c w) as Hidle; rewrite E in *
  end.
  cbn. split; [done|split; [done|]].
  intros [?|H]; [congruence|]. specialize (Hidle H). by simplify_eq.
Qed.

Lemma run_effects_stable_id (w : World) :
  rendered w = deps_of (component w) → exec run_effects w = w.
Proof.
  intros Hr.
  destruct (run_effects_same_options w) as (Hc & Hd & Hcf); [by rewrite Hr|].
  destruct Hcf as [Hcs Hfs]; [left; by rewrite Hr|].
  destruct (exec run_effects w) as [c' r' cs' fs'], w as [c r cs fs].
  simpl in *. congruence.
Qed.

Lemma commit_exec (w : World) :
  exec commit w = exec run_effects (exec run_effects w).
Proof.
  unfold commit, exec. rewrite bind_run.
  destruct (run_effects_returns w) as ([] & w1 & ->). done.
Qed.

(** Between events, rendering does nothing. *)
Lemma commit_stable_id (w : World) :
  rendered w = deps_of (component w) → exec commit w = w.
Proof.
  intros Hr. rewrite commit_exec.
  rewrite (run_effects_stable_id w Hr). by apply run_effects_stable_id.
Qed.

(** One render, in general. *)
Lemma run_effects_spec (w : World) :
  let c := component w in
  let c' := component (exec run_effects w) in
  rendered (exec run_effects w) = deps_of c
  ∧ optionsInHashParams c' = optionsInHashParams c
  ∧ keyAliases c' =
      (if bool_decide (optionsInHashParams c ≠ dep_options (rendered w))
       then newKeyAliases c else keyAliases c)
  ∧ (serviceUUID c ≠ dep_serviceUUID (rendered w) →
     bluetoothState c' = Begin ∧ info c' = [] ∧ characteristics c' = []
     ∧ server c' = None ∧ service c' = None).
Proof.
  destruct w as [c [ro rs] cs fs]. munfold.
  repeat case_bool_decide; cbn;
    try match goal with
      | |- context [server_effect ?c ?w] =>
          destruct (server_effect_run c w) as (t & cs' & ->); cbn
      end; repeat split; try done.
Qed.

(** Two renders reach a stable component, provided the alias mapping
    was up to date if the options did not change. *)
Lemma commit_stable (w : World) :
  (dep_options (rendered w) = optionsInHashParams (component w) →
   keyAliases (component w) = newKeyAliases (component w)) →
  stable (exec commit w).
Proof.
  intros Hk. rewrite commit_exec.
  destruct (run_effects_spec w) as (Hr & Ho & Ha & _).
  set (w1 := exec run_effects w) in *.
  destruct (run_effects_same_options w1) as (Hc & Hd & _).
  { rewrite Hr. simpl. by rewrite Ho. }
  split; [by rewrite Hd, Hc|]. rewrite Hc, Ha.
  rewrite (newKeyAliases_ext (component w1) (component w) Ho).
  case_bool_decide as Hb; [done|]. by apply Hk.
Qed.

Lemma commit_same_options (w : World) :
  dep_options (rendered w) = optionsInHashParams (component w) →
  component (exec commit w) = component w
  ∧ (dep_server (rendered w) = server (component w)
     ∨ server (component w) = None
     ∨ truthy (serviceUUID (component w)) = false →
     calls (exec commit w) = calls w ∧ fibers (exec commit w) = fibers w).
Proof.
  intros Ho. rewrite commit_exec.
  destruct (run_effects_same_options w Ho) as (Hc & Hr & Hcf).
  rewrite run_effects_stable_id by (by rewrite Hr, Hc). by split.
Qed.

(** A handler that changes neither the options nor the server is
    followed by no effect. *)
Lemma after_quiet {A} (m : M A) (w : World) :
  preserves deps m → rendered w = deps_of (component w) →
  after m w = exec m w.
Proof.
  intros Hm Hr. unfold after. apply commit_stable_id.
  specialize (Hm w). fold (exec m w) in Hm.
  pose proof (f_equal fst Hm) as H1. pose proof (f_equal snd Hm) as H2.
  simpl in H1, H2. by rewrite H2, H1.
Qed.

Lemma after_stable {A} (m : M A) (w : World) :
  preserves config m → stable w → stable (after m w).
Proof.
  intros Hm [Hr Hk]. unfold after. apply commit_stable. intros _.
  specialize (Hm w). fold (exec m w) in Hm.
  pose proof (f_equal (λ x, x.1.1) Hm) as Ho.
  pose proof (f_equal (λ x, x.1.2) Hm) as Ha.
  simpl in Ho, Ha. rewrite Ha, Hk. by apply newKeyAliases_ext.
Qed.

Lemma mounted_stable (o : option Options) : stable (mounted o).
Proof. by split. Qed.

(** Stability is an invariant of the component. *)
Lemma handle_stable (env : Env) (ev : Event) (w w' : World) :
  stable w → handle env ev w = Some w' → stable w'.
Proof.
  intros Hs. destruct ev as [| |o|i r|i buffer]; cbn [handle].
  - intros H. apply (inj Some) in H. subst w'. apply after_stable; [|done].
    apply preserves_bind; [apply scan_config|]. intros t. by intros ?.
  - intros H. apply (inj Some) in H. subst w'.
    apply after_stable; [apply reset_config|done].
  - intros H. apply (inj Some) in H. subst w'.
    unfold after. apply commit_stable.
    destruct Hs as [Hr Hk]. destruct_world w.
    unfold deps_of, exec, host_sets_options, modify_component in *.
    cbn [snd component rendered optionsInHashParams keyAliases server
         dep_options] in *.
    injection Hr as -> _. intros <-. rewrite Hk. by apply newKeyAliases_ext.
  - destruct (fibers w !! i) as [[t|]|]; [|done..].
    destruct (resume t r) as [k|] eqn:Ek; [|done].
    intros H. apply (inj Some) in H. subst w'. apply after_stable; [|done].
    apply preserves_bind; [|by intros ? ?].
    apply preserves_try_catch; [by eapply resume_config|by intros ? ?].
  - destruct (metaframe_setOutputs_fn env); [|done].
    destruct (characteristics (component w) !! i); [|done].
    intros H. apply (inj Some) in H. subst w'.
    apply after_stable; [apply listener_config|done].
Qed.


(** ** Scanning without the capability *)

Lemma scan_no_bluetooth_run (env : Env) (w : World) :
  navigator_bluetooth env = false →
  ∃ c', (t ← scan env; spawn t) w
        = (Ok tt, {| component := c'; rendered := rendered w;
                     calls := calls w; fibers := fibers w |})
    ∧ optionsInHashParams c' = optionsInHashParams (component w)
    ∧ server c' = None
    ∧ bluetoothState c' = FinishedError
    ∧ info c' = [blob Status.info "scanning...";
                 blob Status.error no_bluetooth_message].
Proof.
  intros Hnb. destruct_world w. unfold scan. rewrite Hnb. mrun.
  eexists. split; [reflexivity|]. by cbn.
Qed.

(** C3. Without the platform capability, [scan] ends in [FinishedError];
    the status log holds the entry that announced the scan and one
    [error] entry, the only one of that severity; no call leaves the
    component, so no device is requested, and nothing is left in flight. *)
Theorem scan_without_bluetooth (env : Env) (w : World) :
  navigator_bluetooth env = false → stable w →
  ∃ w', handle env scan_invoked w = Some w'
    ∧ bluetoothState (component w') = FinishedError
    ∧ info (component w')
      = [blob Status.info "scanning..."; blob Status.error no_bluetooth_message]
    ∧ filter (λ b, status b = Some Status.error) (info (component w'))
      = [blob Status.error no_bluetooth_message]
    ∧ calls w' = calls w
    ∧ fibers w' = fibers w.
Proof.
  intros Hnb [Hr _]. eexists. split; [reflexivity|].
  destruct (scan_no_bluetooth_run env w Hnb) as (c' & Hrun & Ho & Hs & Hst & Hi).
  unfold after.
  replace (exec (t ← scan env; spawn t) w) with
    {| component := c'; rendered := rendered w; calls := calls w;
       fibers := fibers w |} by (unfold exec; by rewrite Hrun).
  match goal with |- context [exec commit ?w1] =>
    destruct (commit_same_options w1) as [Hc Hcf] end.
  { cbn [component rendered]. by rewrite Hr, Ho. }
  destruct Hcf as [Hcs Hfs]; [right; left; exact Hs|].
  rewrite Hc, Hcs, Hfs. cbn [component calls fibers]. rewrite Hst, Hi.
  repeat split; reflexivity.
Qed.

Lemma scan_without_bluetooth_witness :
  navigator_bluetooth page_without_bluetooth = false
  ∧ stable (mounted (Some heart_rate_options))
  ∧ ∃ w', handle page_without_bluetooth scan_invoked
            (mounted (Some heart_rate_options)) = Some w'
    ∧ bluetoothState (component w') = FinishedError
    ∧ info (component w')
      = [blob Status.info "scanning..."; blob Status.error no_bluetooth_message]
    ∧ filter (λ b, status b = Some Status.error) (info (component w'))
      = [blob Status.error no_bluetooth_message]
    ∧ calls w' = calls (mounted (Some heart_rate_options))
    ∧ fibers w' = fibers (mounted (Some heart_rate_options)).
Proof.
  assert (Hs : stable (mounted (Some heart_rate_options)))
    by (split; reflexivity).
  split; [reflexivity|]. split; [exact Hs|].
  exact (scan_without_bluetooth page_without_bluetooth
           (mounted (Some heart_rate_options)) eq_refl Hs).
Defined.

(** ** A change of the service identifier *)

(** C7. When the configured service identifier changes, whatever the
    state, the component is in [Begin] with an empty status log, an
    empty characteristic set and no server or service handle. *)
Theorem serviceUUID_change_resets (env : Env) (w : World) (o : option Options) :
  stable w →
  (o' ← o; o' !! "serviceUUID") ≠ serviceUUID (component w) →
  ∃ w', handle env (options_changed o) w = Some w'
    ∧ bluetoothState (component w') = Begin
    ∧ info (component w') = []
    ∧ characteristics (component w') = []
    ∧ server (component w') = None
    ∧ service (component w') = None.
Proof.
  intros [Hr _] Hne. eexists. split; [reflexivity|].
  unfold after. rewrite commit_exec.
  set (w0 := exec (host_sets_options o) w).
  destruct (run_effects_spec w0) as (Hr1 & Ho1 & _ & Hreset).
  destruct Hreset as (? & ? & ? & ? & ?).
  { subst w0. destruct_world w. unfold deps_of in Hr. cbn in Hr, Hne |- *.
    by simplify_eq. }
  destruct (run_effects_same_options (exec run_effects w0)) as (Hc & _).
  { rewrite Hr1. cbn [deps_of dep_options]. by rewrite Ho1. }
  rewrite Hc. by repeat split.
Qed.

Lemma serviceUUID_change_resets_witness :
  stable streaming_world
  ∧ bluetoothState (component streaming_world) = FinishedSuccess
  ∧ (o' ← Some ({[ "serviceUUID" := JString "180f" ]} : Options);
     o' !! "serviceUUID") ≠ serviceUUID (component streaming_world)
  ∧ ∃ w', handle page (options_changed
                         (Some {[ "serviceUUID" := JString "180f" ]}))
            streaming_world = Some w'
    ∧ bluetoothState (component w') = Begin
    ∧ info (component w') = []
    ∧ characteristics (component w') = []
    ∧ server (component w') = None
    ∧ service (component w') = None.
Proof.
  assert (Hs : stable streaming_world) by (split; vm_compute; reflexivity).
  assert (Hne : (o' ← Some ({[ "serviceUUID" := JString "180f" ]} : Options);
                 o' !! "serviceUUID") ≠ serviceUUID (component streaming_world))
    by (vm_compute; discriminate).
  split; [exact Hs|]. split; [reflexivity|]. split; [exact Hne|].
  exact (serviceUUID_change_resets page streaming_world
           (Some {[ "serviceUUID" := JString "180f" ]}) Hs Hne).
Defined.

(** ** The order of the characteristic set *)

Lemma compare_uuid_le (a b : BluetoothRemoteGATTCharacteristic) :
  (compare_uuid a b <=? 0) = true → uuid_le a b.
Proof.
  unfold compare_uuid, uuid_le, String.ltb, String.leb.
  rewrite (String.compare_antisym (uuid a) (uuid b)).
  by destruct (String.compare (uuid b) (uuid a)).
Qed.

Lemma compare_uuid_gt (a b : BluetoothRemoteGATTCharacteristic) :
  (compare_uuid a b <=? 0) = false → uuid_le b a.
Proof.
  unfold compare_uuid, uuid_le, String.ltb, String.leb.
  rewrite (String.compare_antisym (uuid a) (uuid b)).
  by destruct (String.compare (uuid b) (uuid a)).
Qed.

Lemma sort_insert_perm {A} (cmp : A → A → Z) (x : A) (l : list A) :
  Permutation (sort_insert cmp x l) (x :: l).
Proof.
  induction l as [|y l IH]; simpl; [done|].
  destruct (cmp x y <=? 0); [done|].
  rewrite IH. apply perm_swap.
Qed.

(** Sorting keeps every characteristic, once. *)
Lemma Array_sort_perm {A} (cmp : A → A → Z) (l : list A) :
  Permutation (Array_sort cmp l) l.
Proof.
  induction l as [|x l IH]; simpl; [done|].
  rewrite sort_insert_perm. by constructor.
Qed.

Lemma sort_insert_sorted (x : BluetoothRemoteGATTCharacteristic)
    (l : list BluetoothRemoteGATTCharacteristic) :
  Sorted uuid_le l → Sorted uuid_le (sort_insert compare_uuid x l).
Proof.
  induction 1 as [|y l Hl IH Hhd]; simpl; [by repeat constructor|].
  destruct (compare_uuid x y <=? 0) eqn:E.
  - constructor; [by constructor|]. constructor. by apply compare_uuid_le.
  - constructor; [done|].
    destruct l as [|z l]; simpl.
    + constructor. by apply compare_uuid_gt.
    + destruct (compare_uuid x z <=? 0); constructor.
      * by apply compare_uuid_gt.
      * by inversion Hhd.
Qed.

(** The stored order is ascending by identifier, whatever the platform
    enumerates. *)
Lemma Array_sort_uuid_sorted (l : list BluetoothRemoteGATTCharacteristic) :
  Sorted uuid_le (Array_sort compare_uuid l).
Proof.
  induction l as [|x l IH]; simpl; [constructor|]. by apply sort_insert_sorted.
Qed.

(** ** The effect that resolves the service and subscribes *)

(** Settling the promise a suspended function awaits. *)
Lemma handle_settled (env : Env) (w : World) (i : nat) (t : Task)
    (r : Settlement) (k : M (option Task)) :
  fibers w !! i = Some (Some t) → resume t r = Some k →
  handle env (settled i r) w
  = Some (after (next ← try_catch k (λ _, mret None); set_fiber i next) w).
Proof. intros Hf Hk. cbn [handle]. by rewrite Hf, Hk. Qed.

(** The continuations of the effect on [server] touch neither the
    options nor the server: no effect follows them. *)
Lemma service_continuation_deps (t : Task) (r : Settlement) (k : M (option Task)) :
  (∀ b, t ≠ AwaitRequestDevice b) → (∀ b, t ≠ AwaitConnect b) →
  resume t r = Some k →
  ∀ i, preserves deps (next ← try_catch k (λ _, mret None); set_fiber i next).
Proof.
  intros H1 H2 Hk i. apply preserves_bind; [|by intros ? ?].
  apply preserves_try_catch; [|by intros ? ?].
  destruct t, r; simpl in Hk; simplify_eq;
    try (by edestruct H1); try (by edestruct H2);
    unfold after_getPrimaryService, after_getCharacteristics,
      after_startNotifications, server_effect_catch; frame.
Qed.

Lemma mapM_startNotifications (l : list BluetoothRemoteGATTCharacteristic) :
  ∀ w, mapM (λ c, call (startNotifications c)) l w
       = (Ok (const tt <$> l),
          {| component := component w; rendered := rendered w;
             calls := calls w ++ (startNotifications <$> l);
             fibers := fibers w |}).
Proof.
  induction l as [|c l IH]; intros [c0 r cs fs].
  - cbn. by rewrite app_nil_r.
  - cbn [mapM]. rewrite bind_run. cbn [call]. rewrite bind_run, IH. cbn.
    by rewrite <- app_assoc.
Qed.

(** A settlement of the effect's function in a stable world: the event
    is the continuation, then the bookkeeping of the fiber. *)
Lemma settled_service_step (env : Env) (w : World) (i : nat) (t : Task)
    (r : Settlement) (k : M (option Task)) :
  stable w → fibers w !! i = Some (Some t) →
  (∀ b, t ≠ AwaitRequestDevice b) → (∀ b, t ≠ AwaitConnect b) →
  resume t r = Some k →
  ∃ w', handle env (settled i r) w = Some w' ∧ stable w'
    ∧ w' = exec (next ← try_catch k (λ _, mret None); set_fiber i next) w.
Proof.
  intros Hs Hf H1 H2 Hk. eexists.
  split; [by apply (handle_settled env w i t r k)|].
  split.
  - eapply (handle_stable env (settled i r)); [exact Hs|].
    by apply (handle_settled env w i t r k).
  - apply after_quiet; [by eapply service_continuation_deps|apply Hs].
Qed.

Lemma settle_service_found (env : Env) (w : World) (i : nat)
    (b : list InfoBlob) (s : BluetoothRemoteGATTService) :
  stable w → fibers w !! i = Some (Some (AwaitPrimaryService b)) →
  ∃ w', handle env (settled i (service_found s)) w = Some w'
    ∧ stable w'
    ∧ fibers w' !! i = Some (Some (AwaitCharacteristics b))
    ∧ bluetoothState (component w') = GettingCharacteristics
    ∧ service (component w') = Some s
    ∧ characteristics (component w') = characteristics (component w)
    ∧ calls w' = calls w ++ [getCharacteristics s].
Proof.
  intros Hs Hf.
  destruct (settled_service_step env w i _ (service_found s)
              (after_getPrimaryService b s) Hs Hf)
    as (w' & Hh & Hs' & ->); [done..|].
  eexists. split; [exact Hh|]. split; [exact Hs'|].
  destruct_world w. mrun. cbn in Hf.
  split; [|done]. apply list_lookup_insert_eq. by eapply lookup_lt_Some.
Qed.

(** The subscriptions are all started, in the stored order, before any
    of them is awaited. *)
Lemma settle_characteristics_found (env : Env) (w : World) (i : nat)
    (b : list InfoBlob) (l : list BluetoothRemoteGATTCharacteristic) :
  stable w → fibers w !! i = Some (Some (AwaitCharacteristics b)) →
  ∃ w', handle env (settled i (characteristics_found l)) w = Some w'
    ∧ stable w'
    ∧ fibers w' !! i = Some (Some (AwaitStartNotifications b))
    ∧ characteristics (component w') = Array_sort compare_uuid l
    ∧ bluetoothState (component w') = bluetoothState (component w)
    ∧ calls w' = calls w ++ (startNotifications <$> Array_sort compare_uuid l).
Proof.
  intros Hs Hf.
  destruct (settled_service_step env w i _ (characteristics_found l)
              (after_getCharacteristics b l) Hs Hf)
    as (w' & Hh & Hs' & ->); [done..|].
  eexists. split; [exact Hh|]. split; [exact Hs'|].
  destruct_world w. unfold exec, try_catch, after_getCharacteristics.
  rewrite !bind_run. cbn [setCharacteristics modify_component].
  rewrite bind_run, mapM_startNotifications. mrun. cbn in Hf.
  split; [|done]. apply list_lookup_insert_eq. by eapply lookup_lt_Some.
Qed.

Lemma settle_all_started (env : Env) (w : World) (i : nat) (b : list InfoBlob) :
  stable w → fibers w !! i = Some (Some (AwaitStartNotifications b)) →
  ∃ w', handle env (settled i all_started) w = Some w'
    ∧ stable w'
    ∧ fibers w' !! i = Some None
    ∧ bluetoothState (component w') = FinishedSuccess
    ∧ info (component w') = [blob Status.success "Connected"]
    ∧ characteristics (component w') = characteristics (component w).
Proof.
  intros Hs Hf.
  destruct (settled_service_step env w i _ all_started
              (after_startNotifications b) Hs Hf)
    as (w' & Hh & Hs' & ->); [done..|].
  eexists. split; [exact Hh|]. split; [exact Hs'|].
  destruct_world w. mrun. cbn in Hf.
  split; [|done]. apply list_lookup_insert_eq. by eapply lookup_lt_Some.
Qed.

(** A failure in the effect sets the state; its [appendInfo] is local,
    so the stored status log stays as it was. *)
Lemma settle_rejected (env : Env) (w : World) (i : nat) (b : list InfoBlob)
    (t : Task) (e : Error) :
  stable w → fibers w !! i = Some (Some t) →
  t = AwaitPrimaryService b ∨ t = AwaitCharacteristics b
  ∨ t = AwaitStartNotifications b →
  ∃ w', handle env (settled i (rejected e)) w = Some w'
    ∧ stable w'
    ∧ fibers w' !! i = Some None
    ∧ bluetoothState (component w') = FinishedError
    ∧ info (component w') = info (component w)
    ∧ characteristics (component w') = characteristics (component w).
Proof.
  intros Hs Hf Ht.
  destruct (settled_service_step env w i t (rejected e)
              (server_effect_catch b e) Hs Hf)
    as (w' & Hh & Hs' & ->);
    [by destruct Ht as [->|[->| ->]]..|].
  eexists. split; [exact Hh|]. split; [exact Hs'|].
  destruct_world w. mrun. cbn in Hf.
  split; [|done]. apply list_lookup_insert_eq. by eapply lookup_lt_Some.
Qed.

Lemma reset_clears (env : Env) (w : World) :
  stable w →
  ∃ w', handle env reset_invoked w = Some w'
    ∧ stable w'
    ∧ bluetoothState (component w') = Begin
    ∧ info (component w') = []
    ∧ characteristics (component w') = []
    ∧ server (component w') = None
    ∧ service (component w') = None
    ∧ fibers w' = fibers w
    ∧ calls w' = calls w.
Proof.
  intros Hs. eexists. split; [reflexivity|].
  split; [by eapply (handle_stable env reset_invoked)|].
  unfold after. destruct (commit_same_options (exec reset w)) as [Hc Hcf].
  { destruct Hs as [Hr _]. destruct_world w. unfold deps_of in Hr.
    cbn in Hr |- *. by simplify_eq. }
  destruct Hcf as [Hcs Hfs]; [right; left; by destruct_world w|].
  rewrite Hc, Hcs, Hfs. by destruct_world w.
Qed.

(** The sort of two characteristics named "a" and "b", whichever comes
    first. *)
Lemma Array_sort_a_b (l : list BluetoothRemoteGATTCharacteristic) :
  Permutation (uuid <$> l) ["a"; "b"] →
  uuid <$> Array_sort compare_uuid l = ["a"; "b"].
Proof.
  intros Hp. symmetry in Hp. apply Permutation_length_2_inv in Hp.
  destruct l as [|[u1 v1] [|[u2 v2] [|]]]; destruct Hp as [Hp|Hp];
    by simplify_eq/=.
Qed.

(** C2. However the session reached the resolution of the service: once
    the service resolves and the platform enumerates two characteristics
    with the identifiers "b" and "a", in whichever order, the stored
    set is these two characteristics in the order ["a"; "b"], ascending
    by identifier; and once every subscription has succeeded the state
    is [FinishedSuccess] and the status log is the single entry of
    severity [success]. *)
Theorem session_sorts_then_succeeds (env : Env) (w : World) (i : nat)
    (b : list InfoBlob) (s : BluetoothRemoteGATTService)
    (l : list BluetoothRemoteGATTCharacteristic) :
  stable w →
  fibers w !! i = Some (Some (AwaitPrimaryService b)) →
  Permutation (uuid <$> l) ["a"; "b"] →
  ∃ w1 w2 w3,
    handle env (settled i (service_found s)) w = Some w1
    ∧ handle env (settled i (characteristics_found l)) w1 = Some w2
    ∧ uuid <$> characteristics (component w2) = ["a"; "b"]
    ∧ Permutation (characteristics (component w2)) l
    ∧ Sorted uuid_le (characteristics (component w2))
    ∧ handle env (settled i all_started) w2 = Some w3
    ∧ characteristics (component w3) = characteristics (component w2)
    ∧ bluetoothState (component w3) = FinishedSuccess
    ∧ info (component w3) = [blob Status.success "Connected"].
Proof.
  intros Hs Hf Hl.
  destruct (settle_service_found env w i b s Hs Hf)
    as (w1 & H1 & Hs1 & Hf1 & _).
  destruct (settle_characteristics_found env w1 i b l Hs1 Hf1)
    as (w2 & H2 & Hs2 & Hf2 & Hc2 & _).
  destruct (settle_all_started env w2 i b Hs2 Hf2)
    as (w3 & H3 & _ & _ & Hst3 & Hi3 & Hc3).
  exists w1, w2, w3.
  split; [exact H1|]. split; [exact H2|].
  split; [rewrite Hc2; by apply Array_sort_a_b|].
  split; [rewrite Hc2; apply Array_sort_perm|].
  split; [rewrite Hc2; apply Array_sort_uuid_sorted|].
  by repeat split.
Qed.

Lemma session_sorts_then_succeeds_witness :
  stable resolving_world
  ∧ fibers resolving_world !! 1%nat
    = Some (Some (AwaitPrimaryService [blob Status.info "getPrimaryService"]))
  ∧ Permutation (uuid <$> [char_b; char_a]) ["a"; "b"]
  ∧ (∃ w1 w2 w3,
       handle page (settled 1 (service_found 2%nat)) resolving_world = Some w1
       ∧ handle page (settled 1 (characteristics_found [char_b; char_a])) w1
         = Some w2
       ∧ uuid <$> characteristics (component w2) = ["a"; "b"]
       ∧ Permutation (characteristics (component w2)) [char_b; char_a]
       ∧ Sorted uuid_le (characteristics (component w2))
       ∧ handle page (settled 1 all_started) w2 = Some w3
       ∧ characteristics (component w3) = characteristics (component w2)
       ∧ bluetoothState (component w3) = FinishedSuccess
       ∧ info (component w3) = [blob Status.success "Connected"])
  ∧ (∃ w1 w2 w3,
       handle page (settled 1 (service_found 2%nat)) resolving_world = Some w1
       ∧ handle page (settled 1 (characteristics_found [char_a; char_b])) w1
         = Some w2
       ∧ uuid <$> characteristics (component w2) = ["a"; "b"]
       ∧ Permutation (characteristics (component w2)) [char_a; char_b]
       ∧ Sorted uuid_le (characteristics (component w2))
       ∧ handle page (settled 1 all_started) w2 = Some w3
       ∧ characteristics (component w3) = characteristics (component w2)
       ∧ bluetoothState (component w3) = FinishedSuccess
       ∧ info (component w3) = [blob Status.success "Connected"]).
Proof.
  assert (Hs : stable resolving_world) by (split; vm_compute; reflexivity).
  assert (Hf : fibers resolving_world !! 1%nat
               = Some (Some (AwaitPrimaryService
                               [blob Status.info "getPrimaryService"])))
    by (vm_compute; reflexivity).
  assert (Hba : Permutation (uuid <$> [char_b; char_a]) ["a"; "b"])
    by apply perm_swap.
  assert (Hab : Permutation (uuid <$> [char_a; char_b]) ["a"; "b"])
    by reflexivity.
  split; [exact Hs|]. split; [exact Hf|]. split; [exact Hba|].
  split.
  - exact (session_sorts_then_succeeds page resolving_world 1
             [blob Status.info "getPrimaryService"] 2%nat
             [char_b; char_a] Hs Hf Hba).
  - exact (session_sorts_then_succeeds page resolving_world 1
             [blob Status.info "getPrimaryService"] 2%nat
             [char_a; char_b] Hs Hf Hab).
Defined.

(** ** A reset while the effect is in flight *)

(** C4, as the code has it.  A reset while the service resolution, the
    enumeration or the subscription is in flight puts the component in
    [Begin] at once, with its handles, its characteristic set and its
    status log cleared; it cancels nothing.  The function stays
    suspended, and when its promise settles the continuation writes to
    the component: a rejection sets [FinishedError]; the success of the
    subscriptions sets [FinishedSuccess] and the one-entry log, the
    characteristic set staying empty; the answer to the enumeration
    stores the sorted characteristics of the discarded session; the
    resolution of the service stores its handle and sets
    [GettingCharacteristics]. *)
Theorem reset_does_not_cancel (env : Env) (w : World) (i : nat) (t : Task)
    (b : list InfoBlob) :
  stable w →
  fibers w !! i = Some (Some t) →
  t = AwaitPrimaryService b ∨ t = AwaitCharacteristics b
  ∨ t = AwaitStartNotifications b →
  ∃ w1,
    handle env reset_invoked w = Some w1
    ∧ bluetoothState (component w1) = Begin
    ∧ info (component w1) = []
    ∧ characteristics (component w1) = []
    ∧ server (component w1) = None
    ∧ service (component w1) = None
    ∧ fibers w1 !! i = Some (Some t)
    ∧ (∀ e, ∃ w2,
         handle env (settled i (rejected e)) w1 = Some w2
         ∧ bluetoothState (component w2) = FinishedError)
    ∧ (t = AwaitStartNotifications b →
       ∃ w2,
         handle env (settled i all_started) w1 = Some w2
         ∧ bluetoothState (component w2) = FinishedSuccess
         ∧ info (component w2) = [blob Status.success "Connected"]
         ∧ characteristics (component w2) = [])
    ∧ (t = AwaitCharacteristics b →
       ∀ l, ∃ w2,
         handle env (settled i (characteristics_found l)) w1 = Some w2
         ∧ characteristics (component w2) = Array_sort compare_uuid l
         ∧ bluetoothState (component w2) = Begin)
    ∧ (t = AwaitPrimaryService b →
       ∀ s, ∃ w2,
         handle env (settled i (service_found s)) w1 = Some w2
         ∧ service (component w2) = Some s
         ∧ bluetoothState (component w2) = GettingCharacteristics).
Proof.
  intros Hs Hf Ht.
  destruct (reset_clears env w Hs)
    as (w1 & H1 & Hs1 & Hst & Hi & Hc & Hsv & Hsc & Hfs & _).
  assert (Hf1 : fibers w1 !! i = Some (Some t)) by by rewrite Hfs.
  exists w1. do 7 (split; [done|]). repeat split.
  - intros e.
    destruct (settle_rejected env w1 i b t e Hs1 Hf1 Ht)
      as (w2 & ? & _ & _ & ? & _).
    by exists w2.
  - intros ->.
    destruct (settle_all_started env w1 i b Hs1 Hf1)
      as (w2 & ? & _ & _ & ? & ? & Hc2).
    exists w2. by rewrite Hc2.
  - intros -> l.
    destruct (settle_characteristics_found env w1 i b l Hs1 Hf1)
      as (w2 & ? & _ & _ & ? & Hst2 & _).
    exists w2. by rewrite Hst2.
  - intros -> s.
    destruct (settle_service_found env w1 i b s Hs1 Hf1)
      as (w2 & ? & _ & _ & ? & ? & _).
    by exists w2.
Qed.

Lemma reset_does_not_cancel_witness :
  stable subscribing_world
  ∧ fibers subscribing_world !! 1%nat
    = Some (Some (AwaitStartNotifications [blob Status.info "getPrimaryService"]))
  ∧ ∃ w1,
    handle page reset_invoked subscribing_world = Some w1
    ∧ bluetoothState (component w1) = Begin
    ∧ ∃ w2,
      handle page (settled 1 all_started) w1 = Some w2
      ∧ bluetoothState (component w2) = FinishedSuccess.
Proof.
  assert (Hs : stable subscribing_world) by (split; vm_compute; reflexivity).
  assert (Hf : fibers subscribing_world !! 1%nat
               = Some (Some (AwaitStartNotifications
                               [blob Status.info "getPrimaryService"])))
    by (vm_compute; reflexivity).
  split; [exact Hs|]. split; [exact Hf|].
  destruct (reset_does_not_cancel page subscribing_world 1
              (AwaitStartNotifications [blob Status.info "getPrimaryService"])
              [blob Status.info "getPrimaryService"] Hs Hf
              (or_intror (or_intror eq_refl)))
    as (w1 & H1 & Hst & _ & _ & _ & _ & _ & _ & Hok & _).
  exists w1. split; [exact H1|]. split; [exact Hst|].
  destruct (Hok eq_refl) as (w2 & H2 & Hst2 & _).
  exists w2. by split.
Defined.

(** A reset in the middle of the subscription, then the subscriptions
    succeed: the component that showed [Begin] is in [FinishedSuccess].
    A reset in the middle of the enumeration, then the enumeration
    answers: the component that showed no characteristic stores those
    of the discarded session. *)
Lemma reset_then_stale_result :
  (∃ w1 w2,
     bluetoothState (component subscribing_world) = GettingCharacteristics
     ∧ handle page reset_invoked subscribing_world = Some w1
     ∧ bluetoothState (component w1) = Begin
     ∧ handle page (settled 1 all_started) w1 = Some w2
     ∧ bluetoothState (component w2) = FinishedSuccess)
  ∧ (∃ w0 w1 w2,
       handle page (settled 1 (service_found 2%nat)) resolving_world = Some w0
       ∧ handle page reset_invoked w0 = Some w1
       ∧ characteristics (component w1) = []
       ∧ handle page (settled 1 (characteristics_found [char_b; char_a])) w1
         = Some w2
       ∧ characteristics (component w2) = [char_a; char_b]).
Proof.
  split.
  - eexists _, _. split; [vm_compute; reflexivity|].
    split; [vm_compute; reflexivity|]. split; [reflexivity|].
    split; [vm_compute; reflexivity|]. reflexivity.
  - eexists _, _, _. split; [vm_compute; reflexivity|].
    split; [vm_compute; reflexivity|]. split; [reflexivity|].
    split; [vm_compute; reflexivity|]. reflexivity.
Qed.

(** ** Notifications *)

Lemma listener_calls (env : Env) (f : Outputs → Result unit) (w : World)
    (c : BluetoothRemoteGATTCharacteristic) (val : OutputType) :
  metaframe_setOutputs_fn env = Some f →
  Decoder.decode (value_buffer c) = Ok val →
  calls (exec (listener env c) w)
  = calls w
    ++ publication f (output_key env (keyAliases (component w)) (uuid c)) val.
Proof.
  intros Hf Hdec. destruct_world w.
  unfold exec, listener, listener_body, try_catch, setMetaframeOutputs.
  rewrite Hf, bind_run. cbn [get_component component keyAliases].
  rewrite Hdec, bind_run. cbn [lift_result]. rewrite !bind_run. cbn [call].
  unfold publication.
  destruct (f _) as [[]|e]; cbn [lift_result calls component rendered fibers].
  - destruct (truthy _); mrun; reflexivity.
  - mrun. by rewrite <- app_assoc.
Qed.

(** A notification in a stable world is the listener and nothing else. *)
Lemma notification_step (env : Env) (w : World) (i : nat)
    (c : BluetoothRemoteGATTCharacteristic) (buffer : option Buffer.ArrayBuffer) :
  stable w → is_Some (metaframe_setOutputs_fn env) →
  characteristics (component w) !! i = Some c →
  handle env (characteristicvaluechanged i buffer) w
  = Some (exec (listener env {| uuid := uuid c; value_buffer := buffer |}) w).
Proof.
  intros Hs [f Hf] Hc. cbn [handle]. rewrite Hf, Hc. f_equal.
  apply after_quiet; [apply listener_deps|apply Hs].
Qed.

(** An entry of the mapping itself is what the read finds. *)
Lemma alias_read_own (aliases : option Options) (id : string) (v : JSValue) :
  alias_of aliases id = Some v → alias_read aliases id = Some (own v).
Proof.
  unfold alias_of, alias_read, Get. destruct aliases as [o|]; [|done].
  cbn. by intros ->.
Qed.

(** Without one, the read finds nothing unless the name is that of an
    inherited member. *)
Lemma alias_read_none (aliases : option Options) (id : string) :
  alias_of aliases id = None → id ∉ Object_prototype_names →
  alias_read aliases id = None.
Proof.
  unfold alias_of, alias_read, Get. destruct aliases as [o|]; [|done].
  cbn. intros -> Hid. by rewrite bool_decide_eq_false_2.
Qed.

Lemma output_key_own (env : Env) (aliases : option Options) (id : string)
    (v : JSValue) :
  alias_of aliases id = Some v →
  output_key env aliases id = if truthy (Some v) then ToString (Some v) else id.
Proof. intros H. unfold output_key. by rewrite (alias_read_own _ _ _ H). Qed.

Lemma output_key_no_alias (env : Env) (aliases : option Options) (id : string) :
  alias_of aliases id = None → id ∉ Object_prototype_names →
  output_key env aliases id = id.
Proof. intros H Hid. unfold output_key. by rewrite alias_read_none. Qed.

Lemma output_key_alias (env : Env) (aliases : option Options) (id A : string) :
  alias_of aliases id = Some (JString A) → A ≠ "" →
  output_key env aliases id = A.
Proof.
  intros H HA. rewrite (output_key_own _ _ _ _ H). cbn.
  by rewrite (proj2 (String.eqb_neq A "") HA).
Qed.


(** The name of an inherited member, with no entry for it in an
    existing mapping: the key is the text of the member. *)
Lemma output_key_inherited (env : Env) (o : Options) (id : string) :
  o !! id = None → id ∈ Object_prototype_names →
  output_key env (Some o) id = inherited_text env id.
Proof.
  intros Ho Hid. unfold output_key, alias_read, Get. cbn.
  by rewrite Ho, bool_decide_eq_true_2.
Qed.

(** In the example page, a characteristic named "constructor" with no
    alias is published under the text of the function [Object]; with
    an alias of its own, under the alias. *)
Example output_key_constructor :
  output_key page (Some heart_rate_options) "constructor"
  = "function Object() { [native code] }"
  ∧ output_key page (Some (<[ "constructor" := JString "c" ]> heart_rate_options))
      "constructor" = "c".
Proof. split; vm_compute; reflexivity. Qed.

(** A name that is none of the inherited ones. *)
Ltac not_inherited :=
  let H := fresh in
  intros H;
  repeat (apply elem_of_cons in H as [H|H]; [discriminate H|]);
  by apply elem_of_nil in H.




(** C9. When the body of the listener throws, the listener returns: the
    error is reported by [console.error], and the state of the
    connection, the server and service handles, the characteristic set
    and the status log are those before the notification; no suspended
    function is touched. *)
Theorem listener_failure_contained (env : Env) (w w1 : World) (i : nat)
    (c : BluetoothRemoteGATTCharacteristic)
    (buffer : option Buffer.ArrayBuffer) (e : Error) :
  stable w →
  is_Some (metaframe_setOutputs_fn env) →
  characteristics (component w) !! i = Some c →
  listener_body env {| uuid := uuid c; value_buffer := buffer |} w
  = (Throw e, w1) →
  ∃ w',
    handle env (characteristicvaluechanged i buffer) w = Some w'
    ∧ calls w' = calls w1 ++ [console_error e]
    ∧ bluetoothState (component w') = bluetoothState (component w)
    ∧ server (component w') = server (component w)
    ∧ service (component w') = service (component w)
    ∧ characteristics (component w') = characteristics (component w)
    ∧ info (component w') = info (component w)
    ∧ fibers w' = fibers w.
Proof.
  intros Hs Hf Hc Hbody. eexists. split; [by apply notification_step|].
  split.
  - unfold exec, listener, try_catch. rewrite Hbody. by destruct w1.
  - pose proof (listener_connection env
                  {| uuid := uuid c; value_buffer := buffer |} w) as Hconn.
    pose proof (listener_fibers env
                  {| uuid := uuid c; value_buffer := buffer |} w) as Hfib.
    unfold connection in Hconn. fold (exec (listener env
      {| uuid := uuid c; value_buffer := buffer |}) w) in Hconn, Hfib.
    by simplify_eq.
Qed.

Lemma listener_failure_contained_witness :
  stable streaming_world
  ∧ is_Some (metaframe_setOutputs_fn page_with_failing_host)
  ∧ characteristics (component streaming_world) !! 0%nat = Some char_a
  ∧ (listener_body page_with_failing_host
       {| uuid := "a"; value_buffer := Some one_float |} streaming_world).1
    = Throw "Error: host is gone"
  ∧ ∃ w',
    handle page_with_failing_host
      (characteristicvaluechanged 0 (Some one_float)) streaming_world = Some w'
    ∧ last (calls w') = Some (console_error "Error: host is gone")
    ∧ bluetoothState (component w') = FinishedSuccess
    ∧ server (component w') = server (component streaming_world)
    ∧ service (component w') = service (component streaming_world)
    ∧ characteristics (component w') = [char_a; char_b]
    ∧ info (component w') = info (component streaming_world)
    ∧ fibers w' = fibers streaming_world.
Proof.
  assert (Hs : stable streaming_world) by (split; vm_compute; reflexivity).
  assert (Hc : characteristics (component streaming_world) !! 0%nat = Some char_a)
    by (vm_compute; reflexivity).
  assert (Hb : listener_body page_with_failing_host
                 {| uuid := uuid char_a; value_buffer := Some one_float |}
                 streaming_world
               = (Throw "Error: host is gone",
                  (listener_body page_with_failing_host
                     {| uuid := uuid char_a; value_buffer := Some one_float |}
                     streaming_world).2))
    by (vm_compute; reflexivity).
  split; [exact Hs|]. split; [by eexists|]. split; [exact Hc|].
  split; [vm_compute; reflexivity|].
  destruct (listener_failure_contained page_with_failing_host streaming_world
              _ 0 char_a (Some one_float) "Error: host is gone" Hs
              (ex_intro _ _ eq_refl) Hc Hb)
    as (w' & Hh & Hcalls & Hst & Hsv & Hsc & Hch & Hi & Hfs).
  exists w'. split; [exact Hh|].
  split; [rewrite Hcalls; apply last_snoc|].
  split; [rewrite Hst; vm_compute; reflexivity|].
  split; [exact Hsv|]. split; [exact Hsc|].
  split; [rewrite Hch; vm_compute; reflexivity|].
  split; [exact Hi|exact Hfs].
Defined.

(** ** The alias mapping *)

Lemma newKeyAliases_lookup (c : Component) (o : Options) (k : string) :
  optionsInHashParams c = Some o →
  alias_of (newKeyAliases c) k
  = if bool_decide (o !! "serviceUUID" = Some (JString k)) then None
    else o !! k.
Proof.
  intros Ho. unfold alias_of, newKeyAliases, serviceUUID. rewrite Ho. cbn.
  rewrite map_lookup_filter. cbn.
  destruct (o !! k) as [v|] eqn:Ek; cbn; [|by case_bool_decide].
  case_bool_decide as Hb.
  - by rewrite option_guard_False by (intros H; by apply H).
  - by rewrite option_guard_True.
Qed.

(** C10, as the code has it.  The alias mapping is the whole options
    object less the entry whose key is the {e value} of the service
    identifier.  The entries named "serviceUUID" and "displayoutputs"
    stay in it, unless that value is their own name.  A characteristic
    whose identifier is one of these names is then published under the
    value of the entry when the value is truthy (a non-empty string,
    or [true] as the text "true"), and under its identifier when it is
    not (the empty string, [false], or no such entry). *)
Theorem keyAliases_keep_option_entries (env : Env) (f : Outputs → Result unit)
    (w : World) (o : Options) (i : nat) (c : BluetoothRemoteGATTCharacteristic)
    (buffer : option Buffer.ArrayBuffer) :
  stable w →
  optionsInHashParams (component w) = Some o →
  (∀ k, alias_of (keyAliases (component w)) k
        = if bool_decide (o !! "serviceUUID" = Some (JString k)) then None
          else o !! k)
  ∧ (∀ name, name ∈ ["serviceUUID"; "displayoutputs"] →
             o !! "serviceUUID" ≠ Some (JString name) →
             alias_of (keyAliases (component w)) name = o !! name)
  ∧ (metaframe_setOutputs_fn env = Some f →
     characteristics (component w) !! i = Some c →
     uuid c ∈ ["serviceUUID"; "displayoutputs"] →
     o !! "serviceUUID" ≠ Some (JString (uuid c)) →
     ∃ w' val,
       handle env (characteristicvaluechanged i buffer) w = Some w'
       ∧ Decoder.decode buffer = Ok val
       ∧ calls w'
         = calls w
           ++ publication f
                (if truthy (o !! uuid c) then ToString (o !! uuid c)
                 else uuid c) val).
Proof.
  intros Hs Ho.
  assert (Hlookup : ∀ k, alias_of (keyAliases (component w)) k
                         = if bool_decide (o !! "serviceUUID" = Some (JString k))
                           then None else o !! k).
  { intros k. rewrite (proj2 Hs). by apply newKeyAliases_lookup. }
  assert (Hkeep : ∀ name, o !! "serviceUUID" ≠ Some (JString name) →
                          alias_of (keyAliases (component w)) name = o !! name).
  { intros name Hne. rewrite Hlookup. by rewrite bool_decide_eq_false_2. }
  split; [exact Hlookup|]. split; [intros name _; apply Hkeep|].
  intros Hf Hc Hin Hne. destruct (decode_returns buffer) as [val Hdec].
  eexists _, val. split; [by apply notification_step|].
  split; [exact Hdec|].
  rewrite (listener_calls env f w {| uuid := uuid c; value_buffer := buffer |}
             val Hf Hdec).
  cbn [uuid]. pose proof (Hkeep (uuid c) Hne) as Ha.
  destruct (o !! uuid c) as [v|] eqn:Ev.
  - by rewrite (output_key_own env _ _ _ Ha).
  - rewrite (output_key_no_alias env _ _ Ha); [done|].
    apply elem_of_cons in Hin as [->|Hin]; [not_inherited|].
    apply elem_of_cons in Hin as [->|Hin]; [not_inherited|].
    by apply elem_of_nil in Hin.
Qed.

Lemma keyAliases_keep_option_entries_witness :
  stable display_world
  ∧ optionsInHashParams (component display_world)
    = Some options_with_display_off
  ∧ characteristics (component display_world) !! 0%nat
    = Some char_displayoutputs
  ∧ alias_of (keyAliases (component display_world)) "serviceUUID"
    = Some (JString "180d")
  ∧ alias_of (keyAliases (component display_world)) "displayoutputs"
    = Some (JBoolean false)
  ∧ ∃ w' val,
    handle page (characteristicvaluechanged 0 (Some one_float)) display_world
    = Some w'
    ∧ Decoder.decode (Some one_float) = Ok val
    ∧ calls w'
      = calls display_world ++ publication (λ _, Ok tt) "displayoutputs" val.
Proof.
  assert (Hs : stable display_world) by (split; vm_compute; reflexivity).
  assert (Ho : optionsInHashParams (component display_world)
               = Some options_with_display_off) by (vm_compute; reflexivity).
  assert (Hc : characteristics (component display_world) !! 0%nat
               = Some char_displayoutputs) by (vm_compute; reflexivity).
  assert (Hin1 : "serviceUUID" ∈ ["serviceUUID"; "displayoutputs"])
    by apply list_elem_of_here.
  assert (Hin2 : "displayoutputs" ∈ ["serviceUUID"; "displayoutputs"])
    by (apply list_elem_of_further, list_elem_of_here).
  assert (Hne1 : options_with_display_off !! "serviceUUID"
                 ≠ Some (JString "serviceUUID")) by (vm_compute; discriminate).
  assert (Hne2 : options_with_display_off !! "serviceUUID"
                 ≠ Some (JString "displayoutputs")) by (vm_compute; discriminate).
  assert (Hv1 : options_with_display_off !! "serviceUUID"
                = Some (JString "180d")) by (vm_compute; reflexivity).
  assert (Hv2 : options_with_display_off !! "displayoutputs"
                = Some (JBoolean false)) by (vm_compute; reflexivity).
  destruct (keyAliases_keep_option_entries page (λ _, Ok tt) display_world
              options_with_display_off 0 char_displayoutputs
              (Some one_float) Hs Ho)
    as (_ & Hkeep & Hpub).
  split; [exact Hs|]. split; [exact Ho|]. split; [exact Hc|].
  split; [exact (eq_trans (Hkeep _ Hin1 Hne1) Hv1)|].
  split; [exact (eq_trans (Hkeep _ Hin2 Hne2) Hv2)|].
  destruct (Hpub eq_refl Hc Hin2 Hne2) as (w' & val & Hh & Hdec & Hcalls).
  exists w', val. split; [exact Hh|]. split; [exact Hdec|].
  rewrite Hcalls. cbn [uuid char_displayoutputs]. by rewrite Hv2.
Defined.

(** The display option is off and a characteristic is named
    [displayoutputs]: the entry is in the alias mapping, and the value
    of the characteristic is published under its own identifier, not
    under the value of the entry. *)
Lemma display_off_keeps_raw_key :
  ∃ w w',
    run page (session_trace [char_displayoutputs])
      (mounted (Some options_with_display_off)) = Some w
    ∧ alias_of (keyAliases (component w)) "displayoutputs"
      = Some (JBoolean false)
    ∧ characteristics (component w) !! 0%nat = Some char_displayoutputs
    ∧ handle page (characteristicvaluechanged 0 (Some [x01]%byte)) w = Some w'
    ∧ last (calls w')
      = Some (metaframe_setOutputs {[ "displayoutputs" := VBoolean true ]})
    ∧ "displayoutputs" ≠ ToString (Some (JBoolean false)).
Proof.
  eexists _, _. split; [vm_compute; reflexivity|].
  split; [vm_compute; reflexivity|]. split; [vm_compute; reflexivity|].
  split; [vm_compute; reflexivity|]. split; [vm_compute; reflexivity|].
  discriminate.
Qed.

(** * Further properties *)

(** ** The decoder *)

(** X1. The decoder never throws, although it calls a constructor that can:
    the branch that builds the [Float32Array] is taken only for a length
    the constructor accepts.  Its value is [undefined] exactly when the
    characteristic has no value. *)
Theorem decode_never_throws (possibleArrayBuffer : option Buffer.ArrayBuffer) :
  ∃ val, Decoder.decode possibleArrayBuffer = Ok val
    ∧ (val = VUndefined ↔ possibleArrayBuffer = None).
Proof.
  destruct possibleArrayBuffer as [buf|]; [|by eexists].
  unfold Decoder.decode, Decoder.Float32Array.
  destruct (Buffer.byteLength buf =? 1);
    [eexists; split; [done|split; done]|].
  destruct (Z.rem (Buffer.byteLength buf) 4 =? 0);
    eexists; (split; [done|split; done]).
Qed.

Lemma decode_last_branch (buf : Buffer.ArrayBuffer) :
  length buf ≠ 1%nat → (length buf `mod` 4 ≠ 0)%nat →
  Decoder.decode (Some buf)
  = Ok (VString (Unibabel.bufferToBase64 (Unibabel.ArrayBufferObject buf))).
Proof.
  intros H1 H4. unfold Decoder.decode.
  rewrite byteLength_is1, byteLength_rem4.
  by rewrite !bool_decide_eq_false_2.
Qed.

(** X27. A payload whose length is neither 1 nor a multiple of 4 decodes
    to the empty text, whatever its bytes: the buffer itself is handed
    to [Unibabel.bufferToBase64], which finds no element in it.  Handed
    a typed array over these bytes, as the two branches before make
    one, the package gives a text that is not empty and that decodes
    back to the bytes. *)
Theorem decode_text_is_empty (buf : Buffer.ArrayBuffer) :
  length buf ≠ 1%nat → (length buf `mod` 4 ≠ 0)%nat →
  Decoder.decode (Some buf) = Ok (VString "")
  ∧ Unibabel.bufferToBase64 (Unibabel.TypedArray buf) ≠ ""
  ∧ Unibabel.base64ToBuffer
      (Unibabel.bufferToBase64 (Unibabel.TypedArray buf)) = Some buf.
Proof.
  intros H1 H4. split; [by rewrite decode_last_branch|].
  split; [|apply base64_roundtrip].
  intros He. apply (bufferToBase64_inj buf []) in He. by subst buf.
Qed.

Lemma decode_text_is_empty_witness :
  Decoder.decode (Some [x4d; x61]%byte) = Ok (VString "")
  ∧ Unibabel.bufferToBase64 (Unibabel.TypedArray [x4d; x61]%byte) = "TWE="
  ∧ Unibabel.base64ToBuffer "TWE=" = Some [x4d; x61]%byte.
Proof.
  assert (H1 : length [x4d; x61]%byte ≠ 1%nat) by discriminate.
  assert (H4 : (length [x4d; x61]%byte `mod` 4 ≠ 0)%nat) by discriminate.
  destruct (decode_text_is_empty [x4d; x61]%byte H1 H4) as (Hd & _ & Hr).
  exact (conj Hd (conj eq_refl Hr)).
Defined.

(** ** [scan] *)

Lemma scan_with_bluetooth_run (env : Env) (w : World) :
  navigator_bluetooth env = true →
  ∃ c', (t ← scan env; spawn t) w
        = (Ok tt,
           {| component := c'; rendered := rendered w;
              calls := calls w
                       ++ [requestDevice
                             (if truthy (serviceUUID (component w))
                              then filters_services
                                     (option_list (serviceUUID (component w)))
                              else acceptAllDevices)];
              fibers :=
                fibers w
                ++ [Some (AwaitRequestDevice
                            [blob Status.info "scanning...";
                             blob Status.info
                               (String.append
                                  "Requesting Bluetooth Device...serviceUUID="
                                  (ToString (serviceUUID (component w))))])] |})
    ∧ optionsInHashParams c' = optionsInHashParams (component w)
    ∧ keyAliases c' = keyAliases (component w)
    ∧ server c' = None ∧ service c' = None ∧ characteristics c' = []
    ∧ bluetoothState c' = Scanning
    ∧ info c' = [blob Status.info "scanning...";
                 blob Status.info
                   (String.append "Requesting Bluetooth Device...serviceUUID="
                      (ToString (serviceUUID (component w))))].
Proof.
  intros Hnb. destruct_world w. unfold scan. rewrite Hnb.
  cbn [negb]. unfold serviceUUID. mrun.
  eexists. split; [reflexivity|]. by cbn.
Qed.

(** X2. With the capability, [scan] first clears the session it finds, then
    asks for a device: one [requestDevice], filtered on the service
    identifier when one is configured and open to every device when
    none is; it is left waiting for the picker in [Scanning]. *)
Theorem scan_requests_device (env : Env) (w : World) :
  navigator_bluetooth env = true → stable w →
  ∃ w', handle env scan_invoked w = Some w'
    ∧ bluetoothState (component w') = Scanning
    ∧ server (component w') = None
    ∧ service (component w') = None
    ∧ characteristics (component w') = []
    ∧ info (component w')
      = [blob Status.info "scanning...";
         blob Status.info
           (String.append "Requesting Bluetooth Device...serviceUUID="
              (ToString (serviceUUID (component w))))]
    ∧ calls w'
      = calls w
        ++ [requestDevice
              (if truthy (serviceUUID (component w))
               then filters_services (option_list (serviceUUID (component w)))
               else acceptAllDevices)]
    ∧ fibers w'
      = fibers w ++ [Some (AwaitRequestDevice (info (component w')))].
Proof.
  intros Hnb [Hr _]. eexists. split; [reflexivity|].
  destruct (scan_with_bluetooth_run env w Hnb)
    as (c' & Hrun & Ho & _ & Hsv & Hsc & Hch & Hst & Hi).
  unfold after.
  match type of Hrun with _ = (_, ?w1) =>
    replace (exec (t ← scan env; spawn t) w) with w1
      by (unfold exec; by rewrite Hrun);
    destruct (commit_same_options w1) as [Hc Hcf]
  end.
  { cbn [component rendered]. by rewrite Hr, Ho. }
  destruct Hcf as [Hcs Hfs]; [right; left; exact Hsv|].
  rewrite Hc, Hcs, Hfs. cbn [component calls fibers].
  by rewrite Hst, Hsv, Hsc, Hch, Hi.
Qed.

Lemma scan_witness_stable : stable (mounted (Some heart_rate_options)).
Proof. split; reflexivity. Qed.

Lemma scan_requests_device_witness :
  navigator_bluetooth page = true
  ∧ stable (mounted (Some heart_rate_options))
  ∧ ∃ w', handle page scan_invoked (mounted (Some heart_rate_options)) = Some w'
    ∧ bluetoothState (component w') = Scanning
    ∧ calls w' = [requestDevice (filters_services [JString "180d"])].
Proof.
  assert (Hs : stable (mounted (Some heart_rate_options)))
    by (split; reflexivity).
  split; [reflexivity|]. split; [exact Hs|].
  destruct (scan_requests_device page (mounted (Some heart_rate_options))
              eq_refl Hs)
    as (w' & Hh & Hst & _ & _ & _ & _ & Hcalls & _).
  exists w'. split; [exact Hh|]. split; [exact Hst|].
  rewrite Hcalls. vm_compute. reflexivity.
Defined.

(** A settlement whose continuation changes neither the options nor
    the server, in a stable world: the event is the continuation, then
    the bookkeeping of the fiber. *)
Lemma settled_quiet_step (env : Env) (w : World) (i : nat) (t : Task)
    (r : Settlement) (k : M (option Task)) :
  stable w → fibers w !! i = Some (Some t) →
  resume t r = Some k → preserves deps k →
  ∃ w', handle env (settled i r) w = Some w' ∧ stable w'
    ∧ w' = exec (next ← try_catch k (λ _, mret None); set_fiber i next) w.
Proof.
  intros Hs Hf Hk Hd. eexists.
  split; [by apply (handle_settled env w i t r k)|].
  split.
  - eapply (handle_stable env (settled i r)); [exact Hs|].
    by apply (handle_settled env w i t r k).
  - apply after_quiet; [|apply Hs].
    apply preserves_bind; [|by intros ? ?].
    apply preserves_try_catch; [exact Hd|by intros ? ?].
Qed.

Lemma scan_catch_deps (b : list InfoBlob) (e : Error) :
  preserves deps (scan_catch b e).
Proof. unfold scan_catch, appendInfo. frame. Qed.

Lemma scan_after_requestDevice_deps (b : list InfoBlob)
    (d : option BluetoothDevice) :
  preserves deps (scan_after_requestDevice b d).
Proof. unfold scan_after_requestDevice, scan_catch, appendInfo. frame. Qed.

(** X3. When the device picker or the GATT connection rejects, [scan] ends
    in [FinishedError] and the stored status log becomes the entries of
    this scan followed by one [error] entry that carries the reason; no
    call is made and the session data are left as they are. *)
Theorem scan_rejection_is_logged (env : Env) (w : World) (i : nat) (t : Task)
    (b : list InfoBlob) (e : Error) :
  stable w → fibers w !! i = Some (Some t) →
  t = AwaitRequestDevice b ∨ t = AwaitConnect b →
  ∃ w', handle env (settled i (rejected e)) w = Some w'
    ∧ bluetoothState (component w') = FinishedError
    ∧ info (component w') = b ++ [blob Status.error e]
    ∧ server (component w') = server (component w)
    ∧ characteristics (component w') = characteristics (component w)
    ∧ calls w' = calls w
    ∧ fibers w' = <[i := None]> (fibers w).
Proof.
  intros Hs Hf Ht.
  destruct (settled_quiet_step env w i t (rejected e) (scan_catch b e) Hs Hf)
    as (w' & Hh & _ & ->);
    [by destruct Ht as [->| ->]|apply scan_catch_deps|].
  eexists. split; [exact Hh|]. destruct_world w. mrun. by repeat split.
Qed.

Lemma scan_rejection_is_logged_witness :
  ∃ w', handle page (settled 0 (rejected "NotFoundError: cancelled"))
          scanning_world = Some w'
    ∧ bluetoothState (component w') = FinishedError
    ∧ info (component w')
      = info (component scanning_world)
        ++ [blob Status.error "NotFoundError: cancelled"]
    ∧ server (component w') = server (component scanning_world)
    ∧ characteristics (component w') = characteristics (component scanning_world)
    ∧ calls w' = calls scanning_world
    ∧ fibers w' = <[0%nat := None]> (fibers scanning_world).
Proof.
  assert (Hs : stable scanning_world) by (split; vm_compute; reflexivity).
  assert (Hf : fibers scanning_world !! 0%nat
               = Some (Some (AwaitRequestDevice
                               (info (component scanning_world)))))
    by (vm_compute; reflexivity).
  exact (scan_rejection_is_logged page scanning_world 0 _ _
           "NotFoundError: cancelled" Hs Hf (or_introl eq_refl)).
Defined.

(** X4. The picker resolves with no device, or with a device that has no
    GATT server: [scan] ends in [FinishedError], in the first case with
    the entry "No device found" after the entries of this scan; no
    connection is attempted. *)
Theorem scan_without_device (env : Env) (w : World) (i : nat)
    (b : list InfoBlob) (d : option BluetoothDevice) :
  stable w → fibers w !! i = Some (Some (AwaitRequestDevice b)) →
  (d ≫= gatt) = None →
  ∃ w', handle env (settled i (device_chosen d)) w = Some w'
    ∧ bluetoothState (component w') = FinishedError
    ∧ (d = None →
       info (component w') = b ++ [blob Status.error "No device found"])
    ∧ (∃ m, last (info (component w')) = Some (blob Status.error m))
    ∧ calls w' = calls w
    ∧ fibers w' = <[i := None]> (fibers w).
Proof.
  intros Hs Hf Hd.
  destruct (settled_quiet_step env w i _ (device_chosen d)
              (scan_after_requestDevice b d) Hs Hf)
    as (w' & Hh & _ & ->); [done|apply scan_after_requestDevice_deps|].
  eexists. split; [exact Hh|]. destruct_world w.
  destruct d as [[[g|]]|]; [done| |]; mrun; cbn.
  - split; [done|]. split; [done|]. split; [|done].
    eexists. by rewrite last_snoc.
  - split; [done|]. split; [done|]. split; [|done].
    eexists. by rewrite last_snoc.
Qed.

Lemma scan_without_device_witness :
  ∃ w', handle page (settled 0 (device_chosen None)) scanning_world = Some w'
    ∧ bluetoothState (component w') = FinishedError
    ∧ (@None BluetoothDevice = None →
       info (component w')
       = info (component scanning_world)
         ++ [blob Status.error "No device found"])
    ∧ (∃ m, last (info (component w')) = Some (blob Status.error m))
    ∧ calls w' = calls scanning_world
    ∧ fibers w' = <[0%nat := None]> (fibers scanning_world).
Proof.
  assert (Hs : stable scanning_world) by (split; vm_compute; reflexivity).
  assert (Hf : fibers scanning_world !! 0%nat
               = Some (Some (AwaitRequestDevice
                               (info (component scanning_world)))))
    by (vm_compute; reflexivity).
  exact (scan_without_device page scanning_world 0 _ None Hs Hf eq_refl).
Defined.

Lemma settle_device_chosen (env : Env) (w : World) (i : nat)
    (b : list InfoBlob) (g : BluetoothRemoteGATTServer) :
  stable w → fibers w !! i = Some (Some (AwaitRequestDevice b)) →
  ∃ w', handle env (settled i (device_chosen (Some {| gatt := Some g |}))) w
        = Some w'
    ∧ stable w'
    ∧ bluetoothState (component w') = Connecting
    ∧ info (component w')
      = b ++ [blob Status.info "Connecting to GATT Server..."]
    ∧ server (component w') = server (component w)
    ∧ service (component w') = service (component w)
    ∧ characteristics (component w') = characteristics (component w)
    ∧ optionsInHashParams (component w') = optionsInHashParams (component w)
    ∧ calls w' = calls w ++ [gatt_connect g]
    ∧ fibers w'
      = <[i := Some (AwaitConnect
                       (b ++ [blob Status.info "Connecting to GATT Server..."]))]>
          (fibers w).
Proof.
  intros Hs Hf.
  destruct (settled_quiet_step env w i _
              (device_chosen (Some {| gatt := Some g |}))
              (scan_after_requestDevice b (Some {| gatt := Some g |})) Hs Hf)
    as (w' & Hh & Hs' & ->); [done|apply scan_after_requestDevice_deps|].
  eexists. split; [exact Hh|]. split; [exact Hs'|].
  destruct_world w. mrun. by repeat split.
Qed.

(** ** The effect on [server] and [serviceUUID] *)

(** A render with a new server and a service identifier: the effect
    asks the server for the service and is left waiting. *)
Lemma run_effects_new_server (w : World) (s : BluetoothRemoteGATTServer)
    (id : JSValue) :
  dep_options (rendered w) = optionsInHashParams (component w) →
  server (component w) = Some s → dep_server (rendered w) ≠ Some s →
  serviceUUID (component w) = Some id → truthy (Some id) = true →
  exec run_effects w
  = {| component := component w; rendered := deps_of (component w);
       calls := calls w ++ [getPrimaryService s id];
       fibers := fibers w
                 ++ [Some (AwaitPrimaryService
                             [blob Status.info "getPrimaryService"])] |}.
Proof.
  destruct w as [c [ro rs] cs fs].
  cbn [component rendered dep_options dep_server calls fibers].
  intros -> Hsv Hrs Hid Ht.
  munfold. unfold dep_serviceUUID. cbn. fold (serviceUUID c).
  rewrite !(bool_decide_eq_false_2 (_ ≠ _)) by (intros H; by apply H).
  cbn. rewrite orb_false_r.
  rewrite bool_decide_eq_true_2 by (by rewrite Hsv).
  unfold server_effect. rewrite Hsv, Hid, Ht. by munfold.
Qed.

Lemma commit_new_server (w : World) (s : BluetoothRemoteGATTServer)
    (id : JSValue) :
  dep_options (rendered w) = optionsInHashParams (component w) →
  server (component w) = Some s → dep_server (rendered w) ≠ Some s →
  serviceUUID (component w) = Some id → truthy (Some id) = true →
  exec commit w
  = {| component := component w; rendered := deps_of (component w);
       calls := calls w ++ [getPrimaryService s id];
       fibers := fibers w
                 ++ [Some (AwaitPrimaryService
                             [blob Status.info "getPrimaryService"])] |}.
Proof.
  intros Ho Hsv Hrs Hid Ht. rewrite commit_exec.
  rewrite (run_effects_new_server w s id Ho Hsv Hrs Hid Ht).
  by apply run_effects_stable_id.
Qed.

Lemma settle_connected (env : Env) (w : World) (i : nat)
    (b : list InfoBlob) (s : BluetoothRemoteGATTServer) :
  stable w → fibers w !! i = Some (Some (AwaitConnect b)) →
  server (component w) ≠ Some s →
  ∃ w', handle env (settled i (connected s)) w = Some w'
    ∧ stable w'
    ∧ bluetoothState (component w') = ChoosingService
    ∧ server (component w') = Some s
    ∧ service (component w') = service (component w)
    ∧ characteristics (component w') = characteristics (component w)
    ∧ optionsInHashParams (component w') = optionsInHashParams (component w)
    ∧ info (component w') = b ++ [blob Status.info "Getting Service..."]
    ∧ (∀ id, serviceUUID (component w) = Some id → truthy (Some id) = true →
         calls w' = calls w ++ [getPrimaryService s id]
         ∧ fibers w'
           = <[i := None]> (fibers w)
             ++ [Some (AwaitPrimaryService
                         [blob Status.info "getPrimaryService"])])
    ∧ (truthy (serviceUUID (component w)) = false →
         calls w' = calls w ∧ fibers w' = <[i := None]> (fibers w)).
Proof.
  intros Hs Hf Hne.
  assert (Hh : handle env (settled i (connected s)) w
               = Some (after (next ← try_catch (scan_after_connect b s)
                                        (λ _, mret None);
                              set_fiber i next) w))
    by (by apply (handle_settled env w i (AwaitConnect b))).
  eexists. split; [exact Hh|].
  split; [by eapply (handle_stable env (settled i (connected s)))|].
  destruct Hs as [Hr _]. unfold after.
  set (w1 := exec (next ← try_catch (scan_after_connect b s) (λ _, mret None);
                   set_fiber i next) w).
  assert (Hw1 : component w1
                = component (exec (setInfo (b ++ [blob Status.info "Getting Service..."]);;
                                   setBluetoothState ChoosingService;;
                                   setServer (Some s)) w)
                ∧ rendered w1 = rendered w ∧ calls w1 = calls w
                ∧ fibers w1 = <[i := None]> (fibers w)).
  { subst w1. destruct_world w. mrun. by repeat split. }
  destruct Hw1 as (Hc1 & Hr1 & Hcs1 & Hfs1).
  assert (Ho1 : dep_options (rendered w1) = optionsInHashParams (component w1)).
  { rewrite Hr1, Hc1, Hr. by destruct_world w. }
  assert (Hsv1 : server (component w1) = Some s)
    by (rewrite Hc1; by destruct_world w).
  assert (Hid1 : serviceUUID (component w1) = serviceUUID (component w))
    by (rewrite Hc1; by destruct_world w).
  assert (Hcomp : component (exec commit w1) = component w1)
    by (by apply commit_same_options).
  rewrite Hcomp, Hc1.
  split; [by destruct_world w|]. split; [by destruct_world w|].
  split; [by destruct_world w|]. split; [by destruct_world w|].
  split; [by destruct_world w|]. split; [by destruct_world w|].
  split.
  - intros id Hid Ht.
    rewrite (commit_new_server w1 s id); cbn [calls fibers].
    + by rewrite Hcs1, Hfs1.
    + exact Ho1.
    + exact Hsv1.
    + rewrite Hr1, Hr. exact Hne.
    + by rewrite Hid1.
    + exact Ht.
  - intros Hf0.
    destruct (commit_same_options w1 Ho1) as [_ Hcf].
    destruct Hcf as [-> ->]; [right; right; by rewrite Hid1|].
    by rewrite Hcs1, Hfs1.
Qed.

(** X5. Once the GATT server is connected and a service identifier is
    configured, the server handle is stored, the state is
    [ChoosingService], and the effect at once asks this server for the
    service of this identifier: one [getPrimaryService], and a new
    function in flight while the one of [scan] is finished. *)
Theorem connected_asks_for_service (env : Env) (w : World) (i : nat)
    (b : list InfoBlob) (s : BluetoothRemoteGATTServer) (id : JSValue) :
  stable w → fibers w !! i = Some (Some (AwaitConnect b)) →
  server (component w) ≠ Some s →
  serviceUUID (component w) = Some id → truthy (Some id) = true →
  ∃ w', handle env (settled i (connected s)) w = Some w'
    ∧ bluetoothState (component w') = ChoosingService
    ∧ server (component w') = Some s
    ∧ info (component w') = b ++ [blob Status.info "Getting Service..."]
    ∧ calls w' = calls w ++ [getPrimaryService s id]
    ∧ fibers w'
      = <[i := None]> (fibers w)
        ++ [Some (AwaitPrimaryService [blob Status.info "getPrimaryService"])].
Proof.
  intros Hs Hf Hne Hid Ht.
  destruct (settle_connected env w i b s Hs Hf Hne)
    as (w' & Hh & _ & Hst & Hsv & _ & _ & _ & Hi & Hgo & _).
  destruct (Hgo id Hid Ht) as [Hcs Hfs]. by exists w'.
Qed.

Lemma connected_asks_for_service_witness :
  ∃ w', handle page (settled 0 (connected 1%nat)) connecting_world = Some w'
    ∧ bluetoothState (component w') = ChoosingService
    ∧ server (component w') = Some 1%nat
    ∧ info (component w')
      = info (component connecting_world)
        ++ [blob Status.info "Getting Service..."]
    ∧ calls w'
      = calls connecting_world ++ [getPrimaryService 1%nat (JString "180d")]
    ∧ fibers w'
      = <[0%nat := None]> (fibers connecting_world)
        ++ [Some (AwaitPrimaryService [blob Status.info "getPrimaryService"])].
Proof.
  assert (Hs : stable connecting_world) by (split; vm_compute; reflexivity).
  assert (Hf : fibers connecting_world !! 0%nat
               = Some (Some (AwaitConnect (info (component connecting_world)))))
    by (vm_compute; reflexivity).
  assert (Hne : server (component connecting_world) ≠ Some 1%nat)
    by (vm_compute; discriminate).
  assert (Hid : serviceUUID (component connecting_world)
                = Some (JString "180d")) by (vm_compute; reflexivity).
  exact (connected_asks_for_service page connecting_world 0 _ 1%nat
           (JString "180d") Hs Hf Hne Hid eq_refl).
Defined.

(** X6. Without a service identifier (none configured, or the empty string)
    the connection leads nowhere: the server handle is stored and the
    state is [ChoosingService], but the effect returns at its guard, no
    request is made, and the function of [scan] is finished, so that no
    settlement can move this session on. *)
Theorem connected_without_service_identifier_stalls (env : Env) (w : World)
    (i : nat) (b : list InfoBlob) (s : BluetoothRemoteGATTServer) :
  stable w → fibers w !! i = Some (Some (AwaitConnect b)) →
  server (component w) ≠ Some s →
  truthy (serviceUUID (component w)) = false →
  ∃ w', handle env (settled i (connected s)) w = Some w'
    ∧ bluetoothState (component w') = ChoosingService
    ∧ server (component w') = Some s
    ∧ service (component w') = service (component w)
    ∧ calls w' = calls w
    ∧ fibers w' = <[i := None]> (fibers w)
    ∧ ∀ r, handle env (settled i r) w' = None.
Proof.
  intros Hs Hf Hne Ht.
  destruct (settle_connected env w i b s Hs Hf Hne)
    as (w' & Hh & _ & Hst & Hsv & Hsc & _ & _ & _ & _ & Hstall).
  destruct (Hstall Ht) as [Hcs Hfs]. exists w'.
  do 6 (split; [done|]). intros r. cbn [handle]. rewrite Hfs.
  rewrite list_lookup_insert_eq by (by eapply lookup_lt_Some). done.
Qed.

Lemma connected_without_service_identifier_stalls_witness :
  ∃ w', handle page (settled 0 (connected 1%nat)) forgotten_identifier_world
        = Some w'
    ∧ bluetoothState (component w') = ChoosingService
    ∧ server (component w') = Some 1%nat
    ∧ service (component w') = service (component forgotten_identifier_world)
    ∧ calls w' = calls forgotten_identifier_world
    ∧ fibers w' = <[0%nat := None]> (fibers forgotten_identifier_world)
    ∧ ∀ r, handle page (settled 0 r) w' = None.
Proof.
  assert (Hs : stable forgotten_identifier_world)
    by (split; vm_compute; reflexivity).
  assert (Hf : fibers forgotten_identifier_world !! 0%nat
               = Some (Some (AwaitConnect (info (component connecting_world)))))
    by (vm_compute; reflexivity).
  assert (Hne : server (component forgotten_identifier_world) ≠ Some 1%nat)
    by (vm_compute; discriminate).
  assert (Ht : truthy (serviceUUID (component forgotten_identifier_world))
               = false) by (vm_compute; reflexivity).
  exact (connected_without_service_identifier_stalls page
           forgotten_identifier_world 0 _ 1%nat Hs Hf Hne Ht).
Defined.

(** X7. A failure while the service is resolved, its characteristics are
    enumerated or the subscriptions are started sets [FinishedError]
    and nothing else: the [appendInfo] of this effect extends a local
    list only, so the stored status log keeps its entries and says
    nothing of the failure; the session data stay, no call is made. *)
Theorem service_failure_is_not_logged (env : Env) (w : World) (i : nat)
    (b : list InfoBlob) (t : Task) (e : Error) :
  stable w → fibers w !! i = Some (Some t) →
  t = AwaitPrimaryService b ∨ t = AwaitCharacteristics b
  ∨ t = AwaitStartNotifications b →
  ∃ w', handle env (settled i (rejected e)) w = Some w'
    ∧ bluetoothState (component w') = FinishedError
    ∧ info (component w') = info (component w)
    ∧ server (component w') = server (component w)
    ∧ service (component w') = service (component w)
    ∧ characteristics (component w') = characteristics (component w)
    ∧ calls w' = calls w
    ∧ fibers w' = <[i := None]> (fibers w).
Proof.
  intros Hs Hf Ht.
  destruct (settled_service_step env w i t (rejected e)
              (server_effect_catch b e) Hs Hf)
    as (w' & Hh & _ & ->);
    [by destruct Ht as [->|[->| ->]]..|].
  eexists. split; [exact Hh|]. destruct_world w. mrun. by repeat split.
Qed.

Lemma service_failure_is_not_logged_witness :
  ∃ w', handle page (settled 1 (rejected "NotFoundError: no such service"))
          resolving_world = Some w'
    ∧ bluetoothState (component w') = FinishedError
    ∧ info (component w') = info (component resolving_world)
    ∧ server (component w') = server (component resolving_world)
    ∧ service (component w') = service (component resolving_world)
    ∧ characteristics (component w') = characteristics (component resolving_world)
    ∧ calls w' = calls resolving_world
    ∧ fibers w' = <[1%nat := None]> (fibers resolving_world).
Proof.
  assert (Hs : stable resolving_world) by (split; vm_compute; reflexivity).
  assert (Hf : fibers resolving_world !! 1%nat
               = Some (Some (AwaitPrimaryService
                               [blob Status.info "getPrimaryService"])))
    by (vm_compute; reflexivity).
  exact (service_failure_is_not_logged page resolving_world 1 _ _
           "NotFoundError: no such service" Hs Hf (or_introl eq_refl)).
Defined.

(** X8. Whatever the platform enumerates, the stored characteristic set is
    the enumerated list rearranged (nothing lost, nothing added) in
    ascending order of identifier, and [startNotifications] is called
    once for each stored characteristic, in that order, before the
    function waits. *)
Theorem enumeration_is_sorted_and_subscribed (env : Env) (w : World) (i : nat)
    (b : list InfoBlob) (l : list BluetoothRemoteGATTCharacteristic) :
  stable w → fibers w !! i = Some (Some (AwaitCharacteristics b)) →
  ∃ w', handle env (settled i (characteristics_found l)) w = Some w'
    ∧ Permutation (characteristics (component w')) l
    ∧ Sorted uuid_le (characteristics (component w'))
    ∧ calls w'
      = calls w ++ (startNotifications <$> characteristics (component w'))
    ∧ fibers w' !! i = Some (Some (AwaitStartNotifications b)).
Proof.
  intros Hs Hf.
  destruct (settle_characteristics_found env w i b l Hs Hf)
    as (w' & Hh & _ & Hf' & Hc & _ & Hcs).
  exists w'. split; [exact Hh|]. rewrite Hc.
  split; [apply Array_sort_perm|]. split; [apply Array_sort_uuid_sorted|].
  by split.
Qed.

Lemma enumeration_is_sorted_and_subscribed_witness :
  ∃ w', handle page (settled 1 (characteristics_found [char_b; char_a]))
          enumerating_world = Some w'
    ∧ Permutation (characteristics (component w')) [char_b; char_a]
    ∧ Sorted uuid_le (characteristics (component w'))
    ∧ calls w'
      = calls enumerating_world
        ++ (startNotifications <$> characteristics (component w'))
    ∧ fibers w' !! 1%nat
      = Some (Some (AwaitStartNotifications
                      [blob Status.info "getPrimaryService"])).
Proof.
  assert (Hs : stable enumerating_world) by (split; vm_compute; reflexivity).
  assert (Hf : fibers enumerating_world !! 1%nat
               = Some (Some (AwaitCharacteristics
                               [blob Status.info "getPrimaryService"])))
    by (vm_compute; reflexivity).
  exact (enumeration_is_sorted_and_subscribed page enumerating_world 1 _
           [char_b; char_a] Hs Hf).
Defined.

(** X9. A reset makes no call: it neither disconnects the GATT server nor
    stops a notification; and after it no notification reaches the
    listener, for the characteristic set is empty. *)
Theorem reset_is_silent (env : Env) (w : World) :
  stable w →
  ∃ w', handle env reset_invoked w = Some w'
    ∧ calls w' = calls w
    ∧ fibers w' = fibers w
    ∧ ∀ i buffer, handle env (characteristicvaluechanged i buffer) w' = None.
Proof.
  intros Hs.
  destruct (reset_clears env w Hs)
    as (w' & Hh & _ & _ & _ & Hc & _ & _ & Hfs & Hcs).
  exists w'. do 3 (split; [done|]). intros i buffer. cbn [handle].
  rewrite Hc. by destruct (metaframe_setOutputs_fn env).
Qed.

Lemma reset_is_silent_witness :
  ∃ w', handle page reset_invoked streaming_world = Some w'
    ∧ calls w' = calls streaming_world
    ∧ fibers w' = fibers streaming_world
    ∧ ∀ i buffer, handle page (characteristicvaluechanged i buffer) w' = None.
Proof.
  assert (Hs : stable streaming_world) by (split; vm_compute; reflexivity).
  exact (reset_is_silent page streaming_world Hs).
Defined.

(** ** A whole session *)

Lemma scan_start_step (env : Env) (w : World) :
  navigator_bluetooth env = true → stable w →
  ∃ w', handle env scan_invoked w = Some w'
    ∧ stable w'
    ∧ optionsInHashParams (component w') = optionsInHashParams (component w)
    ∧ bluetoothState (component w') = Scanning
    ∧ server (component w') = None
    ∧ service (component w') = None
    ∧ characteristics (component w') = []
    ∧ calls w'
      = calls w
        ++ [requestDevice
              (if truthy (serviceUUID (component w))
               then filters_services (option_list (serviceUUID (component w)))
               else acceptAllDevices)]
    ∧ ∃ b, fibers w' = fibers w ++ [Some (AwaitRequestDevice b)].
Proof.
  intros Hnb Hs. eexists. split; [reflexivity|].
  split; [by eapply (handle_stable env scan_invoked)|].
  destruct Hs as [Hr _].
  destruct (scan_with_bluetooth_run env w Hnb)
    as (c' & Hrun & Ho & _ & Hsv & Hsc & Hch & Hst & Hi).
  unfold after.
  match type of Hrun with _ = (_, ?w1) =>
    replace (exec (t ← scan env; spawn t) w) with w1
      by (unfold exec; by rewrite Hrun);
    destruct (commit_same_options w1) as [Hc Hcf]
  end.
  { cbn [component rendered]. by rewrite Hr, Ho. }
  destruct Hcf as [Hcs Hfs]; [right; left; exact Hsv|].
  rewrite Hc, Hcs, Hfs. cbn [component calls fibers].
  do 6 (split; [done|]). by eexists.
Qed.

Lemma service_found_step (env : Env) (w : World) (i : nat)
    (b : list InfoBlob) (s : BluetoothRemoteGATTService) :
  stable w → fibers w !! i = Some (Some (AwaitPrimaryService b)) →
  ∃ w', handle env (settled i (service_found s)) w = Some w'
    ∧ stable w'
    ∧ bluetoothState (component w') = GettingCharacteristics
    ∧ server (component w') = server (component w)
    ∧ service (component w') = Some s
    ∧ characteristics (component w') = characteristics (component w)
    ∧ info (component w') = info (component w)
    ∧ calls w' = calls w ++ [getCharacteristics s]
    ∧ fibers w' = <[i := Some (AwaitCharacteristics b)]> (fibers w).
Proof.
  intros Hs Hf.
  destruct (settled_service_step env w i _ (service_found s)
              (after_getPrimaryService b s) Hs Hf)
    as (w' & Hh & Hs' & ->); [done..|].
  eexists. split; [exact Hh|]. split; [exact Hs'|].
  destruct_world w. mrun. by repeat split.
Qed.

Lemma characteristics_found_step (env : Env) (w : World) (i : nat)
    (b : list InfoBlob) (l : list BluetoothRemoteGATTCharacteristic) :
  stable w → fibers w !! i = Some (Some (AwaitCharacteristics b)) →
  ∃ w', handle env (settled i (characteristics_found l)) w = Some w'
    ∧ stable w'
    ∧ bluetoothState (component w') = bluetoothState (component w)
    ∧ server (component w') = server (component w)
    ∧ service (component w') = service (component w)
    ∧ characteristics (component w') = Array_sort compare_uuid l
    ∧ info (component w') = info (component w)
    ∧ calls w' = calls w ++ (startNotifications <$> Array_sort compare_uuid l)
    ∧ fibers w' = <[i := Some (AwaitStartNotifications b)]> (fibers w).
Proof.
  intros Hs Hf.
  destruct (settled_service_step env w i _ (characteristics_found l)
              (after_getCharacteristics b l) Hs Hf)
    as (w' & Hh & Hs' & ->); [done..|].
  eexists. split; [exact Hh|]. split; [exact Hs'|].
  destruct_world w. unfold exec, try_catch, after_getCharacteristics.
  rewrite !bind_run. cbn [setCharacteristics modify_component].
  rewrite bind_run, mapM_startNotifications. mrun. by repeat split.
Qed.

Lemma all_started_step (env : Env) (w : World) (i : nat) (b : list InfoBlob) :
  stable w → fibers w !! i = Some (Some (AwaitStartNotifications b)) →
  ∃ w', handle env (settled i all_started) w = Some w'
    ∧ stable w'
    ∧ bluetoothState (component w') = FinishedSuccess
    ∧ server (component w') = server (component w)
    ∧ service (component w') = service (component w)
    ∧ characteristics (component w') = characteristics (component w)
    ∧ info (component w') = [blob Status.success "Connected"]
    ∧ calls w' = calls w
    ∧ fibers w' = <[i := None]> (fibers w).
Proof.
  intros Hs Hf.
  destruct (settled_service_step env w i _ all_started
              (after_startNotifications b) Hs Hf)
    as (w' & Hh & Hs' & ->); [done..|].
  eexists. split; [exact Hh|]. split; [exact Hs'|].
  destruct_world w. mrun. by repeat split.
Qed.

(** X10. From the mounted component to an established session, when every
    promise resolves: the state is [FinishedSuccess], both handles are
    stored, the characteristic set is the sorted enumeration, the log is
    the single [success] entry, and the calls made are, in this order,
    one device request filtered on the service identifier, one
    connection, one service resolution on the connected server, one
    enumeration on the resolved service, and one subscription for each
    stored characteristic; nothing is left in flight. *)
Theorem session_from_mount (env : Env) (o : Options) (id : JSValue)
    (g s : BluetoothRemoteGATTServer) (sv : BluetoothRemoteGATTService)
    (l : list BluetoothRemoteGATTCharacteristic) :
  navigator_bluetooth env = true →
  o !! "serviceUUID" = Some id → truthy (Some id) = true →
  ∃ w,
    run env [scan_invoked;
             settled 0 (device_chosen (Some {| gatt := Some g |}));
             settled 0 (connected s);
             settled 1 (service_found sv);
             settled 1 (characteristics_found l);
             settled 1 all_started] (mounted (Some o)) = Some w
    ∧ bluetoothState (component w) = FinishedSuccess
    ∧ server (component w) = Some s
    ∧ service (component w) = Some sv
    ∧ characteristics (component w) = Array_sort compare_uuid l
    ∧ info (component w) = [blob Status.success "Connected"]
    ∧ calls w
      = [requestDevice (filters_services [id]); gatt_connect g;
         getPrimaryService s id; getCharacteristics sv]
        ++ (startNotifications <$> Array_sort compare_uuid l)
    ∧ fibers w = [None; None].
Proof.
  intros Hnb Hid Ht.
  destruct (scan_start_step env (mounted (Some o)) Hnb (mounted_stable _))
    as (w1 & H1 & Hs1 & Ho1 & _ & Hsv1 & _ & _ & Hcs1 & b1 & Hfs1).
  assert (Hf1 : fibers w1 !! 0%nat = Some (Some (AwaitRequestDevice b1)))
    by (by rewrite Hfs1).
  destruct (settle_device_chosen env w1 0 b1 g Hs1 Hf1)
    as (w2 & H2 & Hs2 & _ & _ & Hsv2 & _ & _ & Ho2 & Hcs2 & Hfs2).
  assert (Hf2 : fibers w2 !! 0%nat
                = Some (Some (AwaitConnect
                                (b1 ++ [blob Status.info
                                          "Connecting to GATT Server..."]))))
    by (by rewrite Hfs2, Hfs1).
  assert (Hid2 : serviceUUID (component w2) = Some id)
    by (unfold serviceUUID; by rewrite Ho2, Ho1).
  destruct (settle_connected env w2 0 _ s Hs2 Hf2)
    as (w3 & H3 & Hs3 & _ & Hsv3 & _ & _ & _ & _ & Hgo & _);
    [by rewrite Hsv2, Hsv1|].
  destruct (Hgo id Hid2 Ht) as [Hcs3 Hfs3].
  assert (Hf3 : fibers w3 !! 1%nat
                = Some (Some (AwaitPrimaryService
                                [blob Status.info "getPrimaryService"])))
    by (by rewrite Hfs3, Hfs2, Hfs1).
  destruct (service_found_step env w3 1 _ sv Hs3 Hf3)
    as (w4 & H4 & Hs4 & _ & Hsv4 & Hsc4 & _ & _ & Hcs4 & Hfs4).
  assert (Hf4 : fibers w4 !! 1%nat
                = Some (Some (AwaitCharacteristics
                                [blob Status.info "getPrimaryService"])))
    by (by rewrite Hfs4, Hfs3, Hfs2, Hfs1).
  destruct (characteristics_found_step env w4 1 _ l Hs4 Hf4)
    as (w5 & H5 & Hs5 & _ & Hsv5 & Hsc5 & Hch5 & _ & Hcs5 & Hfs5).
  assert (Hf5 : fibers w5 !! 1%nat
                = Some (Some (AwaitStartNotifications
                                [blob Status.info "getPrimaryService"])))
    by (by rewrite Hfs5, Hfs4, Hfs3, Hfs2, Hfs1).
  destruct (all_started_step env w5 1 _ Hs5 Hf5)
    as (w6 & H6 & _ & Hst6 & Hsv6 & Hsc6 & Hch6 & Hi6 & Hcs6 & Hfs6).
  exists w6. split.
  { cbn [run]. rewrite H1. cbn [mbind option_bind run]. rewrite H2.
    cbn [mbind option_bind run]. rewrite H3. cbn [mbind option_bind run].
    rewrite H4. cbn [mbind option_bind run]. rewrite H5.
    cbn [mbind option_bind run]. by rewrite H6. }
  split; [exact Hst6|]. split; [by rewrite Hsv6, Hsv5, Hsv4|].
  split; [by rewrite Hsc6, Hsc5|]. split; [by rewrite Hch6|].
  split; [exact Hi6|]. split.
  - rewrite Hcs6, Hcs5, Hcs4, Hcs3, Hcs2, Hcs1.
    unfold mounted, serviceUUID. cbn. by rewrite Hid, Ht.
  - rewrite Hfs6, Hfs5, Hfs4, Hfs3, Hfs2, Hfs1. done.
Qed.

Lemma session_from_mount_witness :
  ∃ w,
    run page [scan_invoked;
              settled 0 (device_chosen (Some {| gatt := Some 1%nat |}));
              settled 0 (connected 1%nat);
              settled 1 (service_found 2%nat);
              settled 1 (characteristics_found [char_b; char_a]);
              settled 1 all_started] (mounted (Some heart_rate_options))
    = Some w
    ∧ bluetoothState (component w) = FinishedSuccess
    ∧ server (component w) = Some 1%nat
    ∧ service (component w) = Some 2%nat
    ∧ characteristics (component w)
      = Array_sort compare_uuid [char_b; char_a]
    ∧ info (component w) = [blob Status.success "Connected"]
    ∧ calls w
      = [requestDevice (filters_services [JString "180d"]);
         gatt_connect 1%nat; getPrimaryService 1%nat (JString "180d");
         getCharacteristics 2%nat]
        ++ (startNotifications <$> Array_sort compare_uuid [char_b; char_a])
    ∧ fibers w = [None; None].
Proof.
  exact (session_from_mount page heart_rate_options (JString "180d")
           1%nat 1%nat 2%nat [char_b; char_a] eq_refl eq_refl eq_refl).
Defined.

(** ** A change of the service identifier while connected *)

Lemma run_effects_service_changed (w : World) (s : BluetoothRemoteGATTServer)
    (id : JSValue) :
  serviceUUID (component w) ≠ dep_serviceUUID (rendered w) →
  server (component w) = Some s →
  serviceUUID (component w) = Some id → truthy (Some id) = true →
  rendered (exec run_effects w) = deps_of (component w)
  ∧ calls (exec run_effects w) = calls w ++ [getPrimaryService s id]
  ∧ fibers (exec run_effects w)
    = fibers w
      ++ [Some (AwaitPrimaryService [blob Status.info "getPrimaryService"])].
Proof.
  destruct w as [c [ro rs] cs fs].
  cbn [component rendered dep_options dep_server calls fibers].
  intros Hne Hsv Hid Ht. munfold.
  rewrite (bool_decide_eq_true_2 (serviceUUID c ≠ _)) by exact Hne.
  rewrite orb_true_r. unfold server_effect. rewrite Hsv, Hid, Ht.
  case_bool_decide; by munfold.
Qed.

(** X11. When the service identifier changes while a server is stored, the
    component is reset, and yet the effect on [server] and
    [serviceUUID], which runs after the same render and still sees the
    server of that render, asks that server for the new service: the
    component shows [Begin] with no server while a resolution is in
    flight, and when the service answers the state is
    [GettingCharacteristics] with a service and no server. *)
Theorem serviceUUID_change_starts_resolution (env : Env) (w : World)
    (o : Options) (s : BluetoothRemoteGATTServer) (id : JSValue) :
  stable w → server (component w) = Some s →
  o !! "serviceUUID" = Some id → truthy (Some id) = true →
  serviceUUID (component w) ≠ Some id →
  ∃ w', handle env (options_changed (Some o)) w = Some w'
    ∧ bluetoothState (component w') = Begin
    ∧ server (component w') = None
    ∧ calls w' = calls w ++ [getPrimaryService s id]
    ∧ fibers w'
      = fibers w
        ++ [Some (AwaitPrimaryService [blob Status.info "getPrimaryService"])]
    ∧ ∀ sv, ∃ w'',
        handle env (settled (length (fibers w)) (service_found sv)) w'
        = Some w''
        ∧ bluetoothState (component w'') = GettingCharacteristics
        ∧ service (component w'') = Some sv
        ∧ server (component w'') = None.
Proof.
  intros Hs Hsv Hid Ht Hne.
  assert (Hh : handle env (options_changed (Some o)) w
               = Some (after (host_sets_options (Some o)) w)) by reflexivity.
  assert (Hs' : stable (after (host_sets_options (Some o)) w))
    by (by eapply (handle_stable env (options_changed (Some o)))).
  set (w' := after (host_sets_options (Some o)) w) in *.
  assert (Hw' : bluetoothState (component w') = Begin
                ∧ server (component w') = None
                ∧ calls w' = calls w ++ [getPrimaryService s id]
                ∧ fibers w'
                  = fibers w
                    ++ [Some (AwaitPrimaryService
                                [blob Status.info "getPrimaryService"])]).
  { subst w'. unfold after. rewrite commit_exec.
    set (w0 := exec (host_sets_options (Some o)) w).
    assert (Hne0 : serviceUUID (component w0) ≠ dep_serviceUUID (rendered w0)).
    { subst w0. destruct Hs as [Hr _]. destruct_world w.
      unfold deps_of in Hr. cbn in Hr, Hne |- *. simplify_eq.
      rewrite Hid. intros H. by apply Hne. }
    assert (Hsv0 : server (component w0) = Some s)
      by (subst w0; by destruct_world w).
    assert (Hid0 : serviceUUID (component w0) = Some id)
      by (subst w0; by destruct_world w).
    destruct (run_effects_spec w0) as (Hr1 & Ho1 & _ & Hreset).
    destruct (Hreset Hne0) as (Hst1 & _ & _ & Hsv1 & _).
    destruct (run_effects_service_changed w0 s id Hne0 Hsv0 Hid0 Ht)
      as (_ & Hcs1 & Hfs1).
    destruct (run_effects_same_options (exec run_effects w0))
      as (Hc2 & _ & Hcf2).
    { rewrite Hr1. cbn [deps_of dep_options]. by rewrite Ho1. }
    destruct Hcf2 as [Hcs2 Hfs2]; [right; left; exact Hsv1|].
    rewrite Hc2, Hcs2, Hfs2, Hcs1, Hfs1.
    subst w0. by destruct_world w. }
  destruct Hw' as (Hst & Hsv' & Hcs & Hfs).
  exists w'. do 5 (split; [done|]). intros sv.
  assert (Hf : fibers w' !! length (fibers w)
               = Some (Some (AwaitPrimaryService
                               [blob Status.info "getPrimaryService"]))).
  { rewrite Hfs. by apply list_lookup_middle. }
  destruct (service_found_step env w' _ _ sv Hs' Hf)
    as (w'' & Hh'' & _ & Hst'' & Hsv'' & Hsc'' & _).
  exists w''. by rewrite Hsv'', Hsv'.
Qed.

Lemma serviceUUID_change_starts_resolution_witness :
  ∃ w', handle page
          (options_changed (Some {[ "serviceUUID" := JString "180f" ]}))
          streaming_world = Some w'
    ∧ bluetoothState (component w') = Begin
    ∧ server (component w') = None
    ∧ calls w'
      = calls streaming_world ++ [getPrimaryService 1%nat (JString "180f")]
    ∧ fibers w'
      = fibers streaming_world
        ++ [Some (AwaitPrimaryService [blob Status.info "getPrimaryService"])]
    ∧ ∀ sv, ∃ w'',
        handle page (settled (length (fibers streaming_world)) (service_found sv))
          w' = Some w''
        ∧ bluetoothState (component w'') = GettingCharacteristics
        ∧ service (component w'') = Some sv
        ∧ server (component w'') = None.
Proof.
  assert (Hs : stable streaming_world) by (split; vm_compute; reflexivity).
  assert (Hsv : server (component streaming_world) = Some 1%nat)
    by (vm_compute; reflexivity).
  assert (Hne : serviceUUID (component streaming_world)
                ≠ Some (JString "180f")) by (vm_compute; discriminate).
  exact (serviceUUID_change_starts_resolution page streaming_world
           {[ "serviceUUID" := JString "180f" ]} 1%nat (JString "180f")
           Hs Hsv eq_refl eq_refl Hne).
Defined.

(** ** What a notification leaves for display *)

Lemma listener_display (env : Env) (f : Outputs → Result unit) (w : World)
    (c : BluetoothRemoteGATTCharacteristic) (val : OutputType) :
  metaframe_setOutputs_fn env = Some f →
  Decoder.decode (value_buffer c) = Ok val →
  let key := output_key env (keyAliases (component w)) (uuid c) in
  (outputsRef (component (exec (listener env c) w)),
   outputs (component (exec (listener env c) w)))
  = match f {[ key := val ]} with
    | Ok _ =>
        if truthy (displayoutputs (component w))
        then (if bool_decide (key = "__proto__") then outputsRef (component w)
              else <[ key := val ]> (outputsRef (component w)),
              {[ key := val ]})
        else (outputsRef (component w), outputs (component w))
    | Throw _ => (outputsRef (component w), outputs (component w))
    end.
Proof.
  intros Hf Hdec. destruct_world w.
  unfold exec, listener, listener_body, try_catch, setMetaframeOutputs.
  rewrite Hf, bind_run. cbn [get_component component keyAliases].
  rewrite Hdec, bind_run. cbn [lift_result]. rewrite !bind_run. cbn [call].
  destruct (f _) as [[]|e]; cbn [lift_result calls component rendered fibers].
  - destruct (truthy _); mrun; reflexivity.
  - mrun. reflexivity.
Qed.

(** X12. With the display option on, a notification that the host accepts
    stores its value under the output key in the table of the values
    shown, over the value that key had, and leaves the other keys;
    under the key [__proto__] nothing is stored; in both cases the
    [outputs] state holds that one entry alone.  With the option off,
    or when the host throws, neither changes. *)
Theorem notification_is_kept_for_display (env : Env)
    (f : Outputs → Result unit) (w : World) (i : nat)
    (c : BluetoothRemoteGATTCharacteristic)
    (buffer : option Buffer.ArrayBuffer) :
  stable w →
  metaframe_setOutputs_fn env = Some f →
  characteristics (component w) !! i = Some c →
  ∃ w' val key,
    handle env (characteristicvaluechanged i buffer) w = Some w'
    ∧ Decoder.decode buffer = Ok val
    ∧ key = output_key env (keyAliases (component w)) (uuid c)
    ∧ (truthy (displayoutputs (component w)) = true →
       f {[ key := val ]} = Ok tt →
       (key ≠ "__proto__" →
        outputsRef (component w') !! key = Some val
        ∧ ∀ k, k ≠ key →
               outputsRef (component w') !! k = outputsRef (component w) !! k)
       ∧ (key = "__proto__" →
          outputsRef (component w') = outputsRef (component w))
       ∧ outputs (component w') = {[ key := val ]})
    ∧ (truthy (displayoutputs (component w)) = false
       ∨ (∃ e, f {[ key := val ]} = Throw e) →
       outputsRef (component w') = outputsRef (component w)
       ∧ outputs (component w') = outputs (component w)).
Proof.
  intros Hs Hf Hc. destruct (decode_returns buffer) as [val Hdec].
  eexists _, val, _. split; [by apply notification_step|].
  split; [exact Hdec|]. split; [reflexivity|].
  pose proof (listener_display env f w
                {| uuid := uuid c; value_buffer := buffer |} val Hf Hdec) as H.
  cbn [uuid] in H. cbv zeta in H.
  set (key := output_key env (keyAliases (component w)) (uuid c)) in *.
  split.
  - intros Ht Hok. rewrite Hok, Ht in H. apply (inj2 pair) in H as [-> ->].
    split; [|split; [|done]].
    + intros Hk. rewrite bool_decide_eq_false_2 by done.
      split; [apply lookup_insert_eq|]. intros k Hne.
      by apply lookup_insert_ne.
    + intros Hk. by rewrite bool_decide_eq_true_2.
  - intros [Ht|[e He]].
    + rewrite Ht in H. destruct (f _); by apply (inj2 pair) in H.
    + rewrite He in H. by apply (inj2 pair) in H.
Qed.

Lemma notification_is_kept_for_display_witness :
  ∃ w' val key,
    handle page (characteristicvaluechanged 0 (Some one_float)) displaying_world
    = Some w'
    ∧ Decoder.decode (Some one_float) = Ok val
    ∧ key = "a"
    ∧ outputsRef (component w') !! key = Some val
    ∧ outputs (component w') = {[ key := val ]}.
Proof.
  assert (Hs : stable displaying_world) by (split; vm_compute; reflexivity).
  assert (Hc : characteristics (component displaying_world) !! 0%nat
               = Some char_a) by (vm_compute; reflexivity).
  assert (Ht : truthy (displayoutputs (component displaying_world)) = true)
    by (vm_compute; reflexivity).
  destruct (notification_is_kept_for_display page (λ _, Ok tt)
              displaying_world 0 char_a (Some one_float) Hs eq_refl Hc)
    as (w' & val & key & Hh & Hdec & Hkey & Hon & _).
  assert (Hk : key = "a") by (rewrite Hkey; vm_compute; reflexivity).
  destruct (Hon Ht eq_refl) as (Hstore & _ & Ho).
  assert (Hp : key ≠ "__proto__") by (rewrite Hk; discriminate).
  exact (ex_intro _ w' (ex_intro _ val (ex_intro _ key
           (conj Hh (conj Hdec (conj Hk (conj (proj1 (Hstore Hp)) Ho))))))).
Defined.

(** ** A change of the options that keeps the service identifier *)

Lemma run_effects_same_service (w : World) :
  serviceUUID (component w) = dep_serviceUUID (rendered w) →
  dep_server (rendered w) = server (component w) →
  connection (exec run_effects w) = connection w
  ∧ calls (exec run_effects w) = calls w
  ∧ fibers (exec run_effects w) = fibers w
  ∧ outputsRef (component (exec run_effects w)) = outputsRef (component w)
  ∧ outputs (component (exec run_effects w)) = outputs (component w).
Proof.
  destruct w as [c [ro rs] cs fs].
  cbn [component rendered dep_options dep_server calls fibers].
  intros Hid Hsv. munfold.
  rewrite (bool_decide_eq_false_2 (serviceUUID c ≠ _))
    by (intros H; by apply H).
  rewrite (bool_decide_eq_false_2 (server c ≠ _))
    by (intros H; by apply H).
  cbn. by case_bool_decide.
Qed.

Lemma options_changed_same_service (env : Env) (w : World) (o : Options) :
  stable w → o !! "serviceUUID" = serviceUUID (component w) →
  ∃ w', handle env (options_changed (Some o)) w = Some w'
    ∧ stable w'
    ∧ optionsInHashParams (component w') = Some o
    ∧ connection w' = connection w
    ∧ calls w' = calls w
    ∧ fibers w' = fibers w
    ∧ outputsRef (component w') = outputsRef (component w)
    ∧ outputs (component w') = outputs (component w).
Proof.
  intros Hs Hid. eexists. split; [reflexivity|].
  split; [by eapply (handle_stable env (options_changed (Some o)))|].
  unfold after. rewrite commit_exec.
  set (w0 := exec (host_sets_options (Some o)) w).
  assert (Hw0 : optionsInHashParams (component w0) = Some o
                ∧ connection w0 = connection w ∧ calls w0 = calls w
                ∧ fibers w0 = fibers w ∧ rendered w0 = rendered w
                ∧ outputsRef (component w0) = outputsRef (component w)
                ∧ outputs (component w0) = outputs (component w))
    by (subst w0; by destruct_world w).
  destruct Hw0 as (Ho0 & Hc0 & Hcs0 & Hfs0 & Hr0 & Hor0 & Hou0).
  destruct Hs as [Hr _].
  assert (Hsv0 : dep_server (rendered w0) = server (component w0)).
  { rewrite Hr0, Hr. unfold connection in Hc0. by simplify_eq. }
  assert (Hid0 : serviceUUID (component w0) = dep_serviceUUID (rendered w0)).
  { rewrite Hr0, Hr. unfold serviceUUID at 1. rewrite Ho0. cbn. by rewrite Hid. }
  destruct (run_effects_same_service w0 Hid0 Hsv0)
    as (Hc1 & Hcs1 & Hfs1 & Hor1 & Hou1).
  destruct (run_effects_spec w0) as (Hr1 & Ho1 & _).
  set (w1 := exec run_effects w0) in *.
  destruct (run_effects_same_options w1) as (Hc2 & _ & Hcf2).
  { rewrite Hr1. cbn [deps_of dep_options]. by rewrite Ho1. }
  destruct Hcf2 as [Hcs2 Hfs2].
  { left. rewrite Hr1. cbn [deps_of dep_server]. unfold connection in Hc1.
    by simplify_eq. }
  rewrite Hcs2, Hfs2. unfold connection. rewrite Hc2.
  fold (connection w1). by rewrite Ho1, Hc1, Hcs1, Hfs1, Hor1, Hou1.
Qed.

Lemma options_changed_alias (env : Env) (w : World) (o : Options)
    (id A : string) :
  stable w →
  o !! "serviceUUID" = serviceUUID (component w) →
  o !! "serviceUUID" ≠ Some (JString id) →
  o !! id = Some (JString A) → A ≠ "" →
  ∃ w1,
    handle env (options_changed (Some o)) w = Some w1
    ∧ stable w1
    ∧ connection w1 = connection w
    ∧ calls w1 = calls w
    ∧ fibers w1 = fibers w
    ∧ output_key env (keyAliases (component w1)) id = A.
Proof.
  intros Hs Hid Hne HA HA'.
  destruct (options_changed_same_service env w o Hs Hid)
    as (w1 & Hh & Hs1 & Ho1 & Hc1 & Hcs1 & Hfs1 & _).
  exists w1. do 5 (split; [assumption|]).
  apply output_key_alias; [|done].
  rewrite (proj2 Hs1), (newKeyAliases_lookup _ o _ Ho1).
  by rewrite bool_decide_eq_false_2.
Qed.



(** X14. The options menu lists, after the two options of the application,
    one text option for each stored characteristic, in the stored
    order, named by the identifier of the characteristic.  A non-empty
    text stored in the options under the name of such an entry is the
    key of the next notification of that characteristic, unless the
    name is the service identifier or the word [serviceUUID]. *)
Theorem menu_entry_names_the_output (env : Env) (f : Outputs → Result unit)
    (w : World) (o : Options) (i : nat) (m : MenuOption) (A : string)
    (buffer : option Buffer.ArrayBuffer) :
  stable w →
  metaframe_setOutputs_fn env = Some f →
  optionsInHashParams (component w) = Some o →
  menu_options (component w) !! (2 + i)%nat = Some m →
  name m ≠ "serviceUUID" →
  o !! "serviceUUID" ≠ Some (JString (name m)) → A ≠ "" →
  ∃ c w1 w2 val,
    characteristics (component w) !! i = Some c
    ∧ name m = uuid c ∧ type m = type_string
    ∧ handle env (options_changed (Some (<[ name m := JString A ]> o))) w
      = Some w1
    ∧ connection w1 = connection w
    ∧ handle env (characteristicvaluechanged i buffer) w1 = Some w2
    ∧ Decoder.decode buffer = Ok val
    ∧ calls w2 = calls w ++ publication f A val.
Proof.
  intros Hs Hf Ho Hm Hn Hne HA.
  unfold menu_options in Hm.
  change (2 + i)%nat with (length appOptions + i)%nat in Hm.
  rewrite lookup_app_r in Hm by lia.
  replace (length appOptions + i - length appOptions)%nat with i in Hm by lia.
  rewrite list_lookup_fmap in Hm.
  destruct (characteristics (component w) !! i) as [c|] eqn:Hc; [|done].
  cbn in Hm. apply (inj Some) in Hm. subst m. cbn [name type] in *.
  destruct (options_changed_alias env w (<[ uuid c := JString A ]> o)
              (uuid c) A Hs)
    as (w1 & Hh & Hs1 & Hc1 & Hcs1 & _ & Hkey); try done.
  - rewrite lookup_insert_ne by done. unfold serviceUUID. by rewrite Ho.
  - by rewrite lookup_insert_ne.
  - by rewrite lookup_insert_eq.
  - destruct (decode_returns buffer) as [val Hdec].
    assert (Hch : characteristics (component w1) !! i = Some c).
    { unfold connection in Hc1. congruence. }
    exists c, w1. eexists _, val. do 5 (split; [done|]).
    split; [by apply notification_step|]. split; [exact Hdec|].
    rewrite (listener_calls env f w1
               {| uuid := uuid c; value_buffer := buffer |} val Hf Hdec).
    cbn [uuid]. by rewrite Hcs1, Hkey.
Qed.

Lemma menu_entry_names_the_output_witness :
  ∃ m c w1 w2 val,
    menu_options (component streaming_world) !! 2%nat = Some m
    ∧ characteristics (component streaming_world) !! 0%nat = Some c
    ∧ name m = uuid c ∧ type m = type_string
    ∧ handle page
        (options_changed
           (Some (<[ name m := JString "pulse" ]> heart_rate_options)))
        streaming_world = Some w1
    ∧ connection w1 = connection streaming_world
    ∧ handle page (characteristicvaluechanged 0 (Some one_float)) w1 = Some w2
    ∧ Decoder.decode (Some one_float) = Ok val
    ∧ calls w2 = calls streaming_world ++ publication (λ _, Ok tt) "pulse" val.
Proof.
  assert (Hs : stable streaming_world) by (split; vm_compute; reflexivity).
  assert (Ho : optionsInHashParams (component streaming_world)
               = Some heart_rate_options) by (vm_compute; reflexivity).
  assert (Hm : menu_options (component streaming_world) !! (2 + 0)%nat
               = Some {| name := "a";
                         displayName := "Map characteristic a to name";
                         type := type_string; default_value := None |})
    by (vm_compute; reflexivity).
  assert (Hn : "a" ≠ "serviceUUID") by discriminate.
  assert (Hne : heart_rate_options !! "serviceUUID" ≠ Some (JString "a"))
    by (vm_compute; discriminate).
  assert (HA : "pulse" ≠ "") by discriminate.
  destruct (menu_entry_names_the_output page (λ _, Ok tt) streaming_world
              heart_rate_options 0 _ "pulse" (Some one_float)
              Hs eq_refl Ho Hm Hn Hne HA)
    as (c & w1 & w2 & val & Hc & H).
  exact (ex_intro _ _ (ex_intro _ c (ex_intro _ w1 (ex_intro _ w2
           (ex_intro _ val (conj Hm (conj Hc H))))))).
Defined.

(** X15. An alias entered for the characteristic whose identifier is the
    service identifier itself is not used: the entry is dropped from
    the alias mapping, and the notification is published under the
    identifier, or, when the identifier is the name of a member
    inherited from [Object.prototype], under the text of that member. *)
Theorem alias_of_service_identifier_is_ignored (env : Env)
    (f : Outputs → Result unit) (w : World) (o : Options) (i : nat)
    (c : BluetoothRemoteGATTCharacteristic)
    (buffer : option Buffer.ArrayBuffer) :
  stable w →
  metaframe_setOutputs_fn env = Some f →
  optionsInHashParams (component w) = Some o →
  characteristics (component w) !! i = Some c →
  o !! "serviceUUID" = Some (JString (uuid c)) →
  alias_of (keyAliases (component w)) (uuid c) = None
  ∧ ∃ w' val,
      handle env (characteristicvaluechanged i buffer) w = Some w'
      ∧ Decoder.decode buffer = Ok val
      ∧ calls w'
        = calls w
          ++ publication f
               (if bool_decide (uuid c ∈ Object_prototype_names)
                then inherited_text env (uuid c) else uuid c) val.
Proof.
  intros Hs Hf Ho Hc Hid.
  assert (Ha : alias_of (keyAliases (component w)) (uuid c) = None).
  { rewrite (proj2 Hs), (newKeyAliases_lookup _ o _ Ho).
    by rewrite bool_decide_eq_true_2. }
  split; [exact Ha|]. destruct (decode_returns buffer) as [val Hdec].
  eexists _, val. split; [by apply notification_step|]. split; [exact Hdec|].
  rewrite (listener_calls env f w {| uuid := uuid c; value_buffer := buffer |}
             val Hf Hdec).
  cbn [uuid]. case_bool_decide as Hin.
  - destruct (keyAliases (component w)) as [o'|] eqn:Hk.
    + by rewrite (output_key_inherited env o' (uuid c) Ha Hin).
    + rewrite (proj2 Hs) in Hk. unfold newKeyAliases in Hk.
      by rewrite Ho in Hk.
  - by rewrite (output_key_no_alias env _ _ Ha Hin).
Qed.

Lemma alias_of_service_identifier_is_ignored_witness :
  options_with_alias_of_service !! "a" = Some (JString "pulse")
  ∧ alias_of (keyAliases (component aliased_service_world)) "a" = None
  ∧ ∃ w' val,
      handle page (characteristicvaluechanged 0 (Some one_float))
        aliased_service_world = Some w'
      ∧ Decoder.decode (Some one_float) = Ok val
      ∧ calls w'
        = calls aliased_service_world ++ publication (λ _, Ok tt) "a" val.
Proof.
  assert (Hs : stable aliased_service_world)
    by (split; vm_compute; reflexivity).
  assert (Ho : optionsInHashParams (component aliased_service_world)
               = Some options_with_alias_of_service)
    by (vm_compute; reflexivity).
  assert (Hc : characteristics (component aliased_service_world) !! 0%nat
               = Some char_a) by (vm_compute; reflexivity).
  assert (Hid : options_with_alias_of_service !! "serviceUUID"
                = Some (JString (uuid char_a))) by (vm_compute; reflexivity).
  assert (Hn : uuid char_a ∉ Object_prototype_names) by not_inherited.
  split; [vm_compute; reflexivity|].
  destruct (alias_of_service_identifier_is_ignored page (λ _, Ok tt)
              aliased_service_world options_with_alias_of_service 0 char_a
              (Some one_float) Hs eq_refl Ho Hc Hid)
    as (Ha & w' & val & Hh & Hdec & Hcalls).
  rewrite (bool_decide_eq_false_2 _ Hn) in Hcalls.
  exact (conj Ha (ex_intro _ w' (ex_intro _ val
           (conj Hh (conj Hdec Hcalls))))).
Defined.

(** ** The button *)

Lemma truthy_length (v : option JSValue) :
  truthy v = true → length_is v 0 = false.
Proof.
  destruct v as [[s|b]|]; try done. destruct s; [done|]. by intros _.
Qed.

(** X16. Before a scan the button is disabled exactly when the service
    identifier is falsy (missing, empty or [false]): the test on its
    length adds nothing.  It is the text alone that asks for more than
    four characters. *)
Theorem button_disabled_without_identifier (c : Component) :
  bluetoothState c = Begin →
  (disabled (button c) = true ↔ truthy (serviceUUID c) = false)
  ∧ (text (button c) = "Scan" ↔ length_gt (serviceUUID c) 4 = true)
  ∧ onClick (button c) = onClick_scan.
Proof.
  intros Hst. unfold button. rewrite Hst. cbn [disabled text onClick].
  split; [|split; [|done]].
  - destruct (truthy (serviceUUID c)) eqn:Ht; cbn.
    + by rewrite truthy_length.
    + done.
  - unfold length_gt.
    destruct (serviceUUID c) as [[s|b]|]; cbn [js_length];
      [|by destruct b|done].
    destruct s as [|a s]; [done|]. cbn [truthy String.eqb negb andb].
    by destruct (4 <? String.length (String a s))%nat.
Qed.

Lemma button_disabled_without_identifier_witness :
  bluetoothState (component (mounted (Some heart_rate_options))) = Begin
  ∧ disabled (button (component (mounted (Some heart_rate_options)))) = false
  ∧ text (button (component (mounted (Some heart_rate_options)))) ≠ "Scan".
Proof.
  destruct (button_disabled_without_identifier
              (component (mounted (Some heart_rate_options))) eq_refl)
    as (Hd & Ht & _).
  split; [reflexivity|]. split.
  - destruct (disabled _); [|done].
    pose proof (proj1 Hd eq_refl) as H. vm_compute in H. discriminate H.
  - intros E. apply Ht in E. vm_compute in E. discriminate E.
Defined.

(** X17. A service identifier of one to four characters, such as the short
    form [180d]: the button reads that an identifier is required, yet
    it is enabled, and a click on it asks for a device with that
    identifier. *)
Theorem short_identifier_scans (env : Env) (w : World) (s : string) :
  navigator_bluetooth env = true → stable w →
  bluetoothState (component w) = Begin →
  serviceUUID (component w) = Some (JString s) →
  (0 < String.length s ≤ 4)%nat →
  text (button (component w)) = "<= Service UUID required "
  ∧ ∃ w', click env w = Some w'
    ∧ bluetoothState (component w') = Scanning
    ∧ calls w' = calls w ++ [requestDevice (filters_services [JString s])].
Proof.
  intros Hnb Hs Hst Hid [Hl1 Hl2].
  assert (Ht : truthy (serviceUUID (component w)) = true).
  { rewrite Hid. destruct s; [by cbn in Hl1; lia|done]. }
  assert (Hg : length_gt (serviceUUID (component w)) 4 = false).
  { rewrite Hid. unfold length_gt. cbn [js_length]. apply Nat.ltb_ge. lia. }
  split.
  - unfold button. rewrite Hst. cbn [text]. by rewrite Ht, Hg.
  - destruct (scan_start_step env w Hnb Hs)
      as (w' & Hh & _ & _ & Hst' & _ & _ & _ & Hcalls & _).
    exists w'. unfold click, button. rewrite Hst. cbn [disabled onClick].
    rewrite Ht, (truthy_length _ Ht). cbn [negb orb].
    split; [exact Hh|]. split; [exact Hst'|].
    rewrite Hcalls, Ht, Hid. done.
Qed.

Lemma short_identifier_scans_witness :
  text (button (component (mounted (Some heart_rate_options))))
  = "<= Service UUID required "
  ∧ ∃ w', click page (mounted (Some heart_rate_options)) = Some w'
    ∧ bluetoothState (component w') = Scanning
    ∧ calls w' = [requestDevice (filters_services [JString "180d"])].
Proof.
  assert (Hs : stable (mounted (Some heart_rate_options)))
    by (split; reflexivity).
  assert (Hl : (0 < String.length "180d" ≤ 4)%nat) by (cbn; lia).
  exact (short_identifier_scans page (mounted (Some heart_rate_options)) "180d"
           eq_refl Hs eq_refl eq_refl Hl).
Defined.

(** X18. While the device picker is open a click does nothing.  Once a
    device is chosen and the GATT server has not answered, the button
    scans again: a click opens the picker a second time, and the
    connection under way stays in flight beside the new request. *)
Theorem click_while_connecting_scans_again (env : Env) (w : World) :
  navigator_bluetooth env = true → stable w →
  (bluetoothState (component w) = Scanning → click env w = None)
  ∧ (bluetoothState (component w) = Connecting →
     ∃ w' options b,
       click env w = Some w'
       ∧ bluetoothState (component w') = Scanning
       ∧ calls w' = calls w ++ [requestDevice options]
       ∧ fibers w' = fibers w ++ [Some (AwaitRequestDevice b)]).
Proof.
  intros Hnb Hs. split; intros Hst; unfold click, button; rewrite Hst;
    cbn [disabled onClick]; [done|].
  destruct (scan_start_step env w Hnb Hs)
    as (w' & Hh & _ & _ & Hst' & _ & _ & _ & Hcalls & b & Hfs).
  by eexists w', _, b.
Qed.

Lemma click_while_connecting_scans_again_witness :
  click page scanning_world = None
  ∧ ∃ w' options b,
      click page connecting_world = Some w'
      ∧ bluetoothState (component w') = Scanning
      ∧ calls w' = calls connecting_world ++ [requestDevice options]
      ∧ fibers w'
        = [Some (AwaitConnect (info (component connecting_world)));
           Some (AwaitRequestDevice b)].
Proof.
  assert (Hs1 : stable scanning_world) by (split; vm_compute; reflexivity).
  assert (Hs2 : stable connecting_world) by (split; vm_compute; reflexivity).
  split.
  - exact (proj1 (click_while_connecting_scans_again page scanning_world
                    eq_refl Hs1) eq_refl).
  - destruct (proj2 (click_while_connecting_scans_again page connecting_world
                       eq_refl Hs2) eq_refl)
      as (w' & options & b & Hc & Hst & Hcalls & Hfs).
    exists w', options, b. by repeat split.
Defined.

(** X19. From the service choice on, and after a failure, the button resets:
    a click returns the component to [Begin] with no handle, no
    characteristic and an empty log; it makes no call and cancels
    nothing; and the button offers the scan again. *)
Theorem click_disconnects (env : Env) (w : World) :
  stable w →
  bluetoothState (component w)
  ∈ [ChoosingService; GettingService; GettingCharacteristics;
     FinishedSuccess; FinishedError] →
  ∃ w', click env w = Some w'
    ∧ bluetoothState (component w') = Begin
    ∧ server (component w') = None
    ∧ service (component w') = None
    ∧ characteristics (component w') = []
    ∧ info (component w') = []
    ∧ calls w' = calls w
    ∧ fibers w' = fibers w
    ∧ onClick (button (component w')) = onClick_scan.
Proof.
  intros Hs Hst.
  destruct (reset_clears env w Hs)
    as (w' & Hh & _ & Hb & Hi & Hc & Hsv & Hsc & Hfs & Hcs).
  exists w'. split.
  - unfold click, button.
    repeat (apply elem_of_cons in Hst as [->|Hst]; [exact Hh|]).
    by apply elem_of_nil in Hst.
  - do 7 (split; [done|]). unfold button. by rewrite Hb.
Qed.

Lemma click_disconnects_witness :
  ∃ w', click page streaming_world = Some w'
    ∧ bluetoothState (component w') = Begin
    ∧ server (component w') = None
    ∧ characteristics (component w') = []
    ∧ calls w' = calls streaming_world.
Proof.
  assert (Hs : stable streaming_world) by (split; vm_compute; reflexivity).
  assert (Hst : bluetoothState (component streaming_world)
                ∈ [ChoosingService; GettingService; GettingCharacteristics;
                   FinishedSuccess; FinishedError]).
  { replace (bluetoothState (component streaming_world)) with FinishedSuccess
      by (vm_compute; reflexivity).
    do 3 apply list_elem_of_further. apply list_elem_of_here. }
  destruct (click_disconnects page streaming_world Hs Hst)
    as (w' & Hc & Hb & Hsv & _ & Hch & _ & Hcs & _).
  exists w'. by repeat split.
Defined.

(** ** The table of outputs *)

Lemma compare_keys_le (a b : string) :
  (compare_keys a b <=? 0) = true → key_le a b.
Proof.
  unfold compare_keys, key_le, String.leb.
  by destruct (String.compare a b).
Qed.

Lemma compare_keys_gt (a b : string) :
  (compare_keys a b <=? 0) = false → key_le b a.
Proof.
  unfold compare_keys, key_le, String.leb.
  rewrite (String.compare_antisym a b).
  by destruct (String.compare b a).
Qed.

Lemma key_le_cases (a b : string) : key_le a b ↔ key_lt a b ∨ a = b.
Proof.
  unfold key_le, key_lt, String.leb, String.ltb.
  destruct (String.compare a b) eqn:E.
  - apply String.compare_eq_iff in E. by split; [right|].
  - by split; [left|].
  - split; [done|]. intros [?| ->]; [done|].
    assert (H : String.compare b b = Eq) by (by apply String_as_OT.cmp_eq).
    congruence.
Qed.

Lemma key_lt_trans (a b c : string) : key_lt a b → key_lt b c → key_lt a c.
Proof.
  unfold key_lt, String.ltb. intros H1 H2.
  assert (E1 : String.compare a b = Lt) by (by destruct (String.compare a b)).
  assert (E2 : String.compare b c = Lt) by (by destruct (String.compare b c)).
  apply String_as_OT.cmp_lt in E1, E2.
  pose proof (String_as_OT.lt_trans _ _ _ E1 E2) as E.
  apply String_as_OT.cmp_lt in E. unfold String_as_OT.cmp in E. by rewrite E.
Qed.

Lemma key_le_trans (a b c : string) : key_le a b → key_le b c → key_le a c.
Proof.
  rewrite !key_le_cases. intros [H1 | ->] [H2 | ->]; auto.
  left. by eapply key_lt_trans.
Qed.

Lemma sort_insert_keys_sorted (x : string) (l : list string) :
  StronglySorted key_le l → StronglySorted key_le (sort_insert compare_keys x l).
Proof.
  induction 1 as [|y l Hl IH Hall]; simpl; [by repeat constructor|].
  destruct (compare_keys x y <=? 0) eqn:E.
  - apply compare_keys_le in E. constructor; [by constructor|].
    constructor; [done|].
    eapply Forall_impl; [exact Hall|]. intros z Hz. by eapply key_le_trans.
  - apply compare_keys_gt in E. constructor; [done|].
    rewrite (sort_insert_perm compare_keys x l). by constructor.
Qed.

Lemma Array_sort_keys_sorted (l : list string) :
  StronglySorted key_le (Array_sort compare_keys l).
Proof.
  induction l as [|x l IH]; simpl; [constructor|].
  by apply sort_insert_keys_sorted.
Qed.

Lemma StronglySorted_filter_keys (P : string → Prop) `{!∀ k, Decision (P k)}
    (R : string → string → Prop) (l : list string) :
  StronglySorted R l → StronglySorted R (filter P l).
Proof.
  induction 1 as [|x l Hl IH Hall]; [constructor|].
  rewrite filter_cons. destruct (decide (P x)); [|done].
  constructor; [done|]. rewrite Forall_forall in Hall |- *.
  intros y Hy. apply list_elem_of_filter in Hy as [_ Hy]. by apply Hall.
Qed.

Lemma StronglySorted_strict (l : list string) :
  NoDup l → StronglySorted key_le l → StronglySorted key_lt l.
Proof.
  intros Hnd. induction 1 as [|x l Hl IH Hall]; [constructor|].
  apply NoDup_cons in Hnd as [Hx Hnd]. constructor; [by apply IH|].
  rewrite Forall_forall in Hall |- *. intros y Hy.
  by destruct (proj1 (key_le_cases x y) (Hall y Hy)) as [?| ->].
Qed.

Lemma Object_keys_elem (o : Outputs) (k : string) :
  k ∈ Object_keys o ↔ is_Some (o !! k).
Proof.
  unfold Object_keys. rewrite list_elem_of_fmap. split.
  - intros [[k' v] [-> H]]. apply elem_of_map_to_list in H. by eexists.
  - intros [v H]. exists (k, v). split; [done|]. by apply elem_of_map_to_list.
Qed.

Section TableFacts.
Variable Number_toString : spec_float → string.

Lemma output_rows_keys (o : Outputs) :
  (output_rows Number_toString o).*1
  = filter (λ key : string, key ≠ "") (Array_sort compare_keys (Object_keys o)).
Proof.
  unfold output_rows. rewrite <- list_fmap_compose.
  rewrite <- (list_fmap_id (filter _ _)) at 2. by apply list_fmap_ext.
Qed.

Lemma output_rows_elem (o : Outputs) (k cell : string) :
  (k, cell) ∈ output_rows Number_toString o
  ↔ k ≠ ""
    ∧ ∃ v, o !! k = Some v
           ∧ cell = if truthy_output (Some v)
                    then stringifyValue Number_toString v else "".
Proof.
  unfold output_rows. rewrite list_elem_of_fmap. split.
  - intros (k' & [= <- ->] & Hk). apply list_elem_of_filter in Hk as [Hne Hk].
    rewrite (Array_sort_perm compare_keys (Object_keys o)) in Hk.
    apply Object_keys_elem in Hk as [v Hv]. split; [done|]. exists v.
    split; [done|]. unfold output_cell. by rewrite Hv.
  - intros (Hne & v & Hv & ->). exists k. split.
    + unfold output_cell. by rewrite Hv.
    + apply list_elem_of_filter. split; [done|].
      rewrite (Array_sort_perm compare_keys (Object_keys o)).
      apply Object_keys_elem. by eexists.
Qed.

(** X20. The table has one row for every key of the values kept for display
    but the empty key, and no other row; the rows are in strictly
    ascending order of their keys, so that no key has two rows; the
    cell of a row is the text of the value, and is empty for a value
    that is falsy. *)
Theorem output_rows_spec (o : Outputs) :
  (∀ k cell,
     (k, cell) ∈ output_rows Number_toString o
     ↔ k ≠ ""
       ∧ ∃ v, o !! k = Some v
              ∧ cell = if truthy_output (Some v)
                       then stringifyValue Number_toString v else "")
  ∧ StronglySorted key_lt (output_rows Number_toString o).*1
  ∧ length (output_rows Number_toString o) = size (delete "" o).
Proof.
  split; [apply output_rows_elem|].
  assert (Hnd : NoDup (filter (λ key : string, key ≠ "")
                         (Array_sort compare_keys (Object_keys o)))).
  { apply NoDup_filter.
    rewrite (Array_sort_perm compare_keys (Object_keys o)).
    apply NoDup_fst_map_to_list. }
  split.
  - rewrite output_rows_keys. apply StronglySorted_strict; [exact Hnd|].
    apply StronglySorted_filter_keys, Array_sort_keys_sorted.
  - rewrite <- (length_fmap fst), output_rows_keys.
    rewrite <- (length_map_to_list (delete "" o)).
    rewrite <- (length_fmap fst (map_to_list (delete "" o))).
    apply Permutation_length, NoDup_Permutation;
      [exact Hnd|apply NoDup_fst_map_to_list|].
    intros k. rewrite list_elem_of_filter.
    rewrite (Array_sort_perm compare_keys (Object_keys o)), Object_keys_elem.
    rewrite list_elem_of_fmap. split.
    + intros [Hne [v Hv]]. exists (k, v). split; [done|].
      apply elem_of_map_to_list. by rewrite lookup_delete_ne.
    + intros [[k' v] [-> H]]. apply elem_of_map_to_list in H. cbn in *.
      destruct (decide (k' = "")) as [->|Hne].
      * by rewrite lookup_delete_eq in H.
      * rewrite lookup_delete_ne in H by done. split; [done|by eexists].
Qed.

(** X21. A value [false], an empty text or [undefined] leaves its cell
    empty, where a [true] reads "true"; a list of numbers is shown
    between brackets even when it is empty. *)
Theorem falsy_value_is_an_empty_cell (o : Outputs) (k : string)
    (v : OutputType) :
  k ≠ "" → o !! k = Some v →
  ∃ cell, (k, cell) ∈ output_rows Number_toString o
    ∧ (v ∈ [VBoolean false; VString ""; VUndefined] → cell = "")
    ∧ (v = VBoolean true → cell = "true")
    ∧ (v = VNumbers [] → cell = "[]")
    ∧ (∀ s, v = VString s → cell = s).
Proof.
  intros Hne Hv. eexists. split.
  - apply output_rows_elem. split; [done|]. by exists v.
  - split; [|split; [|split]].
    + intros H. repeat (apply elem_of_cons in H as [->|H]; [done|]).
      by apply elem_of_nil in H.
    + by intros ->.
    + by intros ->.
    + intros s ->. cbn. by destruct s.
Qed.

End TableFacts.

Lemma falsy_value_is_an_empty_cell_witness :
  ("a", "") ∈ output_rows (λ _, "") {[ "a" := VBoolean false ]}.
Proof.
  assert (Hne : "a" ≠ "") by discriminate.
  assert (Hv : ({[ "a" := VBoolean false ]} : Outputs) !! "a"
               = Some (VBoolean false)) by (vm_compute; reflexivity).
  destruct (falsy_value_is_an_empty_cell (λ _, "") {[ "a" := VBoolean false ]}
              "a" (VBoolean false) Hne Hv)
    as (cell & Hin & Hfalsy & _).
  rewrite (Hfalsy (list_elem_of_here _ _)) in Hin. exact Hin.
Defined.

Section DisplayFacts.
Variable Number_toString : spec_float → string.

(** X22. With the display option on and a host that accepts the value, the
    table rendered after a notification has a row for the output key,
    whose cell is the text of the decoded value, and for every other
    key the rows it had before; this for an output key that is neither
    empty nor [__proto__]. *)
Theorem notification_appears_in_table (env : Env) (f : Outputs → Result unit)
    (w : World) (i : nat) (c : BluetoothRemoteGATTCharacteristic)
    (buffer : option Buffer.ArrayBuffer) (val : OutputType) (key : string) :
  stable w →
  metaframe_setOutputs_fn env = Some f →
  characteristics (component w) !! i = Some c →
  key = output_key env (keyAliases (component w)) (uuid c) →
  key ≠ "" → key ≠ "__proto__" →
  truthy (displayoutputs (component w)) = true →
  Decoder.decode buffer = Ok val →
  f {[ key := val ]} = Ok tt →
  ∃ w' rows,
    handle env (characteristicvaluechanged i buffer) w = Some w'
    ∧ output_table Number_toString (component w') = Some rows
    ∧ (key,
       if truthy_output (Some val) then stringifyValue Number_toString val
       else "") ∈ rows
    ∧ ∀ k cell, k ≠ key →
        ((k, cell) ∈ rows
         ↔ (k, cell) ∈ output_rows Number_toString (outputsRef (component w))).
Proof.
  intros Hs Hf Hc Hkey Hne Hproto Ht Hdec Hok.
  set (c' := {| uuid := uuid c; value_buffer := buffer |}).
  pose proof (listener_display env f w c' val Hf Hdec) as Hd.
  cbv zeta in Hd. cbn [uuid c'] in Hd. rewrite <- Hkey in Hd.
  rewrite Hok, Ht in Hd. rewrite bool_decide_eq_false_2 in Hd by done.
  apply (inj2 pair) in Hd as [Href _].
  pose proof (listener_config env c' w) as Hcfg.
  fold (exec (listener env c') w) in Hcfg.
  assert (Ho : optionsInHashParams (component (exec (listener env c') w))
               = optionsInHashParams (component w))
    by (unfold config in Hcfg; congruence).
  eexists _, _. split; [by apply notification_step|]. fold c'.
  unfold output_table, displayoutputs. rewrite Ho.
  fold (displayoutputs (component w)). rewrite Ht, Href.
  split; [reflexivity|]. split.
  - apply output_rows_elem. split; [done|].
    exists val. by rewrite lookup_insert_eq.
  - intros k cell Hk. rewrite !output_rows_elem.
    by rewrite lookup_insert_ne.
Qed.

End DisplayFacts.

Lemma notification_appears_in_table_witness :
  ∃ w' rows,
    handle page (characteristicvaluechanged 0 (Some [x01]%byte))
      displaying_world = Some w'
    ∧ output_table (λ _, "") (component w') = Some rows
    ∧ ("a", "true") ∈ rows.
Proof.
  assert (Hs : stable displaying_world) by (split; vm_compute; reflexivity).
  assert (Hc : characteristics (component displaying_world) !! 0%nat
               = Some char_a) by (vm_compute; reflexivity).
  assert (Ht : truthy (displayoutputs (component displaying_world)) = true)
    by (vm_compute; reflexivity).
  assert (Hk : "a" = output_key page (keyAliases (component displaying_world))
                       (uuid char_a)) by (vm_compute; reflexivity).
  assert (Hne : "a" ≠ "") by discriminate.
  assert (Hproto : "a" ≠ "__proto__") by discriminate.
  destruct (notification_appears_in_table (λ _, "") page (λ _, Ok tt)
              displaying_world 0 char_a (Some [x01]%byte) (VBoolean true) "a"
              Hs eq_refl Hc Hk Hne Hproto Ht eq_refl eq_refl)
    as (w' & rows & Hh & Ht' & Hin & _).
  exact (ex_intro _ w' (ex_intro _ rows (conj Hh (conj Ht' Hin)))).
Defined.

(** ** The status of the log entries *)

Lemma has_status_blob (s : Status.t) (m : string) : has_status (blob s m).
Proof. by exists s. Qed.

Ltac labels :=
  repeat first
    [ done
    | apply has_status_blob
    | apply Forall_nil_2
    | apply Forall_cons_2
    | apply Forall_app_2
    | apply Forall_insert ].

Lemma server_effect_task (c : Component) (w : World) :
  ∃ t cs', server_effect c w
           = (Ok t, {| component := component w; rendered := rendered w;
                       calls := cs'; fibers := fibers w |})
    ∧ Forall has_status (from_option task_log [] t).
Proof.
  unfold server_effect. destruct w as [c0 r cs fs].
  destruct (server c) as [s|], (serviceUUID c) as [id|];
    try (eexists None, _; split; [reflexivity|constructor]).
  destruct (truthy (Some id));
    [|eexists None, _; split; [reflexivity|constructor]].
  eexists (Some _), _. split; [reflexivity|]. cbn. labels.
Qed.

Lemma run_effects_labelled (w : World) :
  labelled w → labelled (exec run_effects w).
Proof.
  destruct w as [c [ro rs] cs fs]. intros [Hi Hf]. cbn in Hi, Hf.
  munfold.
  repeat case_bool_decide; cbn;
    try match goal with
      | |- context [server_effect ?c ?w] =>
          destruct (server_effect_task c w) as (t & cs' & -> & Ht); cbn;
          destruct t
      end; split; cbn; labels.
Qed.

Lemma after_labelled {A} (m : M A) (w : World) :
  labelled (exec m w) → labelled (after m w).
Proof.
  intros H. unfold after. rewrite commit_exec.
  by do 2 apply run_effects_labelled.
Qed.

Lemma fiber_labelled (w : World) (i : nat) (t : Task) :
  labelled w → fibers w !! i = Some (Some t) → Forall has_status (task_log t).
Proof.
  intros [_ Hf] Hi. rewrite Forall_lookup in Hf. exact (Hf i _ Hi).
Qed.

Lemma scan_labelled (env : Env) (w : World) :
  labelled w → labelled (exec (t ← scan env; spawn t) w).
Proof.
  intros [Hi Hf]. destruct_world w. cbn in Hi, Hf.
  unfold scan. destruct (navigator_bluetooth env); mrun; split; cbn;
    labels.
Qed.

Lemma settled_labelled (w : World) (i : nat) (t : Task) (r : Settlement)
    (k : M (option Task)) :
  labelled w → fibers w !! i = Some (Some t) → resume t r = Some k →
  labelled (exec (next ← try_catch k (λ _, mret None); set_fiber i next) w).
Proof.
  intros Hl Ht Hk. pose proof (fiber_labelled w i t Hl Ht) as Hb.
  destruct Hl as [Hi Hf]. destruct_world w. cbn in Hi, Hf.
  destruct t as [b|b|b|b|b], r as [e|d|s|s|l|]; cbn in Hk, Hb;
    try discriminate Hk; apply (inj Some) in Hk; subst k.
  - mrun. split; cbn; labels.
  - destruct d as [[[g|]]|]; mrun; split; cbn; labels.
  - mrun. split; cbn; labels.
  - mrun. split; cbn; labels.
  - mrun. split; cbn; labels.
  - mrun. split; cbn; labels.
  - mrun. split; cbn; labels.
  - unfold exec, after_getCharacteristics. rewrite !bind_run.
    unfold try_catch. rewrite !bind_run. cbn [setCharacteristics modify_component].
    rewrite bind_run, mapM_startNotifications. mrun. split; cbn; labels.
  - mrun. split; cbn; labels.
  - mrun. split; cbn; labels.
Qed.

Lemma handle_labelled (env : Env) (ev : Event) (w w' : World) :
  labelled w → handle env ev w = Some w' → labelled w'.
Proof.
  intros Hl. destruct ev as [| |o|i r|i buffer]; cbn [handle].
  - intros H. apply (inj Some) in H. subst w'.
    by apply after_labelled, scan_labelled.
  - intros H. apply (inj Some) in H. subst w'. apply after_labelled.
    destruct Hl as [Hi Hf]. destruct_world w. by split; [constructor|].
  - intros H. apply (inj Some) in H. subst w'. apply after_labelled.
    destruct Hl as [Hi Hf]. by destruct_world w.
  - destruct (fibers w !! i) as [[t|]|] eqn:Ht; try done.
    destruct (resume t r) as [k|] eqn:Hk; [|done].
    intros H. apply (inj Some) in H. subst w'.
    by eapply after_labelled, settled_labelled.
  - destruct (metaframe_setOutputs_fn env) as [f|]; [|done].
    destruct (characteristics (component w) !! i) as [c|]; [|done].
    intros H. apply (inj Some) in H. subst w'. apply after_labelled.
    set (c' := {| uuid := uuid c; value_buffer := buffer |}).
    pose proof (listener_connection env c' w) as Hc.
    pose proof (listener_fibers env c' w) as Hfs.
    fold (exec (listener env c') w) in Hc, Hfs.
    destruct Hl as [Hi Hf]. unfold labelled. rewrite Hfs.
    unfold connection in Hc.
    replace (info (component (exec (listener env c') w)))
      with (info (component w)) by congruence.
    by split.
Qed.

Lemma run_labelled (env : Env) (evs : list Event) :
  ∀ w w', labelled w → run env evs w = Some w' → labelled w'.
Proof.
  induction evs as [|ev evs IH]; intros w w' Hl; cbn [run].
  - intros H. by apply (inj Some) in H; subst.
  - destruct (handle env ev w) as [w1|] eqn:Hh; [|done]. cbn.
    apply IH. by eapply handle_labelled.
Qed.

(** X23. Whatever the events since the component was mounted, every entry
    of the stored status log has a status: the alert that shows an
    entry never falls back to [error] for want of one. *)
Theorem alert_status_is_the_stored_status (env : Env) (evs : list Event)
    (o : option Options) (w : World) :
  run env evs (mounted o) = Some w →
  Forall (λ i, status i = Some (alert_status i)) (info (component w)).
Proof.
  intros Hrun.
  assert (Hl : labelled w).
  { eapply run_labelled; [|exact Hrun]. split; constructor. }
  destruct Hl as [Hi _]. eapply Forall_impl; [exact Hi|].
  intros i [s Hs]. unfold alert_status. by rewrite Hs.
Qed.

Lemma alert_status_is_the_stored_status_witness :
  ∃ w, run page (session_trace [char_b; char_a])
         (mounted (Some heart_rate_options)) = Some w
    ∧ Forall (λ i, status i = Some (alert_status i)) (info (component w)).
Proof.
  eexists. split; [vm_compute; reflexivity|].
  apply (alert_status_is_the_stored_status page
           (session_trace [char_b; char_a]) (Some heart_rate_options)).
  vm_compute. reflexivity.
Defined.

(** ** Invariants of the session *)

(** X24. A notification, published or not, touches nothing of the session:
    the state, the handles, the characteristic set, the status log, the
    options, the alias mapping and the functions in flight are those
    before it. *)
Theorem notification_leaves_session (env : Env) (w w' : World) (i : nat)
    (buffer : option Buffer.ArrayBuffer) :
  stable w →
  handle env (characteristicvaluechanged i buffer) w = Some w' →
  connection w' = connection w
  ∧ fibers w' = fibers w
  ∧ optionsInHashParams (component w') = optionsInHashParams (component w)
  ∧ keyAliases (component w') = keyAliases (component w).
Proof.
  intros Hs. cbn [handle].
  destruct (metaframe_setOutputs_fn env) as [f|]; [|done].
  destruct (characteristics (component w) !! i) as [c|]; [|done].
  intros H. apply (inj Some) in H. subst w'.
  rewrite after_quiet by (apply listener_deps || apply Hs).
  set (c' := {| uuid := uuid c; value_buffer := buffer |}).
  pose proof (listener_connection env c' w) as Hc.
  pose proof (listener_fibers env c' w) as Hf.
  pose proof (listener_config env c' w) as Hg.
  fold (exec (listener env c') w) in Hc, Hf, Hg.
  unfold config in Hg. split; [exact Hc|]. split; [exact Hf|].
  split; congruence.
Qed.

Lemma notification_leaves_session_witness :
  ∃ w', handle page_with_failing_host
          (characteristicvaluechanged 0 (Some one_float)) streaming_world
        = Some w'
    ∧ connection w' = connection streaming_world
    ∧ fibers w' = fibers streaming_world.
Proof.
  assert (Hs : stable streaming_world) by (split; vm_compute; reflexivity).
  assert (Hh : handle page_with_failing_host
                 (characteristicvaluechanged 0 (Some one_float)) streaming_world
               = Some (default streaming_world
                         (handle page_with_failing_host
                            (characteristicvaluechanged 0 (Some one_float))
                            streaming_world)))
    by (vm_compute; reflexivity).
  destruct (notification_leaves_session page_with_failing_host
              streaming_world _ 0 (Some one_float) Hs Hh)
    as (Hc & Hf & _).
  exact (ex_intro _ _ (conj Hh (conj Hc Hf))).
Defined.



Lemma run_effects_idle (w : World) :
  idle_clean (component w) → idle_clean (component (exec run_effects w)).
Proof.
  destruct w as [c [ro rs] cs fs]. cbn [component]. intros Hc. munfold.
  repeat case_bool_decide; cbn;
    try match goal with
      | |- context [server_effect ?c ?w] =>
          destruct (server_effect_run c w) as (t & cs' & ->); cbn
      end; try exact Hc; by intros _.
Qed.

Lemma after_idle {A} (m : M A) (w : World) :
  idle_clean (component (exec m w)) → idle_clean (component (after m w)).
Proof.
  intros H. unfold after. rewrite commit_exec.
  by do 2 apply run_effects_idle.
Qed.

Lemma settled_idle (w : World) (i : nat) (t : Task) (r : Settlement)
    (k : M (option Task)) :
  idle_clean (component w) → resume t r = Some k →
  idle_clean
    (component
       (exec (next ← try_catch k (λ _, mret None); set_fiber i next) w)).
Proof.
  intros Hc Hk. destruct_world w. cbn [component] in Hc.
  destruct t as [b|b|b|b|b], r as [e|d|s|s|l|]; cbn in Hk;
    try discriminate Hk; apply (inj Some) in Hk; subst k;
    try (mrun; by intros ?).
  - destruct d as [[[g|]]|]; mrun; by intros ?.
  - unfold exec, after_getCharacteristics. rewrite !bind_run.
    unfold try_catch. rewrite !bind_run.
    cbn [setCharacteristics modify_component].
    rewrite bind_run, mapM_startNotifications. mrun. exact Hc.
Qed.

Lemma handle_idle (env : Env) (ev : Event) (w w' : World) :
  idle_clean (component w) → handle env ev w = Some w' →
  idle_clean (component w').
Proof.
  intros Hc. destruct ev as [| |o|i r|i buffer]; cbn [handle].
  - intros H. apply (inj Some) in H. subst w'. apply after_idle.
    destruct_world w. unfold scan.
    destruct (navigator_bluetooth env); mrun; by intros ?.
  - intros H. apply (inj Some) in H. subst w'. apply after_idle.
    by destruct_world w.
  - intros H. apply (inj Some) in H. subst w'. apply after_idle.
    by destruct_world w.
  - destruct (fibers w !! i) as [[t|]|]; try done.
    destruct (resume t r) as [k|] eqn:Hk; [|done].
    intros H. apply (inj Some) in H. subst w'.
    by eapply after_idle, settled_idle.
  - destruct (metaframe_setOutputs_fn env) as [f|]; [|done].
    destruct (characteristics (component w) !! i) as [c|]; [|done].
    intros H. apply (inj Some) in H. subst w'. apply after_idle.
    set (c' := {| uuid := uuid c; value_buffer := buffer |}).
    pose proof (listener_connection env c' w) as Hl.
    fold (exec (listener env c') w) in Hl. unfold connection in Hl.
    unfold idle_clean in *.
    replace (bluetoothState (component (exec (listener env c') w)))
      with (bluetoothState (component w)) by congruence.
    replace (info (component (exec (listener env c') w)))
      with (info (component w)) by congruence.
    replace (server (component (exec (listener env c') w)))
      with (server (component w)) by congruence.
    replace (service (component (exec (listener env c') w)))
      with (service (component w)) by congruence.
    exact Hc.
Qed.

Lemma run_idle (env : Env) (evs : list Event) :
  ∀ w w', idle_clean (component w) → run env evs w = Some w' →
          idle_clean (component w').
Proof.
  induction evs as [|ev evs IH]; intros w w' Hc; cbn [run].
  - intros H. by apply (inj Some) in H; subst.
  - destruct (handle env ev w) as [w1|] eqn:Hh; [|done]. cbn.
    apply IH. by eapply handle_idle.
Qed.

(** X26. Whatever happened since the component was mounted, late results of
    a discarded session included: whenever the state is [Begin] the
    status log is empty and neither a server nor a service handle is
    stored. *)
Theorem begin_holds_no_session (env : Env) (evs : list Event)
    (o : option Options) (w : World) :
  run env evs (mounted o) = Some w →
  bluetoothState (component w) = Begin →
  info (component w) = []
  ∧ server (component w) = None
  ∧ service (component w) = None.
Proof.
  intros Hrun. apply (run_idle env evs (mounted o) w); [|exact Hrun].
  by intros _.
Qed.

Lemma begin_holds_no_session_witness :
  ∃ w, run page (connect_trace ++ [reset_invoked])
         (mounted (Some heart_rate_options)) = Some w
    ∧ info (component w) = []
    ∧ server (component w) = None
    ∧ service (component w) = None.
Proof.
  assert (Hrun : run page (connect_trace ++ [reset_invoked])
                   (mounted (Some heart_rate_options))
                 = Some (world_after page (connect_trace ++ [reset_invoked])
                           heart_rate_options))
    by (vm_compute; reflexivity).
  assert (Hst : bluetoothState
                  (component
                     (world_after page (connect_trace ++ [reset_invoked])
                        heart_rate_options)) = Begin)
    by (vm_compute; reflexivity).
  exact (ex_intro _ _
           (conj Hrun (begin_holds_no_session page _ _ _ Hrun Hst))).
Defined.
